(** * TPMFactoryUpd: update flow, command layer and device channel

    A shallow embedding of the parts of the Infineon TPM firmware updater
    that the specification talks about:

    - [TpmIO.c]                        (connect / disconnect / transmit),
    - [TPM2_GetCapability.c], [TPM2_StartAuthSession.c],
      [TPM2_GetTestResult.c], [TPM2_HierarchyChangeAuth.c]
                                       (command layer),
    - [CommandFlow_TpmUpdate.c]        (update driver),
    - [CommandFlow_Tpm12ClearOwnership.c].

    Conventions.  An [unsigned int] is a [Z]; bit operations are [Z.lor]
    and [Z.lxor].  A [do { ... } WHILE_FALSE_END] block is a computation in
    the [Block] monad, where [break] carries the value [unReturnValue] has
    at that point.  Globals ([g_fConnected], [s_fUpdateThroughConfigFile],
    the property storage, the files on disk) live in [World].  Functions of
    the repository that are not part of the verified sources are either
    environment oracles ([Env]: the chip, the operating system) or fields of
    [Platform]; every call to one of them is recorded in [trace]. *)

From Stdlib Require Import ZArith Lia Bool List String Ascii.
From stdpp Require Import base gmap strings list fin_maps.
From Equations Require Import Equations.
Import ListNotations.

Local Open Scope string_scope.
Local Open Scope list_scope.
Local Open Scope Z_scope.

(** ** Return codes and other constants of headers that are not part of
       the sources.  They are kept abstract. *)

Definition RC_SUCCESS : Z := 0.
Definition TPM_RC_SUCCESS : Z := 0.

Class Codes : Type := {
  (* ErrorCodes.h *)
  RC_TPM_MASK : Z;
  RC_E_FAIL : Z;
  RC_E_INTERNAL : Z;
  RC_E_BAD_PARAMETER : Z;
  RC_E_NOT_CONNECTED : Z;
  RC_E_ALREADY_CONNECTED : Z;
  RC_E_NOT_READY : Z;
  RC_E_INSUFFICIENT_BUFFER : Z;
  RC_E_END_OF_STRING : Z;
  RC_E_INVALID_SETTING : Z;
  RC_E_NOT_SUPPORTED_FEATURE : Z;
  RC_E_TPM_NOT_SUPPORTED_FEATURE : Z;
  RC_E_TPM12_NO_OWNER : Z;
  RC_E_NO_IFX_TPM : Z;
  RC_E_UNSUPPORTED_CHIP : Z;
  RC_E_TPM12_INVALID_OWNERAUTH : Z;
  RC_E_TPM12_DEFERREDPP_REQUIRED : Z;
  RC_E_TPM12_DISABLED_DEACTIVATED : Z;
  RC_E_TPM12_OWNED : Z;
  RC_E_INVALID_UPDATE_OPTION : Z;
  RC_E_RESTART_REQUIRED : Z;
  RC_E_TPM20_FAILURE_MODE : Z;
  RC_E_FW_UPDATE_BLOCKED : Z;
  RC_E_INVALID_FW_OPTION : Z;
  RC_E_INVALID_CONFIG_OPTION : Z;
  RC_E_CORRUPT_FW_IMAGE : Z;
  RC_E_WRONG_FW_IMAGE : Z;
  RC_E_NEWER_TOOL_REQUIRED : Z;
  RC_E_WRONG_DECRYPT_KEYS : Z;
  RC_E_TPM_FIRMWARE_UPDATE : Z;
  RC_E_ALREADY_UP_TO_DATE : Z;
  RC_E_FIRMWARE_UPDATE_NOT_FOUND : Z;
  RC_E_RESUME_RUNDATA_NOT_FOUND : Z;
  (* TPM 1.2 result codes and command parameters *)
  TPM_AUTHFAIL : Z;
  TPM_BAD_PARAMETER : Z;
  TPM_DEACTIVATED : Z;
  TPM_DISABLED : Z;
  TPM_PHYSICAL_PRESENCE_CMD_ENABLE : Z;
  TPM_PHYSICAL_PRESENCE_PRESENT : Z;
  TPM_SET_STCLEAR_DATA : Z;
  TPM_SD_DEFERREDPHYSICALPRESENCE : Z;
  (* TPM 2.0 structure tags and command codes *)
  TPM_ST_NO_SESSIONS : Z;
  TPM_ST_SESSIONS : Z;
  TPM_CC_GetCapability : Z;
  TPM_CC_GetTestResult : Z;
  TPM_CC_StartAuthSession : Z;
  TPM_CC_HierarchyChangeAuth : Z;
  TPM_CC_Startup : Z;
  MAX_COMMAND_SIZE : Z;
  MAX_RESPONSE_SIZE : Z;
  (* tool enumerations and limits *)
  TPM_DEVICE_ACCESS_MEMORY_BASED : Z;
  TPM_DEVICE_ACCESS_DRIVER : Z;
  UPDATE_TYPE_NONE : Z;
  UPDATE_TYPE_TPM12_DEFERREDPP : Z;
  UPDATE_TYPE_TPM12_TAKEOWNERSHIP : Z;
  UPDATE_TYPE_TPM20_EMPTYPLATFORMAUTH : Z;
  STRUCT_TYPE_TpmUpdate : Z;
  STRUCT_SUBTYPE_IS_UPDATABLE : Z;
  STRUCT_SUBTYPE_PREPARE : Z;
  STRUCT_SUBTYPE_UPDATE : Z;
  GENERIC_TRISTATE_STATE_NA : Z;
  GENERIC_TRISTATE_STATE_NO : Z;
  GENERIC_TRISTATE_STATE_YES : Z;
  sizeof_IfxUpdate : Z;
  sizeof_rgbOwnerAuthHash : Z;
  RG_LEN_wszUsedFirmwareImage : Z;
  RG_LEN_wszNewFirmwareVersion : Z;
  MAX_PATH : Z;
  MAX_NAME : Z;
  MAX_STRING_1024 : Z;
  (* names of the properties in the property storage *)
  PROPERTY_TPM_DEVICE_ACCESS_MODE : string;
  PROPERTY_UPDATE_TYPE : string;
  PROPERTY_FIRMWARE_PATH : string;
  PROPERTY_CONFIG_FILE_PATH : string;
  PROPERTY_DRY_RUN : string;
  PROPERTY_CONFIG_FILE_UPDATE_TYPE12 : string;
  PROPERTY_CONFIG_FILE_UPDATE_TYPE20 : string;
  PROPERTY_CONFIG_TARGET_FIRMWARE_VERSION_LPC : string;
  PROPERTY_CONFIG_TARGET_FIRMWARE_VERSION_SPI : string;
  PROPERTY_CONFIG_FIRMWARE_FOLDER_PATH : string;
}.

(** A code the chip returned, as the command layer hands it upwards. *)
Definition ChipError `{Codes} (code : Z) : Z := Z.lor RC_TPM_MASK code.

(** ** Constants the sources define themselves *)

(* TpmIO.c *)
Definition PROPERTY_LOCALITY : string := "Locality".
(* CommandFlow_TpmUpdate.c *)
Definition TPM12_FAMILY_STRING : string := "TPM12".
Definition TPM20_FAMILY_STRING : string := "TPM20".
Definition TPM_FACTORY_UPD_RUNDATA_FILE : string := "TPMFactoryUpd_RunData.txt".
Definition SRK_WELL_KNOWN_AUTH : list Z := repeat 0 20.
Definition s_ownerAuthData : list Z :=
  [ 0x67; 0x68; 0x03; 0x3e; 0x21;
    0x64; 0x68; 0x24; 0x7b; 0xd0;
    0x31; 0xa0; 0xa2; 0xd9; 0x87;
    0x6d; 0x79; 0x81; 0x8f; 0x8f ].
(* Resource.h *)
Definition CMD_UPDATE_OPTION_TPM12_DEFERREDPP : string := "tpm12-PP".
Definition CMD_UPDATE_OPTION_TPM12_TAKEOWNERSHIP : string := "tpm12-takeownership".
Definition CMD_UPDATE_OPTION_TPM20_EMPTYPLATFORMAUTH : string := "tpm20-emptyplatformauth".
(* ConfigSettings.h *)
Definition CONFIG_SECTION_UPDATE_TYPE : string := "UpdateType".
Definition CONFIG_UPDATE_TYPE_TPM12 : string := "tpm12".
Definition CONFIG_UPDATE_TYPE_TPM20 : string := "tpm20".
Definition CONFIG_SECTION_TARGET_FIRMWARE : string := "TargetFirmware".
Definition CONFIG_TARGET_FIRMWARE_VERSION_LPC : string := "version_SLB966x".
Definition CONFIG_TARGET_FIRMWARE_VERSION_SPI : string := "version_SLB9670".
Definition CONFIG_SECTION_FIRMWARE_FOLDER : string := "FirmwareFolder".
Definition CONFIG_FIRMWARE_FOLDER_PATH : string := "path".

(** ** Machine integers *)

Definition u8 (x : Z) : Z := x mod 2 ^ 8.
Definition u16 (x : Z) : Z := x mod 2 ^ 16.
Definition u32 (x : Z) : Z := x mod 2 ^ 32.
Definition u64 (x : Z) : Z := x mod 2 ^ 64.

(** A pointer that may be [NULL] is an [option]. *)
Definition is_NULL {A} (p : option A) : bool :=
  match p with None => true | Some _ => false end.

(** ** The [do { ... } WHILE_FALSE_END] idiom *)

Inductive Step (S A : Type) : Type :=
| Next (a : A) (s : S)          (* fall through to the next statement *)
| Break (rc : Z) (s : S).       (* [break] with [unReturnValue = rc] *)
Arguments Next {S A} a s.
Arguments Break {S A} rc s.

Definition Block (S A : Type) : Type := S -> Step S A.

Definition ret {S A} (a : A) : Block S A := fun s => Next a s.
Definition bind {S A B} (m : Block S A) (k : A -> Block S B) : Block S B :=
  fun s => match m s with
           | Next a s' => k a s'
           | Break rc s' => Break rc s'
           end.
Definition break {S A} (rc : Z) : Block S A := fun s => Break rc s.
Definition get {S} : Block S S := fun s => Next s s.
Definition gets {S A} (f : S -> A) : Block S A := fun s => Next (f s) s.
Definition modify {S} (f : S -> S) : Block S unit := fun s => Next tt (f s).
Definition lift {S A} (f : S -> A * S) : Block S A :=
  fun s => let '(a, s') := f s in Next a s'.
(** [if (c) { ...; break; }] *)
Definition break_if {S} (c : bool) (rc : Z) : Block S unit :=
  if c then break rc else ret tt.
(** [rc = e; if (RC_SUCCESS != rc) break;] *)
Definition check {S} (rc : Z) : Block S unit :=
  break_if (negb (rc =? RC_SUCCESS)) rc.

(** The block is left with the value of [unReturnValue]: the one of the
    [break], or the one the last statement assigned. *)
Definition run_block {S} (b : Block S Z) (s : S) : Z * S :=
  match b s with
  | Next rc s' => (rc, s')
  | Break rc s' => (rc, s')
  end.

#[global] Instance Block_ret {S} : MRet (Block S) := fun A => @ret S A.
#[global] Instance Block_bind {S} : MBind (Block S) := fun A B k m => @bind S A B m k.

Ltac block_unfold :=
  cbv beta iota delta
    [mbind mret Block_bind Block_ret bind ret get gets modify lift break
     break_if check run_block] in *.

(** ** Property storage

    Modelled from the spec: PropertyStorage.c is not part of the sources.
    Section 4.8 describes it as a typed key-value mapping with case-sensitive
    keys; [add] fails if the key already exists, [change] fails if it does
    not, and a [get_*] returns a success flag plus the value, a type mismatch
    being a failure.  A string is read into a caller-supplied buffer of
    [cap] elements, so a value that does not fit (with its terminating zero)
    cannot be returned either. *)

Inductive PropValue : Type :=
| PBool (b : bool)
| PUInt (n : Z)
| PString (s : string).

Definition strlen (s : string) : Z := Z.of_nat (String.length s).

(** A wide string is kept as the characters before its terminating zero:
    [s[i]] reads a zero behind them, and writing a zero at [i] cuts there. *)
Definition wchar_at (s : string) (i : nat) : ascii :=
  match String.get i s with Some c => c | None => "000"%char end.

Fixpoint string_take (n : nat) (s : string) : string :=
  match n, s with
  | S n', String c s' => String c (string_take n' s')
  | _, _ => EmptyString
  end.

Section PropertyStorage.
Implicit Types (ps : gmap string PropValue) (k : string).

Definition PropertyStorage_ExistsElement k ps : bool :=
  match ps !! k with Some _ => true | None => false end.

Definition PropertyStorage_GetUIntegerValueByKey k ps : option Z :=
  match ps !! k with Some (PUInt n) => Some n | _ => None end.

Definition PropertyStorage_GetBooleanValueByKey k ps : option bool :=
  match ps !! k with Some (PBool b) => Some b | _ => None end.

Definition PropertyStorage_GetValueByKey k (cap : Z) ps : option string :=
  match ps !! k with
  | Some (PString s) => if strlen s <? cap then Some s else None
  | _ => None
  end.

Definition PropertyStorage_AddKeyValuePair k (v : string) ps
  : option (gmap string PropValue) :=
  match ps !! k with None => Some (<[k := PString v]> ps) | Some _ => None end.

Definition PropertyStorage_AddKeyUIntegerValuePair k (n : Z) ps
  : option (gmap string PropValue) :=
  match ps !! k with None => Some (<[k := PUInt n]> ps) | Some _ => None end.

Definition PropertyStorage_ChangeUIntegerValueByKey k (n : Z) ps
  : option (gmap string PropValue) :=
  match ps !! k with Some _ => Some (<[k := PUInt n]> ps) | None => None end.
End PropertyStorage.

(** ** The TPM state summary (TPM_STATE.attribs) *)

Record TPM_STATE : Type := {
  tpm12 : bool;
  tpm12owner : bool;
  tpm12DeferredPhysicalPresence : bool;
  tpm20 : bool;
  tpm20InFailureMode : bool;
  tpm20restartRequired : bool;
  bootLoader : bool;
  infineon : bool;
  unsupportedChip : bool;
  tpm20emptyPlatformAuth : bool;
  tpm20phDisabled : bool;
}.

Definition TPM_STATE_zero : TPM_STATE :=
  Build_TPM_STATE false false false false false false false false false false false.

(** ** Calls to collaborators

    Every call that leaves the verified sources is an [Event]: it is
    appended to the trace, and the environment decides what it returns. *)

Inductive Event : Type :=
(* device access and operating system, called by TpmIO.c *)
| DeviceAccessTpmDriver_Initialize
| DeviceAccess_Initialize (locality : Z)
| TIS_IsAccessValid (locality : Z)
| seteuid_getuid
| setegid_getgid
| DeviceAccess_Uninitialize (locality : Z)
| DeviceAccessTpmDriver_Uninitialize
| TIS_TransceiveLPC (locality : Z) (request : list Z) (size : Z) (cap : Z) (maxDuration : Z)
| DeviceAccessTpmDriver_Transmit (request : list Z) (size : Z) (cap : Z)
(* transport below the command layer *)
| DeviceManagement_Transmit (request : list Z) (size : Z) (cap : Z)
(* TPM commands and firmware update library *)
| TSS_TSC_PhysicalPresence (physicalPresence : Z)
| TSS_TPM_SetCapability (capArea : Z) (subCap : list Z) (setValue : list Z)
| TSS_TPM2_FlushContext (flushHandle : Z)
| TSS_TPM_OIAP
| TSS_TPM_OwnerClear (authHandle : Z) (nonceEven : list Z) (continueAuth : bool)
                     (ownerAuth : list Z)
| FirmwareUpdate_CalculateState
| FirmwareUpdate_CheckOwnerAuthorization (ownerAuthData : list Z)
| FirmwareUpdate_CheckImage (image : list Z)
| FirmwareUpdate_UpdateImage (sessionHandle : Z) (ownerAuthHash : list Z) (image : list Z)
(* user interface and timing *)
| Response_ProgressCallback (progress : Z)
| Platform_SleepMicroSeconds (us : Z)
(* files *)
| FileIO_Exists (path : string)
| FileIO_Open_write (path : string)
| FileIO_WriteString (path : string) (text : string)
| FileIO_Close (path : string)
| FileIO_Remove (path : string)
| FileIO_ReadFileToStringBuffer (path : string)
| FileIO_ReadFileToBuffer (path : string).

(** What a call returns is up to the environment: one oracle per kind of
    result, asked with the trace so far and the call. *)
Record Env : Type := {
  reply_rc : list Event -> Event -> Z;            (* the function's return value *)
  reply_flag : list Event -> Event -> bool;       (* a BOOL out-parameter *)
  reply_bytes : list Event -> Event -> list Z;    (* a byte buffer out-parameter *)
  reply_uint : list Event -> Event -> Z;          (* an integer out-parameter *)
  reply_info : list Event -> Event -> Z;          (* a second integer out-parameter *)
  reply_state : list Event -> Event -> TPM_STATE; (* TPM_STATE out-parameter *)
}.

(** ** Global state *)

Record World : Type := {
  props : gmap string PropValue;     (* PropertyStorage *)
  files : gmap string string;        (* the files on disk, by path *)
  g_fConnected : bool;               (* TpmIO.c *)
  s_fUpdateThroughConfigFile : bool; (* CommandFlow_TpmUpdate.c *)
  trace : list Event;
}.

Definition set_props (ps : gmap string PropValue) (w : World) : World :=
  {| props := ps; files := files w; g_fConnected := g_fConnected w;
     s_fUpdateThroughConfigFile := s_fUpdateThroughConfigFile w; trace := trace w |}.
Definition set_files (fs : gmap string string) (w : World) : World :=
  {| props := props w; files := fs; g_fConnected := g_fConnected w;
     s_fUpdateThroughConfigFile := s_fUpdateThroughConfigFile w; trace := trace w |}.
Definition set_g_fConnected (b : bool) (w : World) : World :=
  {| props := props w; files := files w; g_fConnected := b;
     s_fUpdateThroughConfigFile := s_fUpdateThroughConfigFile w; trace := trace w |}.
Definition set_s_fUpdateThroughConfigFile (b : bool) (w : World) : World :=
  {| props := props w; files := files w; g_fConnected := g_fConnected w;
     s_fUpdateThroughConfigFile := b; trace := trace w |}.
Definition log (e : Event) (w : World) : World :=
  {| props := props w; files := files w; g_fConnected := g_fConnected w;
     s_fUpdateThroughConfigFile := s_fUpdateThroughConfigFile w;
     trace := trace w ++ [e] |}.

Section Calls.
Context (env : Env).

(** Call a collaborator and take its return value. *)
Definition call (e : Event) (w : World) : Z * World :=
  (reply_rc env (trace w) e, log e w).

(** Call a collaborator whose result is ignored or that returns nothing. *)
Definition call_ (e : Event) (w : World) : unit * World := (tt, log e w).

(** Calls that also fill an out-parameter. *)
Definition call_flag (e : Event) (w : World) : (Z * bool) * World :=
  ((reply_rc env (trace w) e, reply_flag env (trace w) e), log e w).
Definition call_bytes (e : Event) (w : World) : (Z * list Z) * World :=
  ((reply_rc env (trace w) e, reply_bytes env (trace w) e), log e w).
Definition call_uint (e : Event) (w : World) : (Z * Z) * World :=
  ((reply_rc env (trace w) e, reply_uint env (trace w) e), log e w).
Definition call_state (e : Event) (w : World) : (Z * TPM_STATE) * World :=
  ((reply_rc env (trace w) e, reply_state env (trace w) e), log e w).
End Calls.

(** ** TpmIO.c (Linux) *)

Section TpmIO.
Context `{Codes} (env : Env).
(** [defined (__aarch64__) || defined (__arm__)]: the memory based case of
    [TPMIO_Connect] is compiled out and its label falls into [default]. *)
Context (arm : bool).

Definition TPMIO_Connect_switch (unTpmDeviceAccessModeCfg : Z)
  : World -> Z * World :=
  if unTpmDeviceAccessModeCfg =? TPM_DEVICE_ACCESS_DRIVER then
    (* [LOGGING] apart, both paths leave the switch with the return value *)
    call env DeviceAccessTpmDriver_Initialize
  else if (unTpmDeviceAccessModeCfg =? TPM_DEVICE_ACCESS_MEMORY_BASED) && negb arm then
    run_block (
      (* Check if already connected *)
      c ← gets g_fConnected;
      break_if c RC_E_ALREADY_CONNECTED;;
      (* Get the selected locality for TPM access *)
      o ← gets (fun w => PropertyStorage_GetUIntegerValueByKey PROPERTY_LOCALITY (props w));
      match o with
      | None => break RC_E_FAIL
      | Some unLocality =>
        rc ← lift (call env (DeviceAccess_Initialize (u8 unLocality)));
        check rc;;
        (* Check whether TPM.ACCESS.VALID *)
        '(rc, bFlag) ← lift (call_flag env (TIS_IsAccessValid (u8 unLocality)));
        check rc;;
        break_if (negb bFlag) RC_E_NOT_READY;;
        mret rc
      end)
  else
    fun w => (RC_E_INVALID_SETTING, w).

Definition TPMIO_Connect : World -> Z * World :=
  run_block (
    o ← gets (fun w =>
           PropertyStorage_GetUIntegerValueByKey PROPERTY_TPM_DEVICE_ACCESS_MODE (props w));
    match o with
    | None => break RC_E_INTERNAL
    | Some unTpmDeviceAccessModeCfg =>
      (* Check if already connected *)
      c ← gets g_fConnected;
      break_if c RC_E_ALREADY_CONNECTED;;
      (* Try to connect to the TPM and check return code *)
      unReturnValue ← lift (TPMIO_Connect_switch unTpmDeviceAccessModeCfg);
      check unReturnValue;;
      (* Drop root privileges *)
      r ← lift (call env seteuid_getuid);
      break_if (negb (r =? 0)) RC_E_INTERNAL;;
      r ← lift (call env setegid_getgid);
      break_if (negb (r =? 0)) RC_E_INTERNAL;;
      modify (set_g_fConnected true);;
      mret unReturnValue
    end).

Definition TPMIO_Disconnect_switch (unTpmDeviceAccessModeCfg : Z)
  : World -> Z * World :=
  if unTpmDeviceAccessModeCfg =? TPM_DEVICE_ACCESS_MEMORY_BASED then
    run_block (
      o ← gets (fun w => PropertyStorage_GetUIntegerValueByKey PROPERTY_LOCALITY (props w));
      match o with
      | None => break RC_E_FAIL
      | Some unLocality =>
        rc ← lift (call env (DeviceAccess_Uninitialize (u8 unLocality)));
        check rc;;
        mret rc
      end)
  else if unTpmDeviceAccessModeCfg =? TPM_DEVICE_ACCESS_DRIVER then
    call env DeviceAccessTpmDriver_Uninitialize
  else
    fun w => (RC_E_INTERNAL, w).

(** The access mode as [TPMIO_Disconnect], [TPMIO_Transmit] and the
    register functions look it up. *)
Definition access_mode (w : World) : option Z :=
  match PropertyStorage_GetUIntegerValueByKey PROPERTY_TPM_DEVICE_ACCESS_MODE (props w) with
  | Some m =>
      if (TPM_DEVICE_ACCESS_MEMORY_BASED =? m) || (TPM_DEVICE_ACCESS_DRIVER =? m)
      then Some m else None
  | None => None
  end.

Definition TPMIO_Disconnect : World -> Z * World :=
  run_block (
    (* Check if connected to the TPM *)
    c ← gets g_fConnected;
    break_if (negb c) RC_E_NOT_CONNECTED;;
    o ← gets access_mode;
    match o with
    | None => break RC_E_INTERNAL
    | Some unTpmDeviceAccessModeCfg =>
      unReturnValue ← lift (TPMIO_Disconnect_switch unTpmDeviceAccessModeCfg);
      modify (set_g_fConnected false);;
      mret unReturnValue
    end).

(** The caller's response buffer and its size variable; [None] is a
    [NULL] pointer. *)
Record TransmitBuffers : Type := {
  PrgbResponseBuffer : option (list Z);
  PpunResponseBufferSize : option Z;
}.

(** [TIS_TransceiveLPC] gets the size variable through a [UINT16*]: it sees
    and overwrites its low half only (the memory based access is x86). *)
Definition through_UINT16 (old new : Z) : Z := old - u16 old + u16 new.

Definition TPMIO_Transmit_switch (unTpmDeviceAccessModeCfg : Z)
    (request : list Z) (PunRequestBufferSize : Z)
    (out : TransmitBuffers) (size : Z) (PunMaxDuration : Z)
  : World -> (Z * TransmitBuffers) * World :=
  fun w =>
  if unTpmDeviceAccessModeCfg =? TPM_DEVICE_ACCESS_MEMORY_BASED then
    match PropertyStorage_GetUIntegerValueByKey PROPERTY_LOCALITY (props w) with
    | None => ((RC_E_FAIL, out), w)
    | Some unLocality =>
        let e := TIS_TransceiveLPC (u8 unLocality) request (u16 PunRequestBufferSize)
                                   (u16 size) PunMaxDuration in
        ((reply_rc env (trace w) e,
          {| PrgbResponseBuffer := Some (reply_bytes env (trace w) e);
             PpunResponseBufferSize :=
               Some (through_UINT16 size (reply_uint env (trace w) e)) |}),
         log e w)
    end
  else if unTpmDeviceAccessModeCfg =? TPM_DEVICE_ACCESS_DRIVER then
    let e := DeviceAccessTpmDriver_Transmit request (u16 PunRequestBufferSize) size in
    ((reply_rc env (trace w) e,
      {| PrgbResponseBuffer := Some (reply_bytes env (trace w) e);
         PpunResponseBufferSize := Some (u32 (reply_uint env (trace w) e)) |}),
     log e w)
  else
    ((RC_E_INTERNAL, out), w).

(** The result carries the return value and the caller's buffers as the
    call leaves them. *)
Definition TPMIO_Transmit
    (PrgbRequestBuffer : option (list Z)) (PunRequestBufferSize : Z)
    (out : TransmitBuffers) (PunMaxDuration : Z)
  : World -> (Z * TransmitBuffers) * World :=
  fun w =>
  (* Check parameters *)
  match PrgbRequestBuffer, PrgbResponseBuffer out, PpunResponseBufferSize out with
  | Some request, Some _, Some size =>
      (* Check if connected to the TPM *)
      if negb (g_fConnected w) then ((RC_E_NOT_CONNECTED, out), w)
      else
        match access_mode w with
        | None => ((RC_E_INTERNAL, out), w)
        | Some unTpmDeviceAccessModeCfg =>
            TPMIO_Transmit_switch unTpmDeviceAccessModeCfg request PunRequestBufferSize
                                  out size PunMaxDuration w
        end
  | _, _, _ => ((RC_E_BAD_PARAMETER, out), w)
  end.
End TpmIO.

(** ** Byte codec (TPM2_Marshal.c)

    Modelled from the spec: the marshalling functions are not part of the
    sources.  Sections 3 and 4.1: a cursor over a fixed-capacity octet
    buffer tracks the remaining bytes; each primitive advances the cursor by
    its wire size or fails with [InsufficientBuffer]; integers are
    big-endian.  The codecs of the structured types stay abstract ([Wire]). *)

Record Cursor : Type := {
  buffer : list Z;          (* the whole array, [rgbRequest] or [rgbResponse] *)
  pbBuffer : nat;           (* offset of the cursor in it *)
  nSizeRemaining : Z;       (* INT32 *)
}.

Definition int32 (x : Z) : Z := (x + 2 ^ 31) mod 2 ^ 32 - 2 ^ 31.

Fixpoint be_bytes (n : nat) (v : Z) : list Z :=
  match n with
  | O => []
  | S n' => (v / 2 ^ (8 * Z.of_nat n')) mod 256 :: be_bytes n' v
  end.

Fixpoint be_value (bs : list Z) : Z :=
  match bs with
  | [] => 0
  | b :: bs' => b * 2 ^ (8 * Z.of_nat (length bs')) + be_value bs'
  end.

Fixpoint write_bytes (at_ : nat) (bs : list Z) (buf : list Z) : list Z :=
  match bs with
  | [] => buf
  | b :: bs' => write_bytes (S at_) bs' (<[at_ := b]> buf)
  end.

Definition read_bytes (at_ : nat) (n : nat) (buf : list Z) : list Z :=
  map (fun i => default 0 (buf !! i)) (seq at_ n).

Section Primitives.
Context `{Codes}.

Definition marshal_uint (n : nat) (v : Z) (c : Cursor) : Z * Cursor :=
  if nSizeRemaining c <? Z.of_nat n then (RC_E_INSUFFICIENT_BUFFER, c)
  else (RC_SUCCESS,
        {| buffer := write_bytes (pbBuffer c) (be_bytes n v) (buffer c);
           pbBuffer := pbBuffer c + n;
           nSizeRemaining := nSizeRemaining c - Z.of_nat n |}).

Definition unmarshal_uint (n : nat) (c : Cursor) : (Z * Z) * Cursor :=
  if nSizeRemaining c <? Z.of_nat n then ((RC_E_INSUFFICIENT_BUFFER, 0), c)
  else ((RC_SUCCESS, be_value (read_bytes (pbBuffer c) n (buffer c))),
        {| buffer := buffer c;
           pbBuffer := pbBuffer c + n;
           nSizeRemaining := nSizeRemaining c - Z.of_nat n |}).

Definition TSS_UINT32_Marshal := marshal_uint 4.
Definition TSS_UINT32_Unmarshal := unmarshal_uint 4.
(* TPM_CC, TPM_CAP and TPM_RC are UINT32, TPM_ST and TPM_SU are UINT16,
   TPM_SE is UINT8 *)
Definition TSS_TPM_CC_Marshal := marshal_uint 4.
Definition TSS_TPM_CAP_Marshal := marshal_uint 4.
Definition TSS_TPM_SE_Marshal := marshal_uint 1.
Definition TSS_TPM_SU_Marshal := marshal_uint 2.
Definition TSS_TPM_ST_Unmarshal := unmarshal_uint 2.
Definition TSS_TPM_RC_Unmarshal := unmarshal_uint 4.
End Primitives.

(** The codec of a structured type, and the value [Platform_MemorySet]
    with 0x00 leaves in a variable of the type. *)
Class Wire (T : Type) : Type := {
  zeroed : T;
  Marshal : T -> Cursor -> Z * Cursor;
  Unmarshal : Cursor -> (Z * T) * Cursor;
}.

(** ** Command layer (MicroTss/Tpm_2_0) *)

(** What a command function works on: the world, the cursor of the buffer
    it is marshalling to or unmarshalling from, and its out-parameters. *)
Record Cmd (Out : Type) : Type := {
  world : World;
  cursor : Cursor;
  out : Out;
}.
Arguments world {Out} _.
Arguments cursor {Out} _.
Arguments out {Out} _.
Arguments Build_Cmd {Out} _ _ _.

Section CommandSteps.
Context `{Codes} (env : Env) {Out : Type}.

Definition set_cursor (c : Cursor) (s : Cmd Out) : Cmd Out :=
  Build_Cmd (world s) c (out s).
Definition set_out (o : Out) (s : Cmd Out) : Cmd Out :=
  Build_Cmd (world s) (cursor s) o.

(** [unReturnValue = TSS_..._Marshal(&x, &pbBuffer, &nSizeRemaining);
     if (RC_SUCCESS != unReturnValue) break;] *)
Definition marshal_step (m : Cursor -> Z * Cursor) : Block (Cmd Out) unit :=
  rc ← lift (fun s => let '(rc, c) := m (cursor s) in (rc, set_cursor c s));
  check rc.

(** The same for [TSS_..._Unmarshal]; the value goes to the target. *)
Definition unmarshal_step {T} (u : Cursor -> (Z * T) * Cursor) (store : T -> Out -> Out)
  : Block (Cmd Out) T :=
  '(rc, v) ← lift (fun s => let '(r, c) := u (cursor s) in
                           (r, Build_Cmd (world s) c (store (snd r) (out s))));
  check rc;;
  mret v.

Definition keep {T} (v : T) (o : Out) : Out := o.

(** [rgbRequest], zero-initialised, with the cursor at its start. *)
Definition rgbRequest : Cursor :=
  {| buffer := repeat 0 (Z.to_nat MAX_COMMAND_SIZE); pbBuffer := 0%nat;
     nSizeRemaining := MAX_COMMAND_SIZE |}.

(** [// Overwrite unCommandSize] and [// Transmit the command over TDDL],
    then point the cursor to the response. *)
Definition transmit_step : Block (Cmd Out) unit :=
  c ← gets cursor;
  let unCommandSize := u32 (MAX_COMMAND_SIZE - nSizeRemaining c) in
  modify (set_cursor {| buffer := buffer c; pbBuffer := 2%nat; nSizeRemaining := 4 |});;
  marshal_step (TSS_UINT32_Marshal unCommandSize);;
  request ← gets (fun s => buffer (cursor s));
  w ← gets world;
  let e := DeviceManagement_Transmit request unCommandSize MAX_RESPONSE_SIZE in
  let unReturnValue := reply_rc env (trace w) e in
  let rgbResponse := reply_bytes env (trace w) e in
  let nSizeResponse := int32 (reply_uint env (trace w) e) in
  modify (fun s => Build_Cmd (log e w)
                     {| buffer := rgbResponse; pbBuffer := 0%nat;
                        nSizeRemaining := nSizeResponse |} (out s));;
  check unReturnValue.

(** [if (responseCode != TPM_RC_SUCCESS)
      { unReturnValue = RC_TPM_MASK | responseCode; break; }] *)
Definition response_code_step (responseCode : Z) : Block (Cmd Out) unit :=
  break_if (negb (responseCode =? TPM_RC_SUCCESS)) (Z.lor RC_TPM_MASK responseCode).
End CommandSteps.

(** A block that leaves the out-parameters alone when it falls through. *)
Definition keeps_out {Out A} (b : Block (Cmd Out) A) : Prop :=
  forall s a s', b s = Next a s' -> out s' = out s.

(** The header of a response as the command functions read it: the tag,
    the response size and the response code, in this order.  [Some]: all
    three could be unmarshalled, with the response code and the cursor
    behind it. *)
Definition response_header `{Codes} (unmarshal_tag : Cursor -> (Z * Z) * Cursor)
    (c : Cursor) : option (Z * Cursor) :=
  let '((rc1, _), c1) := unmarshal_tag c in
  if negb (rc1 =? TPM_RC_SUCCESS) then None else
  let '((rc2, _), c2) := TSS_UINT32_Unmarshal c1 in
  if negb (rc2 =? TPM_RC_SUCCESS) then None else
  let '((rc3, responseCode), c3) := TSS_TPM_RC_Unmarshal c2 in
  if negb (rc3 =? TPM_RC_SUCCESS) then None else Some (responseCode, c3).

(** The structured types of TPM2_Types.h with their codecs.  The command
    tag is a [TPM_ST] that its codec may validate. *)
Class TPM2_Types : Type := {
  TPMI_YES_NO : Type;
  TPMS_CAPABILITY_DATA : Type;
  TPM2B_MAX_BUFFER : Type;
  TPMI_DH_OBJECT : Type;
  TPMI_DH_ENTITY : Type;
  TPM2B_NONCE : Type;
  TPM2B_ENCRYPTED_SECRET : Type;
  TPMT_SYM_DEF : Type;
  TPMI_ALG_HASH : Type;
  TPMI_SH_AUTH_SESSION : Type;
  TPMI_RH_HIERARCHY_AUTH : Type;
  AuthorizationCommandData : Type;
  TPM2B_AUTH : Type;
  AcknowledgmentResponseData : Type;
  TPMI_YES_NO_wire :: Wire TPMI_YES_NO;
  TPMS_CAPABILITY_DATA_wire :: Wire TPMS_CAPABILITY_DATA;
  TPM2B_MAX_BUFFER_wire :: Wire TPM2B_MAX_BUFFER;
  TPMI_DH_OBJECT_wire :: Wire TPMI_DH_OBJECT;
  TPMI_DH_ENTITY_wire :: Wire TPMI_DH_ENTITY;
  TPM2B_NONCE_wire :: Wire TPM2B_NONCE;
  TPM2B_ENCRYPTED_SECRET_wire :: Wire TPM2B_ENCRYPTED_SECRET;
  TPMT_SYM_DEF_wire :: Wire TPMT_SYM_DEF;
  TPMI_ALG_HASH_wire :: Wire TPMI_ALG_HASH;
  TPMI_SH_AUTH_SESSION_wire :: Wire TPMI_SH_AUTH_SESSION;
  TPMI_RH_HIERARCHY_AUTH_wire :: Wire TPMI_RH_HIERARCHY_AUTH;
  AuthorizationCommandData_wire :: Wire AuthorizationCommandData;
  TPM2B_AUTH_wire :: Wire TPM2B_AUTH;
  AcknowledgmentResponseData_wire :: Wire AcknowledgmentResponseData;
  TSS_TPMI_ST_COMMAND_TAG_Marshal : Z -> Cursor -> Z * Cursor;
  TSS_TPMI_ST_COMMAND_TAG_Unmarshal : Cursor -> (Z * Z) * Cursor;
}.

Section TPM2_Commands.
Context `{Codes} `{TPM2_Types} (env : Env).

(** The state a command function starts from: the request buffer, and the
    out-parameters after [Platform_MemorySet]. *)
Definition command_start {Out} (zero : Out) (w : World) : Cmd Out :=
  Build_Cmd w rgbRequest zero.

(** Each function is written in two parts, as its comments divide it:
    [// Marshal the request] up to the return of the transport, and
    [// Unmarshal the response]. *)

(** *** TPM2_GetCapability.c *)

Record GetCapability_out : Type := {
  pMoreData : TPMI_YES_NO;
  pCapabilityData : TPMS_CAPABILITY_DATA;
}.

Definition TSS_TPM2_GetCapability_request (capability property propertyCount : Z)
  : Block (Cmd GetCapability_out) unit :=
  (* Request parameters *)
  let tag := TPM_ST_NO_SESSIONS in
  let unCommandSize := 0 in
  let commandCode := TPM_CC_GetCapability in
  (* Marshal the request *)
  marshal_step (TSS_TPMI_ST_COMMAND_TAG_Marshal tag);;
  marshal_step (TSS_UINT32_Marshal unCommandSize);;
  marshal_step (TSS_TPM_CC_Marshal commandCode);;
  marshal_step (TSS_TPM_CAP_Marshal capability);;
  marshal_step (TSS_UINT32_Marshal property);;
  marshal_step (TSS_UINT32_Marshal propertyCount);;
  transmit_step env.

Definition TSS_TPM2_GetCapability_response : Block (Cmd GetCapability_out) Z :=
  tag ← unmarshal_step TSS_TPM_ST_Unmarshal keep;
  unResponseSize ← unmarshal_step TSS_UINT32_Unmarshal keep;
  responseCode ← unmarshal_step TSS_TPM_RC_Unmarshal keep;
  response_code_step responseCode;;
  unmarshal_step Unmarshal
    (fun v o => {| pMoreData := v; pCapabilityData := pCapabilityData o |});;
  unmarshal_step Unmarshal
    (fun v o => {| pMoreData := pMoreData o; pCapabilityData := v |});;
  mret RC_SUCCESS.

Definition TSS_TPM2_GetCapability (capability property propertyCount : Z)
  : World -> Z * Cmd GetCapability_out :=
  fun w =>
  run_block (TSS_TPM2_GetCapability_request capability property propertyCount;;
             TSS_TPM2_GetCapability_response)
            (command_start {| pMoreData := zeroed; pCapabilityData := zeroed |} w).

(** *** TPM2_StartAuthSession.c *)

Record StartAuthSession_out : Type := {
  pSessionHandle : TPMI_SH_AUTH_SESSION;
  pNonceTPM : TPM2B_NONCE;
}.

Definition TSS_TPM2_StartAuthSession_request
    (tpmKey : TPMI_DH_OBJECT) (bind_ : TPMI_DH_ENTITY) (nonceCaller : TPM2B_NONCE)
    (encryptedSalt : TPM2B_ENCRYPTED_SECRET) (sessionType : Z)
    (symmetric : TPMT_SYM_DEF) (authHash : TPMI_ALG_HASH)
  : Block (Cmd StartAuthSession_out) unit :=
  let tag := TPM_ST_NO_SESSIONS in
  let unCommandSize := 0 in
  let commandCode := TPM_CC_StartAuthSession in
  (* Marshal the request *)
  marshal_step (TSS_TPMI_ST_COMMAND_TAG_Marshal tag);;
  marshal_step (TSS_UINT32_Marshal unCommandSize);;
  marshal_step (TSS_TPM_CC_Marshal commandCode);;
  marshal_step (Marshal tpmKey);;
  marshal_step (Marshal bind_);;
  marshal_step (Marshal nonceCaller);;
  marshal_step (Marshal encryptedSalt);;
  marshal_step (TSS_TPM_SE_Marshal sessionType);;
  marshal_step (Marshal symmetric);;
  marshal_step (Marshal authHash);;
  transmit_step env.

Definition TSS_TPM2_StartAuthSession_response : Block (Cmd StartAuthSession_out) Z :=
  tag ← unmarshal_step TSS_TPM_ST_Unmarshal keep;
  unResponseSize ← unmarshal_step TSS_UINT32_Unmarshal keep;
  responseCode ← unmarshal_step TSS_TPM_RC_Unmarshal keep;
  response_code_step responseCode;;
  unmarshal_step Unmarshal
    (fun v o => {| pSessionHandle := v; pNonceTPM := pNonceTPM o |});;
  unmarshal_step Unmarshal
    (fun v o => {| pSessionHandle := pSessionHandle o; pNonceTPM := v |});;
  mret RC_SUCCESS.

Definition TSS_TPM2_StartAuthSession
    (tpmKey : TPMI_DH_OBJECT) (bind_ : TPMI_DH_ENTITY) (nonceCaller : TPM2B_NONCE)
    (encryptedSalt : TPM2B_ENCRYPTED_SECRET) (sessionType : Z)
    (symmetric : TPMT_SYM_DEF) (authHash : TPMI_ALG_HASH)
  : World -> Z * Cmd StartAuthSession_out :=
  fun w =>
  run_block (TSS_TPM2_StartAuthSession_request tpmKey bind_ nonceCaller encryptedSalt
               sessionType symmetric authHash;;
             TSS_TPM2_StartAuthSession_response)
            (command_start {| pSessionHandle := zeroed; pNonceTPM := zeroed |} w).

(** *** TPM2_GetTestResult.c *)

Record GetTestResult_out : Type := {
  pOutData : TPM2B_MAX_BUFFER;
  pTestResult : Z;
}.

Definition TSS_TPM2_GetTestResult_request : Block (Cmd GetTestResult_out) unit :=
  let tag := TPM_ST_NO_SESSIONS in
  let unCommandSize := 0 in
  let commandCode := TPM_CC_GetTestResult in
  (* Marshal the request *)
  marshal_step (TSS_TPMI_ST_COMMAND_TAG_Marshal tag);;
  marshal_step (TSS_UINT32_Marshal unCommandSize);;
  marshal_step (TSS_TPM_CC_Marshal commandCode);;
  transmit_step env.

Definition TSS_TPM2_GetTestResult_response : Block (Cmd GetTestResult_out) Z :=
  tag ← unmarshal_step TSS_TPMI_ST_COMMAND_TAG_Unmarshal keep;
  unResponseSize ← unmarshal_step TSS_UINT32_Unmarshal keep;
  responseCode ← unmarshal_step TSS_TPM_RC_Unmarshal keep;
  response_code_step responseCode;;
  unmarshal_step Unmarshal
    (fun v o => {| pOutData := v; pTestResult := pTestResult o |});;
  unmarshal_step TSS_TPM_RC_Unmarshal
    (fun v o => {| pOutData := pOutData o; pTestResult := v |});;
  mret RC_SUCCESS.

Definition TSS_TPM2_GetTestResult : World -> Z * Cmd GetTestResult_out :=
  fun w =>
  run_block (TSS_TPM2_GetTestResult_request;; TSS_TPM2_GetTestResult_response)
            (command_start {| pOutData := zeroed; pTestResult := 0 |} w).

(** *** TPM2_HierarchyChangeAuth.c *)

(** [// Marshal Session Context]: the size of the session block is written
    once the block is, at the place kept in [prgbPositionOfSize]. *)
Definition marshal_session_context {Out}
    (authHandleSessionRequestData : AuthorizationCommandData)
  : Block (Cmd Out) unit :=
  let unSizeSessionData := 0 in
  let nSizeRemain := 4 in
  prgbPositionOfSize ← gets (fun s => pbBuffer (cursor s));
  marshal_step (TSS_UINT32_Marshal unSizeSessionData);;
  marshal_step (Marshal authHandleSessionRequestData);;
  (* Overwrite authorization data size *)
  c ← gets cursor;
  let unSizeSessionData :=
    u32 (Z.of_nat (pbBuffer c) - (Z.of_nat prgbPositionOfSize + nSizeRemain)) in
  let '(rc, c') := TSS_UINT32_Marshal unSizeSessionData
                     {| buffer := buffer c; pbBuffer := prgbPositionOfSize;
                        nSizeRemaining := nSizeRemain |} in
  (* the patch moves [prgbPositionOfSize], not [pbBuffer] *)
  modify (set_cursor {| buffer := buffer c'; pbBuffer := pbBuffer c;
                        nSizeRemaining := nSizeRemaining c |});;
  check rc.

Definition TSS_TPM2_HierarchyChangeAuth_request
    (authHandle : TPMI_RH_HIERARCHY_AUTH)
    (authHandleSessionRequestData : AuthorizationCommandData) (newAuth : TPM2B_AUTH)
  : Block (Cmd AcknowledgmentResponseData) unit :=
  let tag := TPM_ST_SESSIONS in
  let unCommandSize := 0 in
  let commandCode := TPM_CC_HierarchyChangeAuth in
  (* Marshal the request *)
  marshal_step (TSS_TPMI_ST_COMMAND_TAG_Marshal tag);;
  marshal_step (TSS_UINT32_Marshal unCommandSize);;
  marshal_step (TSS_TPM_CC_Marshal commandCode);;
  marshal_step (Marshal authHandle);;
  marshal_session_context authHandleSessionRequestData;;
  marshal_step (Marshal newAuth);;
  transmit_step env.

Definition TSS_TPM2_HierarchyChangeAuth_response
  : Block (Cmd AcknowledgmentResponseData) Z :=
  let unParameterSize := 0 in
  tag ← unmarshal_step TSS_TPM_ST_Unmarshal keep;
  unResponseSize ← unmarshal_step TSS_UINT32_Unmarshal keep;
  responseCode ← unmarshal_step TSS_TPM_RC_Unmarshal keep;
  response_code_step responseCode;;
  (* Unmarshal the parameter size *)
  unParameterSize ← unmarshal_step TSS_UINT32_Unmarshal keep;
  (* Unmarshal Session Context *)
  unmarshal_step Unmarshal (fun v _ => v);;
  mret RC_SUCCESS.

Definition TSS_TPM2_HierarchyChangeAuth
    (authHandle : TPMI_RH_HIERARCHY_AUTH)
    (authHandleSessionRequestData : AuthorizationCommandData) (newAuth : TPM2B_AUTH)
  : World -> Z * Cmd AcknowledgmentResponseData :=
  fun w =>
  run_block (TSS_TPM2_HierarchyChangeAuth_request authHandle
               authHandleSessionRequestData newAuth;;
             TSS_TPM2_HierarchyChangeAuth_response)
            (command_start zeroed w).

(** *** TPM2_Startup.c *)

(** The function has no out-parameter. *)
Definition TSS_TPM2_Startup_request (startupType : Z) : Block (Cmd unit) unit :=
  (* Request parameters *)
  let tag := TPM_ST_NO_SESSIONS in
  let unCommandSize := 0 in
  let commandCode := TPM_CC_Startup in
  (* Marshal the request *)
  marshal_step (TSS_TPMI_ST_COMMAND_TAG_Marshal tag);;
  marshal_step (TSS_UINT32_Marshal unCommandSize);;
  marshal_step (TSS_TPM_CC_Marshal commandCode);;
  marshal_step (TSS_TPM_SU_Marshal startupType);;
  transmit_step env.

(** Behind the response code nothing is left to unmarshal: the function
    returns the success of the last [TSS_TPM_RC_Unmarshal]. *)
Definition TSS_TPM2_Startup_response : Block (Cmd unit) Z :=
  tag ← unmarshal_step TSS_TPM_ST_Unmarshal keep;
  unResponseSize ← unmarshal_step TSS_UINT32_Unmarshal keep;
  responseCode ← unmarshal_step TSS_TPM_RC_Unmarshal keep;
  response_code_step responseCode;;
  mret TPM_RC_SUCCESS.

Definition TSS_TPM2_Startup (startupType : Z) : World -> Z * Cmd unit :=
  fun w =>
  run_block (TSS_TPM2_Startup_request startupType;; TSS_TPM2_Startup_response)
            (command_start tt w).
End TPM2_Commands.

(** What the caller of a command function sees when the chip answered
    with the code [r]: the code under the mask as return value, the world
    as the transport left it, the cursor right behind the response code,
    and out-parameters that are still zeroed. *)
Definition chip_error_returned `{Codes} {Out} (zero : Out) (r : Z) (c3 : Cursor)
    (s1 : Cmd Out) (result : Z * Cmd Out) : Prop :=
  fst result = Z.lor RC_TPM_MASK r /\
  snd result = Build_Cmd (world s1) c3 zero.

(** ** CommandFlow_Tpm12ClearOwnership.c *)

(** The result structure; the flow touches its return code only. *)
Record IfxTpm12ClearOwnership : Type := {
  co_unReturnCode : Z;
}.

Section Tpm12ClearOwnership.
Context `{Codes} (env : Env).

(** SHA1 Hash of the default owner password *)
Definition ownerAuthData : list Z :=
  [ 0x67; 0x68; 0x03; 0x3e; 0x21;
    0x64; 0x68; 0x24; 0x7b; 0xd0;
    0x31; 0xa0; 0xa2; 0xd9; 0x87;
    0x6d; 0x79; 0x81; 0x8f; 0x8f ].

(** [// Check TPM operation mode] *)
Definition check_operation_mode (sTpmState : TPM_STATE) : Block World unit :=
  if tpm12 sTpmState && tpm12owner sTpmState then
    ret tt (* Continue... *)
  else if tpm20 sTpmState then
    break RC_E_TPM_NOT_SUPPORTED_FEATURE
  else if tpm12 sTpmState then
    break RC_E_TPM12_NO_OWNER
  else if negb (infineon sTpmState) then
    break RC_E_NO_IFX_TPM
  else if unsupportedChip sTpmState then
    break RC_E_UNSUPPORTED_CHIP
  else
    break RC_E_UNSUPPORTED_CHIP.

Definition CommandFlow_Tpm12ClearOwnership_Execute_block
    (PpTpmClearOwnership : option IfxTpm12ClearOwnership) : Block World Z :=
  (* Parameter check *)
  break_if (is_NULL PpTpmClearOwnership) RC_E_BAD_PARAMETER;;
  (* Calculate TPM operational mode *)
  '(unReturnValue, sTpmState) ← lift (call_state env FirmwareUpdate_CalculateState);
  check unReturnValue;;
  check_operation_mode sTpmState;;
  (* Check if owner authorization password is the default value as expected *)
  unReturnValue ← lift (call env (FirmwareUpdate_CheckOwnerAuthorization ownerAuthData));
  (if negb (unReturnValue =? RC_SUCCESS) then
     if TPM_AUTHFAIL =? Z.lxor unReturnValue RC_TPM_MASK
     then break RC_E_TPM12_INVALID_OWNERAUTH
     else break unReturnValue
   else ret tt);;
  (* Create OIAP Session *)
  w ← get;
  let unAuthHandle := reply_uint env (trace w) TSS_TPM_OIAP in
  let sNonceEven := reply_bytes env (trace w) TSS_TPM_OIAP in
  unReturnValue ← lift (call env TSS_TPM_OIAP);
  check unReturnValue;;
  (* Clear TPM1.2 Ownership *)
  unReturnValue ← lift (call env (TSS_TPM_OwnerClear unAuthHandle sNonceEven false
                                                    ownerAuthData));
  check unReturnValue;;
  mret unReturnValue.

(** [None]: the function dereferenced a [NULL] pointer. *)
Definition CommandFlow_Tpm12ClearOwnership_Execute
    (PpTpmClearOwnership : option IfxTpm12ClearOwnership)
  : World -> option (Z * IfxTpm12ClearOwnership) * World :=
  fun w =>
  let '(unReturnValue, w') :=
    run_block (CommandFlow_Tpm12ClearOwnership_Execute_block PpTpmClearOwnership) w in
  (* PpTpmClearOwnership->unReturnCode = unReturnValue; *)
  match PpTpmClearOwnership with
  | None => (None, w')
  | Some _ => (Some (RC_SUCCESS, {| co_unReturnCode := unReturnValue |}), w')
  end.
End Tpm12ClearOwnership.

(** ** Helpers of Platform.c, Utility.c, Config.c and FirmwareImage.c

    Their sources are not part of the verified files, and nothing is
    assumed about what they compute.  A string function gets the capacity of
    the destination buffer and returns its return code, the string it left
    in the buffer and the size it reported back. *)
Class Platform : Type := {
  Platform_StringCompare : string -> string -> Z -> bool -> Z;
  Platform_StringCopy : Z -> string -> Z * (string * Z);
  (* the one use, with TPM_FIRMWARE_FILE_NAME_PATTERN = "%ls_%ls_to_%ls_%ls.BIN" *)
  Platform_StringFormat : Z -> string -> string -> string -> string -> Z * (string * Z);
  Platform_StringConcatenatePaths : string -> Z -> string -> Z * (string * Z);
  Platform_MemoryCopy : Z -> list Z -> Z * list Z;
  (* buffer, its size, the index to start at: the return code and the line *)
  Utility_StringGetLine : string -> Z -> Z -> Z * string;
  (* the image and its size: return code, target version and target family *)
  FirmwareImage_Unmarshal : list Z -> Z -> Z * (string * Z);
  (* Config.c hands the triples section, key, value of a file to the parser *)
  Config_triples : string -> list (string * string * string);
}.

(** ** The result structure of the update flow (TPMFactoryUpdStruct.h) *)

Record IfxUpdate : Type := {
  unType : Z;
  unSize : Z;
  unSubType : Z;
  unReturnCode : Z;
  sTpmState : TPM_STATE;
  wszVersionName : string;
  unRemainingUpdates : Z;
  hPolicySession : Z;
  rgbFirmwareImage : list Z;
  unFirmwareImageSize : Z;
  fValid : bool;
  bfNewTpmFirmwareInfo : Z;
  unErrorDetails : Z;
  unNewFirmwareValid : Z;
  wszNewFirmwareVersion : string;
  bTargetFamily : Z;
  wszUsedFirmwareImage : string;
}.

Definition set_unSubType (v : Z) (u : IfxUpdate) : IfxUpdate :=
  {| unType := unType u; unSize := unSize u; unSubType := v; unReturnCode :=
     unReturnCode u; sTpmState := sTpmState u; wszVersionName := wszVersionName u;
     unRemainingUpdates := unRemainingUpdates u; hPolicySession := hPolicySession u;
     rgbFirmwareImage := rgbFirmwareImage u; unFirmwareImageSize :=
     unFirmwareImageSize u; fValid := fValid u; bfNewTpmFirmwareInfo :=
     bfNewTpmFirmwareInfo u; unErrorDetails := unErrorDetails u; unNewFirmwareValid :=
     unNewFirmwareValid u; wszNewFirmwareVersion := wszNewFirmwareVersion u;
     bTargetFamily := bTargetFamily u; wszUsedFirmwareImage := wszUsedFirmwareImage u |}.
Definition set_unReturnCode (v : Z) (u : IfxUpdate) : IfxUpdate :=
  {| unType := unType u; unSize := unSize u; unSubType := unSubType u; unReturnCode :=
     v; sTpmState := sTpmState u; wszVersionName := wszVersionName u;
     unRemainingUpdates := unRemainingUpdates u; hPolicySession := hPolicySession u;
     rgbFirmwareImage := rgbFirmwareImage u; unFirmwareImageSize :=
     unFirmwareImageSize u; fValid := fValid u; bfNewTpmFirmwareInfo :=
     bfNewTpmFirmwareInfo u; unErrorDetails := unErrorDetails u; unNewFirmwareValid :=
     unNewFirmwareValid u; wszNewFirmwareVersion := wszNewFirmwareVersion u;
     bTargetFamily := bTargetFamily u; wszUsedFirmwareImage := wszUsedFirmwareImage u |}.
Definition set_hPolicySession (v : Z) (u : IfxUpdate) : IfxUpdate :=
  {| unType := unType u; unSize := unSize u; unSubType := unSubType u; unReturnCode :=
     unReturnCode u; sTpmState := sTpmState u; wszVersionName := wszVersionName u;
     unRemainingUpdates := unRemainingUpdates u; hPolicySession := v; rgbFirmwareImage
     := rgbFirmwareImage u; unFirmwareImageSize := unFirmwareImageSize u; fValid :=
     fValid u; bfNewTpmFirmwareInfo := bfNewTpmFirmwareInfo u; unErrorDetails :=
     unErrorDetails u; unNewFirmwareValid := unNewFirmwareValid u;
     wszNewFirmwareVersion := wszNewFirmwareVersion u; bTargetFamily := bTargetFamily
     u; wszUsedFirmwareImage := wszUsedFirmwareImage u |}.
Definition set_rgbFirmwareImage (v : list Z) (u : IfxUpdate) : IfxUpdate :=
  {| unType := unType u; unSize := unSize u; unSubType := unSubType u; unReturnCode :=
     unReturnCode u; sTpmState := sTpmState u; wszVersionName := wszVersionName u;
     unRemainingUpdates := unRemainingUpdates u; hPolicySession := hPolicySession u;
     rgbFirmwareImage := v; unFirmwareImageSize := unFirmwareImageSize u; fValid :=
     fValid u; bfNewTpmFirmwareInfo := bfNewTpmFirmwareInfo u; unErrorDetails :=
     unErrorDetails u; unNewFirmwareValid := unNewFirmwareValid u;
     wszNewFirmwareVersion := wszNewFirmwareVersion u; bTargetFamily := bTargetFamily
     u; wszUsedFirmwareImage := wszUsedFirmwareImage u |}.
Definition set_unFirmwareImageSize (v : Z) (u : IfxUpdate) : IfxUpdate :=
  {| unType := unType u; unSize := unSize u; unSubType := unSubType u; unReturnCode :=
     unReturnCode u; sTpmState := sTpmState u; wszVersionName := wszVersionName u;
     unRemainingUpdates := unRemainingUpdates u; hPolicySession := hPolicySession u;
     rgbFirmwareImage := rgbFirmwareImage u; unFirmwareImageSize := v; fValid :=
     fValid u; bfNewTpmFirmwareInfo := bfNewTpmFirmwareInfo u; unErrorDetails :=
     unErrorDetails u; unNewFirmwareValid := unNewFirmwareValid u;
     wszNewFirmwareVersion := wszNewFirmwareVersion u; bTargetFamily := bTargetFamily
     u; wszUsedFirmwareImage := wszUsedFirmwareImage u |}.
Definition set_fValid (v : bool) (u : IfxUpdate) : IfxUpdate :=
  {| unType := unType u; unSize := unSize u; unSubType := unSubType u; unReturnCode :=
     unReturnCode u; sTpmState := sTpmState u; wszVersionName := wszVersionName u;
     unRemainingUpdates := unRemainingUpdates u; hPolicySession := hPolicySession u;
     rgbFirmwareImage := rgbFirmwareImage u; unFirmwareImageSize :=
     unFirmwareImageSize u; fValid := v; bfNewTpmFirmwareInfo := bfNewTpmFirmwareInfo
     u; unErrorDetails := unErrorDetails u; unNewFirmwareValid := unNewFirmwareValid
     u; wszNewFirmwareVersion := wszNewFirmwareVersion u; bTargetFamily :=
     bTargetFamily u; wszUsedFirmwareImage := wszUsedFirmwareImage u |}.
Definition set_bfNewTpmFirmwareInfo (v : Z) (u : IfxUpdate) : IfxUpdate :=
  {| unType := unType u; unSize := unSize u; unSubType := unSubType u; unReturnCode :=
     unReturnCode u; sTpmState := sTpmState u; wszVersionName := wszVersionName u;
     unRemainingUpdates := unRemainingUpdates u; hPolicySession := hPolicySession u;
     rgbFirmwareImage := rgbFirmwareImage u; unFirmwareImageSize :=
     unFirmwareImageSize u; fValid := fValid u; bfNewTpmFirmwareInfo := v;
     unErrorDetails := unErrorDetails u; unNewFirmwareValid := unNewFirmwareValid u;
     wszNewFirmwareVersion := wszNewFirmwareVersion u; bTargetFamily := bTargetFamily
     u; wszUsedFirmwareImage := wszUsedFirmwareImage u |}.
Definition set_unErrorDetails (v : Z) (u : IfxUpdate) : IfxUpdate :=
  {| unType := unType u; unSize := unSize u; unSubType := unSubType u; unReturnCode :=
     unReturnCode u; sTpmState := sTpmState u; wszVersionName := wszVersionName u;
     unRemainingUpdates := unRemainingUpdates u; hPolicySession := hPolicySession u;
     rgbFirmwareImage := rgbFirmwareImage u; unFirmwareImageSize :=
     unFirmwareImageSize u; fValid := fValid u; bfNewTpmFirmwareInfo :=
     bfNewTpmFirmwareInfo u; unErrorDetails := v; unNewFirmwareValid :=
     unNewFirmwareValid u; wszNewFirmwareVersion := wszNewFirmwareVersion u;
     bTargetFamily := bTargetFamily u; wszUsedFirmwareImage := wszUsedFirmwareImage u |}.
Definition set_unNewFirmwareValid (v : Z) (u : IfxUpdate) : IfxUpdate :=
  {| unType := unType u; unSize := unSize u; unSubType := unSubType u; unReturnCode :=
     unReturnCode u; sTpmState := sTpmState u; wszVersionName := wszVersionName u;
     unRemainingUpdates := unRemainingUpdates u; hPolicySession := hPolicySession u;
     rgbFirmwareImage := rgbFirmwareImage u; unFirmwareImageSize :=
     unFirmwareImageSize u; fValid := fValid u; bfNewTpmFirmwareInfo :=
     bfNewTpmFirmwareInfo u; unErrorDetails := unErrorDetails u; unNewFirmwareValid :=
     v; wszNewFirmwareVersion := wszNewFirmwareVersion u; bTargetFamily :=
     bTargetFamily u; wszUsedFirmwareImage := wszUsedFirmwareImage u |}.
Definition set_wszNewFirmwareVersion (v : string) (u : IfxUpdate) : IfxUpdate :=
  {| unType := unType u; unSize := unSize u; unSubType := unSubType u; unReturnCode :=
     unReturnCode u; sTpmState := sTpmState u; wszVersionName := wszVersionName u;
     unRemainingUpdates := unRemainingUpdates u; hPolicySession := hPolicySession u;
     rgbFirmwareImage := rgbFirmwareImage u; unFirmwareImageSize :=
     unFirmwareImageSize u; fValid := fValid u; bfNewTpmFirmwareInfo :=
     bfNewTpmFirmwareInfo u; unErrorDetails := unErrorDetails u; unNewFirmwareValid :=
     unNewFirmwareValid u; wszNewFirmwareVersion := v; bTargetFamily := bTargetFamily
     u; wszUsedFirmwareImage := wszUsedFirmwareImage u |}.
Definition set_bTargetFamily (v : Z) (u : IfxUpdate) : IfxUpdate :=
  {| unType := unType u; unSize := unSize u; unSubType := unSubType u; unReturnCode :=
     unReturnCode u; sTpmState := sTpmState u; wszVersionName := wszVersionName u;
     unRemainingUpdates := unRemainingUpdates u; hPolicySession := hPolicySession u;
     rgbFirmwareImage := rgbFirmwareImage u; unFirmwareImageSize :=
     unFirmwareImageSize u; fValid := fValid u; bfNewTpmFirmwareInfo :=
     bfNewTpmFirmwareInfo u; unErrorDetails := unErrorDetails u; unNewFirmwareValid :=
     unNewFirmwareValid u; wszNewFirmwareVersion := wszNewFirmwareVersion u;
     bTargetFamily := v; wszUsedFirmwareImage := wszUsedFirmwareImage u |}.
Definition set_wszUsedFirmwareImage (v : string) (u : IfxUpdate) : IfxUpdate :=
  {| unType := unType u; unSize := unSize u; unSubType := unSubType u; unReturnCode :=
     unReturnCode u; sTpmState := sTpmState u; wszVersionName := wszVersionName u;
     unRemainingUpdates := unRemainingUpdates u; hPolicySession := hPolicySession u;
     rgbFirmwareImage := rgbFirmwareImage u; unFirmwareImageSize :=
     unFirmwareImageSize u; fValid := fValid u; bfNewTpmFirmwareInfo :=
     bfNewTpmFirmwareInfo u; unErrorDetails := unErrorDetails u; unNewFirmwareValid :=
     unNewFirmwareValid u; wszNewFirmwareVersion := wszNewFirmwareVersion u;
     bTargetFamily := bTargetFamily u; wszUsedFirmwareImage := v |}.

(** The update flow works on the structure and on the world. *)
Definition Flow : Type := IfxUpdate * World.

Definition getsU {A} (f : IfxUpdate -> A) : Block Flow A := gets (fun s => f (fst s)).
Definition getsW {A} (f : World -> A) : Block Flow A := gets (fun s => f (snd s)).
Definition modifyU (f : IfxUpdate -> IfxUpdate) : Block Flow unit :=
  modify (fun s => (f (fst s), snd s)).
Definition modifyW (f : World -> World) : Block Flow unit :=
  modify (fun s => (fst s, f (snd s))).
Definition liftW {A} (f : World -> A * World) : Block Flow A :=
  lift (fun s => let '(a, w) := f (snd s) in (a, (fst s, w))).

(** ** Files (FileIO.c)

    The environment decides whether a call succeeds; what a successful call
    reads or changes are the [files] of the world. *)
Section FileIO.
Context (env : Env).

Definition FileIO_Exists_ (path : string) (w : World) : bool * World :=
  (match files w !! path with Some _ => true | None => false end,
   log (FileIO_Exists path) w).

(** [0 == FileIO_Open(path, &pFile, FILE_WRITE) && NULL != pFile]: the file
    is there and empty afterwards. *)
Definition FileIO_Open_write_ (path : string) (w : World) : bool * World :=
  let rc := reply_rc env (trace w) (FileIO_Open_write path) in
  if rc =? 0
  then (true, set_files (<[path := EmptyString]> (files w)) (log (FileIO_Open_write path) w))
  else (false, log (FileIO_Open_write path) w).

Definition FileIO_WriteString_ (path text : string) (w : World) : Z * World :=
  let e := FileIO_WriteString path text in
  let rc := reply_rc env (trace w) e in
  if rc =? 0
  then (rc, set_files (<[path := (default EmptyString (files w !! path) ++ text)%string]>
                         (files w)) (log e w))
  else (rc, log e w).

Definition FileIO_Remove_ (path : string) (w : World) : Z * World :=
  let rc := reply_rc env (trace w) (FileIO_Remove path) in
  if rc =? 0
  then (rc, set_files (delete path (files w)) (log (FileIO_Remove path) w))
  else (rc, log (FileIO_Remove path) w).

(** Return code, content and the size reported for it. *)
Definition FileIO_ReadFileToStringBuffer_ (path : string) (w : World)
  : (Z * (string * Z)) * World :=
  let e := FileIO_ReadFileToStringBuffer path in
  ((reply_rc env (trace w) e,
    (default EmptyString (files w !! path), reply_uint env (trace w) e)),
   log e w).

Definition bytes_of_string (s : string) : list Z :=
  map (fun c => Z.of_N (N_of_ascii c)) (list_ascii_of_string s).

Definition FileIO_ReadFileToBuffer_ (path : string) (w : World)
  : (Z * (list Z * Z)) * World :=
  let e := FileIO_ReadFileToBuffer path in
  let content := bytes_of_string (default EmptyString (files w !! path)) in
  ((reply_rc env (trace w) e, (content, Z.of_nat (length content))), log e w).
End FileIO.

(** ** CommandFlow_TpmUpdate.c *)

(** [Response_ProgressCallback] prints the completion; for the flow it is
    an event. *)
Definition Response_ProgressCallback_ (ullProgress : Z) (w : World) : World :=
  log (Response_ProgressCallback ullProgress) w.

(** [for (unsigned long long ullProgress = 25; ullProgress <= 100;
         ullProgress += 25)] of the dry run, from the value [ullProgress]
    on. *)
Equations? dry_run_loop (ullProgress : Z) (w : World) : World
  by wf (Z.to_nat (101 - ullProgress)) lt :=
  dry_run_loop ullProgress w with Z_le_dec ullProgress 100 => {
    | left _ :=
        dry_run_loop (u64 (ullProgress + 25))
          (Response_ProgressCallback_ ullProgress
             (log (Platform_SleepMicroSeconds (2 * 1000 * 1000)) w));
    | right _ := w }.
Proof.
  unfold u64.
  pose proof (Z.mod_pos_bound (ullProgress + 25) (2 ^ 64) ltac:(lia)) as B.
  destruct (Z_lt_le_dec ullProgress 0).
  - lia.
  - rewrite Z.mod_small by lia. lia.
Qed.

Section UpdateFirmware.
Context `{Codes} `{Platform} (env : Env).

(** [CommandFlow_TpmUpdate_UpdateStartedCallback] *)
Definition CommandFlow_TpmUpdate_UpdateStartedCallback (w : World) : World :=
  if s_fUpdateThroughConfigFile w then
    let '(opened, w1) := FileIO_Open_write_ env TPM_FACTORY_UPD_RUNDATA_FILE w in
    if opened then
      let w2 :=
        match PropertyStorage_GetValueByKey PROPERTY_FIRMWARE_PATH MAX_PATH (props w1) with
        | None => w1 (* ERROR_STORE_FMT only *)
        | Some wszFirmwareImagePath =>
            snd (FileIO_WriteString_ env TPM_FACTORY_UPD_RUNDATA_FILE
                                     wszFirmwareImagePath w1)
        end in
      log (FileIO_Close TPM_FACTORY_UPD_RUNDATA_FILE) w2
    else w1
  else w.

Record IfxFirmwareUpdateData : Type := {
  unSessionHandle : Z;
  rgbOwnerAuthHash : list Z;
  fnProgressCallback : Z -> World -> World;
  fnUpdateStartedCallback : World -> World;
  fud_rgbFirmwareImage : list Z;
  fud_unFirmwareImageSize : Z;
}.

(** Modelled from the spec: FirmwareUpdate.c is not part of the sources.
    Sections 3 and 4.7: the image's blocks are sent to the chip; at the
    instant the chip acknowledges the first data block the update-started
    callback is called; progress is emitted through the progress callback
    after each acknowledged block; the result is the code of the update.
    Whether the first block was acknowledged, the progress values and the
    return code are the environment's. *)
Definition FirmwareUpdate_UpdateImage_ (d : IfxFirmwareUpdateData) (w : World) : Z * World :=
  let e := FirmwareUpdate_UpdateImage (unSessionHandle d) (rgbOwnerAuthHash d)
                                      (fud_rgbFirmwareImage d) in
  let started := reply_flag env (trace w) e in
  let progress := reply_bytes env (trace w) e in
  let w1 := log e w in
  let w2 := if started then fnUpdateStartedCallback d w1 else w1 in
  (reply_rc env (trace w) e, fold_left (fun w p => fnProgressCallback d p w) progress w2).

(** [// Check parameters] *)
Definition UpdateFirmware_parameters_ok (u : IfxUpdate) : bool :=
  (unType u =? STRUCT_TYPE_TpmUpdate) && (unSize u =? sizeof_IfxUpdate) &&
  (unSubType u =? STRUCT_SUBTYPE_PREPARE).

Definition CommandFlow_TpmUpdate_UpdateFirmware_block : Block Flow Z :=
  u ← getsU (fun u => u);
  break_if (negb (UpdateFirmware_parameters_ok u)) RC_E_BAD_PARAMETER;;
  (* Set TpmUpdate structure sub type and return value *)
  modifyU (set_unSubType STRUCT_SUBTYPE_UPDATE);;
  modifyU (set_unReturnCode RC_E_FAIL);;
  (* Set the session handle for a TPM2.0 update flow if necessary *)
  let unSessionHandle := if tpm20 (sTpmState u) then hPolicySession u else 0 in
  (* Try to set TPM Owner authentication hash for update with taking ownership *)
  rgbOwnerAuthHash ←
    (if tpm12 (sTpmState u) then
       o ← getsW (fun w => PropertyStorage_GetUIntegerValueByKey PROPERTY_UPDATE_TYPE (props w));
       match o with
       | None => break RC_E_FAIL
       | Some unUpdateType =>
           if UPDATE_TYPE_TPM12_TAKEOWNERSHIP =? unUpdateType then
             let '(rc, hash) := Platform_MemoryCopy sizeof_rgbOwnerAuthHash s_ownerAuthData in
             check rc;; mret hash
           else mret (repeat 0 (Z.to_nat sizeof_rgbOwnerAuthHash))
       end
     else mret (repeat 0 (Z.to_nat sizeof_rgbOwnerAuthHash)));
  (* Update firmware *)
  let sFirmwareUpdateData :=
    {| unSessionHandle := unSessionHandle;
       rgbOwnerAuthHash := rgbOwnerAuthHash;
       fnProgressCallback := Response_ProgressCallback_;
       fnUpdateStartedCallback := CommandFlow_TpmUpdate_UpdateStartedCallback;
       fud_rgbFirmwareImage := rgbFirmwareImage u;
       fud_unFirmwareImageSize := unFirmwareImageSize u |} in
  fValue ← getsW (fun w => PropertyStorage_GetBooleanValueByKey PROPERTY_DRY_RUN (props w));
  match fValue with
  | Some true =>
      modifyU (set_unReturnCode RC_SUCCESS);;
      modifyW (dry_run_loop 25)
  | _ =>
      rc ← liftW (FirmwareUpdate_UpdateImage_ sFirmwareUpdateData);
      modifyU (set_unReturnCode rc)
  end;;
  let unReturnValue := RC_SUCCESS in
  rc ← getsU unReturnCode;
  break_if (negb (rc =? RC_SUCCESS)) unReturnValue;;
  (* The firmware update completed successfully. Remove run data. Ignore errors *)
  exists_ ← liftW (FileIO_Exists_ TPM_FACTORY_UPD_RUNDATA_FILE);
  (if exists_ : bool
   then liftW (FileIO_Remove_ env TPM_FACTORY_UPD_RUNDATA_FILE);; mret tt
   else mret tt);;
  mret unReturnValue.

(** [None] as argument is a [NULL] pointer; [None] as result: the function
    dereferenced it, what it does behind the block for the session handle. *)
Definition CommandFlow_TpmUpdate_UpdateFirmware (PpTpmUpdate : option IfxUpdate)
  : World -> option (Z * IfxUpdate) * World :=
  fun w =>
  match PpTpmUpdate with
  | None => (None, w)
  | Some u =>
      let '(unReturnValue, (u1, w1)) :=
        run_block CommandFlow_TpmUpdate_UpdateFirmware_block (u, w) in
      (* Try to close policy session in case of errors *)
      if (negb (unReturnValue =? RC_SUCCESS) || negb (unReturnCode u1 =? RC_SUCCESS))
         && negb (hPolicySession u1 =? 0)
      then
        let '(_, w2) := call env (TSS_TPM2_FlushContext (hPolicySession u1)) w1 in
        (Some (unReturnValue, set_hPolicySession 0 u1), w2)
      else (Some (unReturnValue, u1), w1)
  end.
End UpdateFirmware.

Section IsFirmwareUpdatable.
Context `{Codes} `{Platform} (env : Env).

(** [// Check input parameters] of the functions that take the structure in
    any state. *)
Definition structure_ok (u : IfxUpdate) : bool :=
  (unType u =? STRUCT_TYPE_TpmUpdate) && (unSize u =? sizeof_IfxUpdate).

(** [switch (PpTpmUpdate->unErrorDetails)] of an image that is not valid. *)
Definition image_error (unErrorDetails : Z) : Z :=
  if (unErrorDetails =? RC_E_CORRUPT_FW_IMAGE) || (unErrorDetails =? RC_E_WRONG_FW_IMAGE) ||
     (unErrorDetails =? RC_E_NEWER_TOOL_REQUIRED) || (unErrorDetails =? RC_E_WRONG_DECRYPT_KEYS)
  then unErrorDetails
  else RC_E_TPM_FIRMWARE_UPDATE.

Definition CommandFlow_TpmUpdate_IsTpmUpdatableWithFirmware_block : Block Flow Z :=
  u ← getsU (fun u => u);
  break_if (negb (structure_ok u)) RC_E_BAD_PARAMETER;;
  (* Call CheckImage *)
  w ← getsW (fun w => w);
  let e := FirmwareUpdate_CheckImage (rgbFirmwareImage u) in
  modifyU (fun u => set_unErrorDetails (reply_uint env (trace w) e)
                      (set_bfNewTpmFirmwareInfo (reply_info env (trace w) e)
                         (set_fValid (reply_flag env (trace w) e) u)));;
  unReturnValue ← liftW (call env e);
  check unReturnValue;;
  u ← getsU (fun u => u);
  (if negb (fValid u) then break (image_error (unErrorDetails u)) else ret tt);;
  (* Parse the new image and get the target version and the target family *)
  let '(unReturnValue, (wszTargetVersion, bTargetTpmFamily)) :=
    FirmwareImage_Unmarshal (rgbFirmwareImage u) (int32 (unFirmwareImageSize u)) in
  check unReturnValue;;
  let '(unReturnValue, (copied, _)) :=
    Platform_StringCopy RG_LEN_wszNewFirmwareVersion wszTargetVersion in
  modifyU (set_wszNewFirmwareVersion copied);;
  check unReturnValue;;
  modifyU (set_bTargetFamily bTargetTpmFamily);;
  mret unReturnValue.

Definition CommandFlow_TpmUpdate_IsTpmUpdatableWithFirmware
    (PpTpmUpdate : option IfxUpdate) : World -> Z * (option IfxUpdate * World) :=
  fun w =>
  match PpTpmUpdate with
  | None => (RC_E_BAD_PARAMETER, (None, w))
  | Some u =>
      let '(rc, (u', w')) :=
        run_block CommandFlow_TpmUpdate_IsTpmUpdatableWithFirmware_block (u, w) in
      (rc, (Some u', w'))
  end.

(** [PpTpmUpdate->unReturnCode = code; unReturnValue = RC_SUCCESS; break;] *)
Definition refuse (code : Z) : Block Flow unit :=
  modifyU (set_unReturnCode code);; break RC_SUCCESS.

(** [// Check if TPM is updatable regarding the count] *)
Definition check_updatable (unUpdateType : Z) : Block Flow unit :=
  u ← getsU (fun u => u);
  let attribs := sTpmState u in
  (* Check if TPM1.2 is detected *)
  (if tpm12 attribs then
     (* Check if the correct update type is set *)
     (if negb (UPDATE_TYPE_TPM12_DEFERREDPP =? unUpdateType) &&
         negb (UPDATE_TYPE_TPM12_TAKEOWNERSHIP =? unUpdateType)
      then refuse RC_E_INVALID_UPDATE_OPTION else ret tt);;
     (* Check if TPM already has an owner *)
     (if tpm12owner attribs then refuse RC_E_TPM12_OWNED else ret tt)
   else ret tt);;
  (* Check if TPM2.0 is detected and correct update type is set *)
  (if tpm20 attribs && negb (UPDATE_TYPE_TPM20_EMPTYPLATFORMAUTH =? unUpdateType)
   then refuse RC_E_INVALID_UPDATE_OPTION else ret tt);;
  (* Check if restart is required *)
  (if tpm20restartRequired attribs then refuse RC_E_RESTART_REQUIRED else ret tt);;
  (* Check if TPM is in failure mode *)
  (if tpm20InFailureMode attribs then refuse RC_E_TPM20_FAILURE_MODE else ret tt);;
  (* Check if updatable *)
  (if unRemainingUpdates u =? 0 then refuse RC_E_FW_UPDATE_BLOCKED else ret tt).

Definition CommandFlow_TpmUpdate_IsFirmwareUpdatable_block : Block Flow Z :=
  u ← getsU (fun u => u);
  break_if (negb (structure_ok u)) RC_E_BAD_PARAMETER;;
  (* Set TpmUpdate structure sub type and return value *)
  modifyU (set_unSubType STRUCT_SUBTYPE_IS_UPDATABLE);;
  modifyU (set_unNewFirmwareValid GENERIC_TRISTATE_STATE_NA);;
  modifyU (set_unReturnCode RC_E_FAIL);;
  (* Get update type *)
  o ← getsW (fun w => PropertyStorage_GetUIntegerValueByKey PROPERTY_UPDATE_TYPE (props w));
  match o with
  | None => break RC_E_FAIL
  | Some unUpdateType =>
    check_updatable unUpdateType;;
    (* Get firmware path from property storage and load file *)
    o ← getsW (fun w => PropertyStorage_GetValueByKey PROPERTY_FIRMWARE_PATH MAX_PATH (props w));
    match o with
    | None => break RC_E_FAIL
    | Some wszFirmwareImagePath =>
      '(unReturnValue, (image, size)) ←
        liftW (FileIO_ReadFileToBuffer_ env wszFirmwareImagePath);
      (if negb (unReturnValue =? RC_SUCCESS) then break RC_E_INVALID_FW_OPTION
       else modifyU (fun u => set_unFirmwareImageSize size (set_rgbFirmwareImage image u)));;
      unReturnValue ← lift (run_block CommandFlow_TpmUpdate_IsTpmUpdatableWithFirmware_block);
      (if negb (unReturnValue =? RC_SUCCESS) then
         modifyU (set_unNewFirmwareValid GENERIC_TRISTATE_STATE_NO);;
         refuse unReturnValue
       else ret tt);;
      modifyU (set_unNewFirmwareValid GENERIC_TRISTATE_STATE_YES);;
      modifyU (set_unReturnCode RC_SUCCESS);;
      mret RC_SUCCESS
    end
  end.

Definition CommandFlow_TpmUpdate_IsFirmwareUpdatable (PpTpmUpdate : option IfxUpdate)
  : World -> Z * (option IfxUpdate * World) :=
  fun w =>
  match PpTpmUpdate with
  | None => (RC_E_BAD_PARAMETER, (None, w))
  | Some u =>
      let '(rc, (u', w')) :=
        run_block CommandFlow_TpmUpdate_IsFirmwareUpdatable_block (u, w) in
      (rc, (Some u', w'))
  end.
End IsFirmwareUpdatable.

Section ConfigFile.
Context `{Codes} `{Platform} (env : Env).

(** [0 == Platform_StringCompare(a, b, size, TRUE)] *)
Definition same_setting (a b : string) (size : Z) : bool :=
  0 =? Platform_StringCompare a b size true.

(** [if (!PropertyStorage_Add...(key, value)) { ERROR_STORE; break; }] *)
Definition add_uint_or_break (key : string) (value : Z) (unReturnValue : Z)
  : Block World unit :=
  ps ← gets props;
  match PropertyStorage_AddKeyUIntegerValuePair key value ps with
  | Some ps' => modify (set_props ps')
  | None => break unReturnValue
  end.

Definition add_string_or_break (key : string) (value : string) (unReturnValue : Z)
  : Block World unit :=
  ps ← gets props;
  match PropertyStorage_AddKeyValuePair key value ps with
  | Some ps' => modify (set_props ps')
  | None => break unReturnValue
  end.

Definition CommandFlow_TpmUpdate_Parse
    (PwszSection : string) (PunSectionSize : Z) (PwszKey : string) (PunKeySize : Z)
    (PwszValue : string) (PunValueSize : Z) : World -> Z * World :=
  run_block (
    let unReturnValue := RC_E_FAIL in
    (* Check parameters *)
    break_if (String.eqb PwszSection EmptyString || (0 =? PunSectionSize) ||
              String.eqb PwszKey EmptyString || (0 =? PunKeySize) ||
              String.eqb PwszValue EmptyString || (0 =? PunValueSize))
             RC_E_BAD_PARAMETER;;
    (* Section Update Type *)
    (if same_setting PwszSection CONFIG_SECTION_UPDATE_TYPE PunSectionSize then
       (* Check setting tpm12 *)
       (if same_setting PwszKey CONFIG_UPDATE_TYPE_TPM12 PunKeySize then
          if same_setting PwszValue CMD_UPDATE_OPTION_TPM12_DEFERREDPP PunValueSize then
            add_uint_or_break PROPERTY_CONFIG_FILE_UPDATE_TYPE12
                              UPDATE_TYPE_TPM12_DEFERREDPP unReturnValue
          else if same_setting PwszValue CMD_UPDATE_OPTION_TPM12_TAKEOWNERSHIP PunValueSize then
            add_uint_or_break PROPERTY_CONFIG_FILE_UPDATE_TYPE12
                              UPDATE_TYPE_TPM12_TAKEOWNERSHIP unReturnValue
          else break RC_E_INVALID_SETTING
        else ret tt);;
       (* Check setting tpm20 *)
       (if same_setting PwszKey CONFIG_UPDATE_TYPE_TPM20 PunKeySize then
          if same_setting PwszValue CMD_UPDATE_OPTION_TPM20_EMPTYPLATFORMAUTH PunValueSize then
            add_uint_or_break PROPERTY_CONFIG_FILE_UPDATE_TYPE20
                              UPDATE_TYPE_TPM20_EMPTYPLATFORMAUTH unReturnValue
          else break RC_E_INVALID_SETTING
        else ret tt);;
       (* Unknown setting in current section ignore it *)
       break RC_SUCCESS
     else ret tt);;
    (* Section Target Firmware *)
    unReturnValue ←
      (if same_setting PwszSection CONFIG_SECTION_TARGET_FIRMWARE PunSectionSize then
         (if same_setting PwszKey CONFIG_TARGET_FIRMWARE_VERSION_LPC PunKeySize then
            add_string_or_break PROPERTY_CONFIG_TARGET_FIRMWARE_VERSION_LPC PwszValue
                                unReturnValue
          else ret tt);;
         (if same_setting PwszKey CONFIG_TARGET_FIRMWARE_VERSION_SPI PunKeySize then
            add_string_or_break PROPERTY_CONFIG_TARGET_FIRMWARE_VERSION_SPI PwszValue
                                unReturnValue
          else ret tt);;
         mret RC_SUCCESS
       else mret unReturnValue);
    (* Section Firmware Folder *)
    unReturnValue ←
      (if same_setting PwszSection CONFIG_SECTION_FIRMWARE_FOLDER PunSectionSize then
         (if same_setting PwszKey CONFIG_FIRMWARE_FOLDER_PATH PunKeySize then
            add_string_or_break PROPERTY_CONFIG_FIRMWARE_FOLDER_PATH PwszValue
                                unReturnValue
          else ret tt);;
         mret RC_SUCCESS
       else mret unReturnValue);
    (* Unknown section ignore it *)
    mret RC_SUCCESS).

Definition CommandFlow_TpmUpdate_InitializeParsing : Z := RC_SUCCESS.

Definition prgwszMandatoryProperties : list string :=
  [ PROPERTY_CONFIG_FILE_UPDATE_TYPE12;
    PROPERTY_CONFIG_FILE_UPDATE_TYPE20;
    PROPERTY_CONFIG_TARGET_FIRMWARE_VERSION_LPC;
    PROPERTY_CONFIG_TARGET_FIRMWARE_VERSION_SPI;
    PROPERTY_CONFIG_FIRMWARE_FOLDER_PATH;
    EmptyString ].

(** [while (0 != Platform_StringCompare(prgwszMandatoryProperties[unIndex],
    L"", RG_LEN(L""), FALSE))]: a comparison over one element, which looks
    at the first character of the entry against the terminating zero; the
    loop runs up to the first empty entry. *)
Fixpoint check_mandatory (entries : list string) (ps : gmap string PropValue)
    (PunReturnValue : Z) : Z :=
  match entries with
  | [] => PunReturnValue
  | entry :: rest =>
      if String.eqb entry EmptyString then PunReturnValue
      else if negb (PropertyStorage_ExistsElement entry ps) then RC_E_INVALID_SETTING
      else check_mandatory rest ps PunReturnValue
  end.

Definition CommandFlow_TpmUpdate_FinalizeParsing (PunReturnValue : Z)
    (ps : gmap string PropValue) : Z :=
  if negb (PunReturnValue =? RC_SUCCESS) then PunReturnValue
  else check_mandatory prgwszMandatoryProperties ps PunReturnValue.

(** The triples of a file go to the parser one by one, up to the first one
    it refuses. *)
Fixpoint parse_triples (triples : list (string * string * string)) (w : World)
  : Z * World :=
  match triples with
  | [] => (RC_SUCCESS, w)
  | (section, key, value) :: rest =>
      let '(rc, w') := CommandFlow_TpmUpdate_Parse section (strlen section + 1)
                         key (strlen key + 1) value (strlen value + 1) w in
      if rc =? RC_SUCCESS then parse_triples rest w' else (rc, w')
  end.

(** Modelled from the spec: Config.c is not part of the sources.  Section 6:
    the config file is parsed by a tokenizer that calls back for each
    section/key/value triple; missing mandatory keys yield [InvalidSetting]
    at finalize time.  The three callbacks are the ones
    [CommandFlow_TpmUpdate_ProceedUpdateConfig] passes. *)
Definition Config_ParseCustom (wszConfigFilePath : string) : World -> Z * World :=
  fun w =>
  let '(rc, w2) :=
    if negb (CommandFlow_TpmUpdate_InitializeParsing =? RC_SUCCESS)
    then (CommandFlow_TpmUpdate_InitializeParsing, w)
    else
      let '((rc, (content, _)), w1) := FileIO_ReadFileToStringBuffer_ env wszConfigFilePath w in
      if negb (rc =? RC_SUCCESS) then (rc, w1)
      else parse_triples (Config_triples content) w1 in
  (CommandFlow_TpmUpdate_FinalizeParsing rc (props w2), w2).
End ConfigFile.

Section ProceedUpdateConfig.
Context `{Codes} `{Platform} (env : Env).

(** [s[0]] is one of two digits and [s[1]] is a dot. *)
Definition version_prefix (s : string) (d1 d2 : ascii) : bool :=
  (Ascii.eqb (wchar_at s 0) d1 || Ascii.eqb (wchar_at s 0) d2) &&
  Ascii.eqb (wchar_at s 1) "."%char.

(** [// Cut off file part]: the index of the last slash or backslash among
    the first [size] characters (0 when there is none). *)
Definition last_folder_index (path : string) (size : Z) : nat :=
  fold_left (fun unLastFolderIndex unIndex =>
               if Ascii.eqb (wchar_at path unIndex) "\"%char ||
                  Ascii.eqb (wchar_at path unIndex) "/"%char
               then unIndex else unLastFolderIndex)
            (seq 0 (Z.to_nat size)) 0%nat.

(** The folder of the config file: the path up to its last separator, ["/"]
    for a file in the root, ["."] for a bare file name. *)
Definition config_folder (path : string) (size : Z) : string :=
  let unLastFolderIndex := last_folder_index path size in
  if (unLastFolderIndex =? 0)%nat then
    if Ascii.eqb (wchar_at path 0) "/"%char then string_take 1 path
    else "."
  else string_take unLastFolderIndex path.

(** The chip is not in boot loader mode: choose the image by the versions
    of the config file. *)
Definition select_firmware_image (wszConfigFilePath : string) : Block Flow unit :=
  u ← getsU (fun u => u);
  let wszVersionName := wszVersionName u in
  let unTargetFamilySize := MAX_NAME in
  (* Check if TPM is SPI or LPC *)
  wszTargetVersion ←
    (if version_prefix wszVersionName "6" "7" then
       o ← getsW (fun w => PropertyStorage_GetValueByKey
                             PROPERTY_CONFIG_TARGET_FIRMWARE_VERSION_SPI MAX_NAME (props w));
       match o with None => break RC_E_FAIL | Some v => mret v end
     else if version_prefix wszVersionName "4" "5" then
       o ← getsW (fun w => PropertyStorage_GetValueByKey
                             PROPERTY_CONFIG_TARGET_FIRMWARE_VERSION_LPC MAX_NAME (props w));
       match o with None => break RC_E_FAIL | Some v => mret v end
     else break RC_E_UNSUPPORTED_CHIP);
  (* Check if firmware is already up to date *)
  (if 0 =? Platform_StringCompare wszTargetVersion wszVersionName unTargetFamilySize false
   then
     modifyU (set_unNewFirmwareValid GENERIC_TRISTATE_STATE_NO);;
     modifyU (set_unReturnCode RC_E_ALREADY_UP_TO_DATE);;
     break RC_SUCCESS
   else ret tt);;
  (* Get firmware folder path *)
  o ← getsW (fun w => PropertyStorage_GetValueByKey
                        PROPERTY_CONFIG_FIRMWARE_FOLDER_PATH MAX_PATH (props w));
  match o with
  | None => break RC_E_FAIL
  | Some wszConfigSettingFirmwarePath =>
    (* Detect TPM source family *)
    let '(unReturnValue, (wszSourceFamily, _)) :=
      if tpm12 (sTpmState u) then Platform_StringCopy MAX_NAME TPM12_FAMILY_STRING
      else if tpm20 (sTpmState u) then Platform_StringCopy MAX_NAME TPM20_FAMILY_STRING
      else (RC_E_FAIL, (EmptyString, MAX_NAME)) in
    break_if (negb (unReturnValue =? RC_SUCCESS)) RC_E_FAIL;;
    (* Get TPM target family from target version *)
    wszTargetFamily ←
      (if version_prefix wszTargetVersion "4" "6" then
         let '(rc, (family, _)) := Platform_StringCopy unTargetFamilySize TPM12_FAMILY_STRING in
         check rc;; mret family
       else if version_prefix wszTargetVersion "5" "7" then
         let '(rc, (family, _)) := Platform_StringCopy unTargetFamilySize TPM20_FAMILY_STRING in
         check rc;; mret family
       else break RC_E_INVALID_SETTING);
    (* Fill in the firmware file name template *)
    let '(unReturnValue, (wszUsedFirmwareImage, _)) :=
      Platform_StringFormat RG_LEN_wszUsedFirmwareImage wszSourceFamily wszVersionName
                            wszTargetFamily wszTargetVersion in
    modifyU (set_wszUsedFirmwareImage wszUsedFirmwareImage);;
    break_if (negb (unReturnValue =? RC_SUCCESS)) RC_E_FAIL;;
    (* Compose firmware folder: copy config file path to destination buffer *)
    let '(unReturnValue, (wszFirmwareFilePath, unFirmwareFilePathSize)) :=
      Platform_StringCopy MAX_STRING_1024 wszConfigFilePath in
    check unReturnValue;;
    let wszFirmwareFilePath := config_folder wszFirmwareFilePath unFirmwareFilePathSize in
    (* Check if config setting firmware path is not the actual folder *)
    wszFirmwareFilePath ←
      (if negb (0 =? Platform_StringCompare wszConfigSettingFirmwarePath "." 2 false) &&
          negb (0 =? Platform_StringCompare wszConfigSettingFirmwarePath "./" 3 false) &&
          negb (0 =? Platform_StringCompare wszConfigSettingFirmwarePath ".\" 3 false)
       then
         let '(rc, (joined, _)) :=
           Platform_StringConcatenatePaths wszFirmwareFilePath MAX_STRING_1024
                                           wszConfigSettingFirmwarePath in
         check rc;; mret joined
       else mret wszFirmwareFilePath);
    (* Add the filled firmware file name template to the composed folder *)
    let '(unReturnValue, (wszFirmwareFilePath, _)) :=
      Platform_StringConcatenatePaths wszFirmwareFilePath MAX_STRING_1024
                                      wszUsedFirmwareImage in
    check unReturnValue;;
    (* Check if firmware image exists *)
    exists_ ← liftW (FileIO_Exists_ wszFirmwareFilePath);
    break_if (negb exists_) RC_E_FIRMWARE_UPDATE_NOT_FOUND;;
    (* Get config file TPM update type depending on the source family version *)
    o ← getsW (fun w => PropertyStorage_GetUIntegerValueByKey
                          (if tpm12 (sTpmState u) then PROPERTY_CONFIG_FILE_UPDATE_TYPE12
                           else PROPERTY_CONFIG_FILE_UPDATE_TYPE20) (props w));
    match o with
    | None => break RC_E_FAIL
    | Some unUpdateType =>
      (* Set the update type *)
      ps ← getsW props;
      match PropertyStorage_ChangeUIntegerValueByKey PROPERTY_UPDATE_TYPE unUpdateType ps with
      | None => break RC_E_FAIL
      | Some ps =>
        modifyW (set_props ps);;
        (* Set the firmware file path *)
        match PropertyStorage_AddKeyValuePair PROPERTY_FIRMWARE_PATH wszFirmwareFilePath ps with
        | None => break RC_E_FAIL
        | Some ps =>
          modifyW (set_props ps);;
          (* Remember that update is done through config file. *)
          modifyW (set_s_fUpdateThroughConfigFile true)
        end
      end
    end
  end.

(** The chip is in boot loader mode: the image is the one of the run data. *)
Definition resume_firmware_image : Block Flow unit :=
  exists_ ← liftW (FileIO_Exists_ TPM_FACTORY_UPD_RUNDATA_FILE);
  if exists_ : bool then
    '(rc, (pwszFirmwareImage, unFirmwareImageSize)) ←
      liftW (FileIO_ReadFileToStringBuffer_ env TPM_FACTORY_UPD_RUNDATA_FILE);
    break_if (negb (rc =? RC_SUCCESS)) RC_E_FAIL;;
    (* Get line from buffer *)
    let '(unReturnValue, pwszLine) :=
      Utility_StringGetLine pwszFirmwareImage unFirmwareImageSize 0 in
    (if negb (unReturnValue =? RC_SUCCESS) then
       if RC_E_END_OF_STRING =? unReturnValue then break RC_SUCCESS
       else break unReturnValue
     else ret tt);;
    (* Set the firmware file path *)
    ps ← getsW props;
    match PropertyStorage_AddKeyValuePair PROPERTY_FIRMWARE_PATH pwszLine ps with
    | None => break RC_E_FAIL
    | Some ps => modifyW (set_props ps)
    end
  else
    (* Cannot resume the firmware update without TPM_FACTORY_UPD_RUNDATA_FILE *)
    break RC_E_RESUME_RUNDATA_NOT_FOUND.

Definition CommandFlow_TpmUpdate_ProceedUpdateConfig_block : Block Flow Z :=
  u ← getsU (fun u => u);
  break_if (negb (structure_ok u)) RC_E_BAD_PARAMETER;;
  (* Set TpmUpdate structure sub type and return value *)
  modifyU (set_unSubType STRUCT_SUBTYPE_IS_UPDATABLE);;
  modifyU (set_unNewFirmwareValid GENERIC_TRISTATE_STATE_NA);;
  modifyU (set_unReturnCode RC_E_FAIL);;
  (* Get config file path from property storage *)
  o ← getsW (fun w => PropertyStorage_GetValueByKey PROPERTY_CONFIG_FILE_PATH
                        MAX_STRING_1024 (props w));
  match o with
  | None => break RC_E_FAIL
  | Some wszConfigFilePath =>
    (* Check if file exists *)
    exists_ ← liftW (FileIO_Exists_ wszConfigFilePath);
    break_if (negb exists_) RC_E_INVALID_CONFIG_OPTION;;
    (* Parse config file using the config module *)
    unReturnValue ← liftW (Config_ParseCustom env wszConfigFilePath);
    check unReturnValue;;
    (if negb (bootLoader (sTpmState u))
     then select_firmware_image wszConfigFilePath
     else resume_firmware_image);;
    modifyU (set_unReturnCode RC_SUCCESS);;
    mret RC_SUCCESS
  end.

Definition CommandFlow_TpmUpdate_ProceedUpdateConfig (PpTpmUpdate : option IfxUpdate)
  : World -> Z * (option IfxUpdate * World) :=
  fun w =>
  match PpTpmUpdate with
  | None => (RC_E_BAD_PARAMETER, (None, w))
  | Some u =>
      let '(rc, (u', w')) :=
        run_block CommandFlow_TpmUpdate_ProceedUpdateConfig_block (u, w) in
      (rc, (Some u', w'))
  end.
End ProceedUpdateConfig.

Section PrepareTPM12PhysicalPresence.
Context `{Codes} (env : Env).

(** [(BYTE* )&unSubCapSwapped]: the sub-capability in network byte order. *)
Definition unSubCapSwapped : list Z := be_bytes 4 TPM_SD_DEFERREDPHYSICALPRESENCE.

Definition CommandFlow_TpmUpdate_PrepareTPM12PhysicalPresence : World -> Z * World :=
  run_block (
    (* First try to enable the Physical Presence command, it may already be enabled *)
    unReturnValue ← lift (call env (TSS_TSC_PhysicalPresence TPM_PHYSICAL_PRESENCE_CMD_ENABLE));
    break_if (negb (unReturnValue =? RC_SUCCESS) &&
              negb (TPM_BAD_PARAMETER =? Z.lxor unReturnValue RC_TPM_MASK))
             unReturnValue;;
    (* Try to set Physical Presence, may be locked *)
    unReturnValue ← lift (call env (TSS_TSC_PhysicalPresence TPM_PHYSICAL_PRESENCE_PRESENT));
    (if negb (unReturnValue =? RC_SUCCESS) then
       if TPM_BAD_PARAMETER =? Z.lxor unReturnValue RC_TPM_MASK
       then break RC_E_TPM12_DEFERREDPP_REQUIRED
       else break unReturnValue
     else ret tt);;
    (* Set Deferred Physical Presence bit *)
    let setValue := [0x00; 0x00; 0x00; 0x01] in
    unReturnValue ← lift (call env (TSS_TPM_SetCapability TPM_SET_STCLEAR_DATA
                                                         unSubCapSwapped setValue));
    check unReturnValue;;
    mret RC_SUCCESS).
End PrepareTPM12PhysicalPresence.

(** ** Reading a trace *)

(** The progress values shown to the user, in order. *)
Definition progress_of (t : list Event) : list Z :=
  omap (fun e => match e with Response_ProgressCallback p => Some p | _ => None end) t.

(** The calls that make the chip receive a command. *)
Definition sends_to_tpm (e : Event) : bool :=
  match e with
  | TIS_TransceiveLPC _ _ _ _ _ | DeviceAccessTpmDriver_Transmit _ _ _
  | DeviceManagement_Transmit _ _ _
  | TSS_TSC_PhysicalPresence _ | TSS_TPM_SetCapability _ _ _
  | TSS_TPM2_FlushContext _ | TSS_TPM_OIAP | TSS_TPM_OwnerClear _ _ _ _
  | FirmwareUpdate_CalculateState | FirmwareUpdate_CheckOwnerAuthorization _
  | FirmwareUpdate_CheckImage _ | FirmwareUpdate_UpdateImage _ _ _ => true
  | _ => false
  end.

(** No removal of the run data among the events. *)
Definition no_removal (t : list Event) : bool :=
  forallb (fun e => match e with
                    | FileIO_Remove _ => false
                    | _ => true
                    end) t.

(** ** Reading the config file flow *)

(** The structure as every flow that starts with it sets it up. *)
Definition started_update `{Codes} (u : IfxUpdate) : IfxUpdate :=
  set_unReturnCode RC_E_FAIL
    (set_unNewFirmwareValid GENERIC_TRISTATE_STATE_NA
       (set_unSubType STRUCT_SUBTYPE_IS_UPDATABLE u)).

(** [CommandFlow_TpmUpdate_ProceedUpdateConfig] got as far as its case
    distinction on the boot loader mode: the structure is accepted, the
    config file named by the property exists and has been parsed without
    error, which left the world [w2]. *)
Definition config_parsed `{Codes} `{Platform} (env : Env) (u : IfxUpdate) (w w2 : World)
  : Prop :=
  structure_ok u = true /\
  exists wszConfigFilePath,
    PropertyStorage_GetValueByKey PROPERTY_CONFIG_FILE_PATH MAX_STRING_1024 (props w)
      = Some wszConfigFilePath /\
    is_Some (files w !! wszConfigFilePath) /\
    Config_ParseCustom env wszConfigFilePath (log (FileIO_Exists wszConfigFilePath) w)
      = (RC_SUCCESS, w2).

(** The property that holds the target version for a chip of the given
    version: the SPI one for 6.x and 7.x, the LPC one for 4.x and 5.x. *)
Definition target_version_property `{Codes} (wszVersionName : string) : option string :=
  if version_prefix wszVersionName "6" "7"
  then Some PROPERTY_CONFIG_TARGET_FIRMWARE_VERSION_SPI
  else if version_prefix wszVersionName "4" "5"
  then Some PROPERTY_CONFIG_TARGET_FIRMWARE_VERSION_LPC
  else None.

(** ** An assignment of the abstract constants

    The theorems hold for every assignment; this one serves to run the
    model on concrete inputs.  The codes are pairwise distinct, the TPM 1.2
    result codes are the ones of the TPM main specification, and none of
    them uses a bit of the mask. *)

Definition example_codes : Codes := {|
  RC_TPM_MASK := 0xE0280000;
  RC_E_FAIL := 0xE0295001;
  RC_E_INTERNAL := 0xE0295002;
  RC_E_BAD_PARAMETER := 0xE0295003;
  RC_E_NOT_CONNECTED := 0xE0295004;
  RC_E_ALREADY_CONNECTED := 0xE0295005;
  RC_E_NOT_READY := 0xE0295006;
  RC_E_INSUFFICIENT_BUFFER := 0xE0295007;
  RC_E_END_OF_STRING := 0xE0295008;
  RC_E_INVALID_SETTING := 0xE0295009;
  RC_E_NOT_SUPPORTED_FEATURE := 0xE029500A;
  RC_E_TPM_NOT_SUPPORTED_FEATURE := 0xE029500B;
  RC_E_TPM12_NO_OWNER := 0xE029500C;
  RC_E_NO_IFX_TPM := 0xE029500D;
  RC_E_UNSUPPORTED_CHIP := 0xE029500E;
  RC_E_TPM12_INVALID_OWNERAUTH := 0xE029500F;
  RC_E_TPM12_DEFERREDPP_REQUIRED := 0xE0295010;
  RC_E_TPM12_DISABLED_DEACTIVATED := 0xE0295011;
  RC_E_TPM12_OWNED := 0xE0295012;
  RC_E_INVALID_UPDATE_OPTION := 0xE0295013;
  RC_E_RESTART_REQUIRED := 0xE0295014;
  RC_E_TPM20_FAILURE_MODE := 0xE0295015;
  RC_E_FW_UPDATE_BLOCKED := 0xE0295016;
  RC_E_INVALID_FW_OPTION := 0xE0295017;
  RC_E_INVALID_CONFIG_OPTION := 0xE0295018;
  RC_E_CORRUPT_FW_IMAGE := 0xE0295019;
  RC_E_WRONG_FW_IMAGE := 0xE029501A;
  RC_E_NEWER_TOOL_REQUIRED := 0xE029501B;
  RC_E_WRONG_DECRYPT_KEYS := 0xE029501C;
  RC_E_TPM_FIRMWARE_UPDATE := 0xE029501D;
  RC_E_ALREADY_UP_TO_DATE := 0xE029501E;
  RC_E_FIRMWARE_UPDATE_NOT_FOUND := 0xE029501F;
  RC_E_RESUME_RUNDATA_NOT_FOUND := 0xE0295020;
  TPM_AUTHFAIL := 1;
  TPM_BAD_PARAMETER := 3;
  TPM_DEACTIVATED := 6;
  TPM_DISABLED := 7;
  TPM_PHYSICAL_PRESENCE_CMD_ENABLE := 0x0020;
  TPM_PHYSICAL_PRESENCE_PRESENT := 0x0008;
  TPM_SET_STCLEAR_DATA := 4;
  TPM_SD_DEFERREDPHYSICALPRESENCE := 6;
  TPM_ST_NO_SESSIONS := 0x8001;
  TPM_ST_SESSIONS := 0x8002;
  TPM_CC_GetCapability := 0x17A;
  TPM_CC_GetTestResult := 0x17C;
  TPM_CC_StartAuthSession := 0x176;
  TPM_CC_HierarchyChangeAuth := 0x129;
  TPM_CC_Startup := 0x144;
  MAX_COMMAND_SIZE := 4096;
  MAX_RESPONSE_SIZE := 4096;
  TPM_DEVICE_ACCESS_MEMORY_BASED := 1;
  TPM_DEVICE_ACCESS_DRIVER := 3;
  UPDATE_TYPE_NONE := 0;
  UPDATE_TYPE_TPM12_DEFERREDPP := 1;
  UPDATE_TYPE_TPM12_TAKEOWNERSHIP := 2;
  UPDATE_TYPE_TPM20_EMPTYPLATFORMAUTH := 3;
  STRUCT_TYPE_TpmUpdate := 2;
  STRUCT_SUBTYPE_IS_UPDATABLE := 1;
  STRUCT_SUBTYPE_PREPARE := 2;
  STRUCT_SUBTYPE_UPDATE := 3;
  GENERIC_TRISTATE_STATE_NA := 0;
  GENERIC_TRISTATE_STATE_NO := 1;
  GENERIC_TRISTATE_STATE_YES := 2;
  sizeof_IfxUpdate := 4096;
  sizeof_rgbOwnerAuthHash := 20;
  RG_LEN_wszUsedFirmwareImage := 260;
  RG_LEN_wszNewFirmwareVersion := 256;
  MAX_PATH := 260;
  MAX_NAME := 256;
  MAX_STRING_1024 := 1024;
  PROPERTY_TPM_DEVICE_ACCESS_MODE := "TpmDeviceAccessMode";
  PROPERTY_UPDATE_TYPE := "UpdateType";
  PROPERTY_FIRMWARE_PATH := "FirmwarePath";
  PROPERTY_CONFIG_FILE_PATH := "ConfigFilePath";
  PROPERTY_DRY_RUN := "DryRun";
  PROPERTY_CONFIG_FILE_UPDATE_TYPE12 := "ConfigFileUpdateType12";
  PROPERTY_CONFIG_FILE_UPDATE_TYPE20 := "ConfigFileUpdateType20";
  PROPERTY_CONFIG_TARGET_FIRMWARE_VERSION_LPC := "ConfigTargetFirmwareVersionLPC";
  PROPERTY_CONFIG_TARGET_FIRMWARE_VERSION_SPI := "ConfigTargetFirmwareVersionSPI";
  PROPERTY_CONFIG_FIRMWARE_FOLDER_PATH := "ConfigFirmwareFolderPath";
|}.

(** An environment in which every call succeeds and returns nothing. *)
Definition quiet_env : Env := {|
  reply_rc := fun _ _ => 0;
  reply_flag := fun _ _ => true;
  reply_bytes := fun _ _ => [];
  reply_uint := fun _ _ => 0;
  reply_info := fun _ _ => 0;
  reply_state := fun _ _ => TPM_STATE_zero;
|}.

(** A freshly started tool: nothing configured, not connected. *)
Definition fresh_world : World := {|
  props := ∅; files := ∅; g_fConnected := false;
  s_fUpdateThroughConfigFile := false; trace := [];
|}.

(** A structured type with nothing on the wire. *)
Definition unit_wire : Wire unit := {|
  zeroed := tt;
  Marshal := fun _ c => (RC_SUCCESS, c);
  Unmarshal := fun c => ((RC_SUCCESS, tt), c);
|}.

(** The structured types emptied, the tag a plain [TPM_ST]. *)
Definition example_types : TPM2_Types := {|
  TPMI_YES_NO_wire := unit_wire;
  TPMS_CAPABILITY_DATA_wire := unit_wire;
  TPM2B_MAX_BUFFER_wire := unit_wire;
  TPMI_DH_OBJECT_wire := unit_wire;
  TPMI_DH_ENTITY_wire := unit_wire;
  TPM2B_NONCE_wire := unit_wire;
  TPM2B_ENCRYPTED_SECRET_wire := unit_wire;
  TPMT_SYM_DEF_wire := unit_wire;
  TPMI_ALG_HASH_wire := unit_wire;
  TPMI_SH_AUTH_SESSION_wire := unit_wire;
  TPMI_RH_HIERARCHY_AUTH_wire := unit_wire;
  AuthorizationCommandData_wire := unit_wire;
  TPM2B_AUTH_wire := unit_wire;
  AcknowledgmentResponseData_wire := unit_wire;
  TSS_TPMI_ST_COMMAND_TAG_Marshal := @marshal_uint example_codes 2;
  TSS_TPMI_ST_COMMAND_TAG_Unmarshal := @unmarshal_uint example_codes 2;
|}.

(** A chip that answers every command with the ten byte header
    [TPM_ST_NO_SESSIONS], size 10, response code [r]. *)
Definition answering_chip (r : Z) : Env := {|
  reply_rc := fun _ _ => 0;
  reply_flag := fun _ _ => true;
  reply_bytes := fun _ _ => [0x80; 0x01] ++ be_bytes 4 10 ++ be_bytes 4 r;
  reply_uint := fun _ _ => 10;
  reply_info := fun _ _ => 0;
  reply_state := fun _ _ => TPM_STATE_zero;
|}.

(** A TPM 1.2 whose physical presence is locked: [TSC_PhysicalPresence]
    fails with the chip error [TPM_BAD_PARAMETER]. *)
Definition pp_locked_chip : Env := {|
  reply_rc := fun _ e =>
    match e with
    | TSS_TSC_PhysicalPresence _ => @ChipError example_codes (@TPM_BAD_PARAMETER example_codes)
    | _ => 0
    end;
  reply_flag := fun _ _ => true;
  reply_bytes := fun _ _ => [];
  reply_uint := fun _ _ => 0;
  reply_info := fun _ _ => 0;
  reply_state := fun _ _ => TPM_STATE_zero;
|}.

(** An owned TPM 1.2 of the vendor. *)
Definition owned_tpm12 : TPM_STATE := {|
  tpm12 := true; tpm12owner := true; tpm12DeferredPhysicalPresence := false;
  tpm20 := false; tpm20InFailureMode := false; tpm20restartRequired := false;
  bootLoader := false; infineon := true; unsupportedChip := false;
  tpm20emptyPlatformAuth := false; tpm20phDisabled := false;
|}.

(** An owned TPM 1.2 whose owner authorization is not the default one. *)
Definition foreign_owner_chip : Env := {|
  reply_rc := fun _ e =>
    match e with
    | FirmwareUpdate_CheckOwnerAuthorization _ =>
        @ChipError example_codes (@TPM_AUTHFAIL example_codes)
    | _ => 0
    end;
  reply_flag := fun _ _ => true;
  reply_bytes := fun _ _ => [];
  reply_uint := fun _ _ => 0;
  reply_info := fun _ _ => 0;
  reply_state := fun _ _ => owned_tpm12;
|}.

(** Helpers that behave like their C library namesakes. *)
Definition lower_ascii (c : ascii) : ascii :=
  let n := nat_of_ascii c in
  if ((65 <=? n) && (n <=? 90))%nat then ascii_of_nat (n + 32) else c.

Fixpoint string_map (f : ascii -> ascii) (s : string) : string :=
  match s with
  | EmptyString => EmptyString
  | String c s' => String (f c) (string_map f s')
  end.

Fixpoint first_line (s : string) : string :=
  match s with
  | EmptyString => EmptyString
  | String c s' =>
      if (Ascii.eqb c "010" || Ascii.eqb c "013")%char then EmptyString
      else String c (first_line s')
  end.

Definition example_copy (cap : Z) (src : string) : Z * (string * Z) :=
  if strlen src <? cap then (0, (src, strlen src))
  else (@RC_E_INSUFFICIENT_BUFFER example_codes, (EmptyString, 0)).

Definition example_platform : Platform := {|
  Platform_StringCompare := fun a b n ci =>
    let f := if ci then string_map lower_ascii else fun s => s in
    if String.eqb (string_take (Z.to_nat n) (f a)) (string_take (Z.to_nat n) (f b))
    then 0 else 1;
  Platform_StringCopy := example_copy;
  Platform_StringFormat := fun cap a b c d =>
    example_copy cap (a ++ "_" ++ b ++ "_to_" ++ c ++ "_" ++ d ++ ".BIN")%string;
  Platform_StringConcatenatePaths := fun dst cap src =>
    example_copy cap (dst ++ "/" ++ src)%string;
  Platform_MemoryCopy := fun cap src =>
    if Z.of_nat (length src) <=? cap then (0, src)
    else (@RC_E_INSUFFICIENT_BUFFER example_codes, []);
  Utility_StringGetLine := fun buf size index =>
    if strlen buf <=? index then (@RC_E_END_OF_STRING example_codes, EmptyString)
    else (0, first_line buf);
  FirmwareImage_Unmarshal := fun _ _ => (0, ("7.85.4555.0", 2));
  Config_triples := fun _ =>
    [ ("UpdateType", "tpm12", "tpm12-PP");
      ("UpdateType", "tpm20", "tpm20-emptyplatformauth");
      ("TargetFirmware", "version_SLB966x", "5.63.3144.0");
      ("TargetFirmware", "version_SLB9670", "7.85.4555.0");
      ("FirmwareFolder", "path", "Firmware") ];
|}.

(** An operational TPM 2.0 of the vendor. *)
Definition operational_tpm20 : TPM_STATE := {|
  tpm12 := false; tpm12owner := false; tpm12DeferredPhysicalPresence := false;
  tpm20 := true; tpm20InFailureMode := false; tpm20restartRequired := false;
  bootLoader := false; infineon := true; unsupportedChip := false;
  tpm20emptyPlatformAuth := true; tpm20phDisabled := false;
|}.

(** The structure as [CommandFlow_TpmUpdate_PrepareFirmwareUpdate] leaves it
    for a TPM 2.0: a policy session is open. *)
Definition prepared_tpm20 : IfxUpdate := {|
  unType := @STRUCT_TYPE_TpmUpdate example_codes;
  unSize := @sizeof_IfxUpdate example_codes;
  unSubType := @STRUCT_SUBTYPE_PREPARE example_codes;
  unReturnCode := 0;
  sTpmState := operational_tpm20;
  wszVersionName := "7.62.3126.0";
  unRemainingUpdates := 64;
  hPolicySession := 0x03000000;
  rgbFirmwareImage := [];
  unFirmwareImageSize := 0;
  fValid := true;
  bfNewTpmFirmwareInfo := 0;
  unErrorDetails := 0;
  unNewFirmwareValid := @GENERIC_TRISTATE_STATE_YES example_codes;
  wszNewFirmwareVersion := "7.85.4555.0";
  bTargetFamily := 2;
  wszUsedFirmwareImage := EmptyString;
|}.

(** [-update tpm20-emptyplatformauth -firmware image.bin]. *)
Definition direct_update_world : World :=
  set_props
    (<[ @PROPERTY_UPDATE_TYPE example_codes :=
          PUInt (@UPDATE_TYPE_TPM20_EMPTYPLATFORMAUTH example_codes) ]>
     (<[ @PROPERTY_FIRMWARE_PATH example_codes := PString "image.bin" ]> ∅))
    fresh_world.

(** The same with [-dry-run]. *)
Definition dry_run_world : World :=
  set_props (<[ @PROPERTY_DRY_RUN example_codes := PBool true ]> (props direct_update_world))
            direct_update_world.

(** An update through the config file that chose [image.bin]. *)
Definition config_update_world : World :=
  set_s_fUpdateThroughConfigFile true direct_update_world.

(** An owned TPM 1.2 that has used up its updates, before the check. *)
Definition exhausted_owned_tpm12 : IfxUpdate := {|
  unType := @STRUCT_TYPE_TpmUpdate example_codes;
  unSize := @sizeof_IfxUpdate example_codes;
  unSubType := 0;
  unReturnCode := 0;
  sTpmState := owned_tpm12;
  wszVersionName := "4.40.119.0";
  unRemainingUpdates := 0;
  hPolicySession := 0;
  rgbFirmwareImage := [];
  unFirmwareImageSize := 0;
  fValid := false;
  bfNewTpmFirmwareInfo := 0;
  unErrorDetails := 0;
  unNewFirmwareValid := 0;
  wszNewFirmwareVersion := EmptyString;
  bTargetFamily := 0;
  wszUsedFirmwareImage := EmptyString;
|}.

(** A TPM 2.0 that has used up its updates, before the check. *)
Definition exhausted_tpm20 : IfxUpdate := {|
  unType := @STRUCT_TYPE_TpmUpdate example_codes;
  unSize := @sizeof_IfxUpdate example_codes;
  unSubType := 0;
  unReturnCode := 0;
  sTpmState := operational_tpm20;
  wszVersionName := "7.62.3126.0";
  unRemainingUpdates := 0;
  hPolicySession := 0;
  rgbFirmwareImage := [];
  unFirmwareImageSize := 0;
  fValid := false;
  bfNewTpmFirmwareInfo := 0;
  unErrorDetails := 0;
  unNewFirmwareValid := 0;
  wszNewFirmwareVersion := EmptyString;
  bTargetFamily := 0;
  wszUsedFirmwareImage := EmptyString;
|}.

(** [-update tpm12-PP -firmware image.bin]. *)
Definition tpm12_update_world : World :=
  set_props
    (<[ @PROPERTY_UPDATE_TYPE example_codes :=
          PUInt (@UPDATE_TYPE_TPM12_DEFERREDPP example_codes) ]>
     (<[ @PROPERTY_FIRMWARE_PATH example_codes := PString "image.bin" ]> ∅))
    fresh_world.

(** A chip that acknowledges the first block, reports 10 and 20 percent and
    then fails the update. *)
Definition interrupted_update_chip : Env := {|
  reply_rc := fun _ e =>
    match e with
    | FirmwareUpdate_UpdateImage _ _ _ => @RC_E_TPM_FIRMWARE_UPDATE example_codes
    | _ => 0
    end;
  reply_flag := fun _ _ => true;
  reply_bytes := fun _ e =>
    match e with
    | FirmwareUpdate_UpdateImage _ _ _ => [10; 20]
    | _ => []
    end;
  reply_uint := fun _ _ => 0;
  reply_info := fun _ _ => 0;
  reply_state := fun _ _ => operational_tpm20;
|}.

(** The driver access mode configured, and nothing else. *)
Definition driver_world : World :=
  set_props {[ @PROPERTY_TPM_DEVICE_ACCESS_MODE example_codes :=
                 PUInt (@TPM_DEVICE_ACCESS_DRIVER example_codes) ]} fresh_world.

(** A TPM 2.0 that already runs the version the config file asks for. *)
Definition up_to_date_tpm20 : IfxUpdate := {|
  unType := @STRUCT_TYPE_TpmUpdate example_codes;
  unSize := @sizeof_IfxUpdate example_codes;
  unSubType := 0;
  unReturnCode := 0;
  sTpmState := operational_tpm20;
  wszVersionName := "7.85.4555.0";
  unRemainingUpdates := 64;
  hPolicySession := 0;
  rgbFirmwareImage := [];
  unFirmwareImageSize := 0;
  fValid := false;
  bfNewTpmFirmwareInfo := 0;
  unErrorDetails := 0;
  unNewFirmwareValid := 0;
  wszNewFirmwareVersion := EmptyString;
  bTargetFamily := 0;
  wszUsedFirmwareImage := EmptyString;
|}.

(** A chip whose update was interrupted: it is in boot loader mode. *)
Definition boot_loader_state : TPM_STATE := {|
  tpm12 := false; tpm12owner := false; tpm12DeferredPhysicalPresence := false;
  tpm20 := false; tpm20InFailureMode := false; tpm20restartRequired := false;
  bootLoader := true; infineon := true; unsupportedChip := false;
  tpm20emptyPlatformAuth := false; tpm20phDisabled := false;
|}.

Definition interrupted_tpm : IfxUpdate := {|
  unType := @STRUCT_TYPE_TpmUpdate example_codes;
  unSize := @sizeof_IfxUpdate example_codes;
  unSubType := 0;
  unReturnCode := 0;
  sTpmState := boot_loader_state;
  wszVersionName := EmptyString;
  unRemainingUpdates := 0;
  hPolicySession := 0;
  rgbFirmwareImage := [];
  unFirmwareImageSize := 0;
  fValid := false;
  bfNewTpmFirmwareInfo := 0;
  unErrorDetails := 0;
  unNewFirmwareValid := 0;
  wszNewFirmwareVersion := EmptyString;
  bTargetFamily := 0;
  wszUsedFirmwareImage := EmptyString;
|}.

(** [-update config-file -config TPMFactoryUpd.cfg], the config file in the
    working directory. *)
Definition config_option_world : World :=
  set_files {[ "TPMFactoryUpd.cfg" := "[UpdateType]" ]}
    (set_props
       (<[ @PROPERTY_UPDATE_TYPE example_codes := PUInt 4 ]>
        (<[ @PROPERTY_CONFIG_FILE_PATH example_codes := PString "TPMFactoryUpd.cfg" ]> ∅))
       fresh_world).

(** The same after an interrupted update: the run data names the image. *)
Definition resume_world : World :=
  set_files (<[ TPM_FACTORY_UPD_RUNDATA_FILE :=
                  "Firmware/TPM20_7.62.3126.0_to_TPM20_7.85.4555.0.BIN" ]>
             (files config_option_world)) config_option_world.

(** The run data file is there, and empty. *)
Definition empty_rundata_world : World :=
  set_files (<[ TPM_FACTORY_UPD_RUNDATA_FILE := EmptyString ]> (files config_option_world))
            config_option_world.

(** The run data file cannot be read; every other call succeeds. *)
Definition unreadable_rundata_env : Env := {|
  reply_rc := fun _ e =>
    match e with
    | FileIO_ReadFileToStringBuffer path =>
        if String.eqb path TPM_FACTORY_UPD_RUNDATA_FILE
        then @RC_E_FAIL example_codes else 0
    | _ => 0
    end;
  reply_flag := fun _ _ => true;
  reply_bytes := fun _ _ => [];
  reply_uint := fun _ _ => 0;
  reply_info := fun _ _ => 0;
  reply_state := fun _ _ => TPM_STATE_zero;
|}.

(** The properties the parser of the config file stores. *)
Definition config_file_properties `{Codes} : list string :=
  [ PROPERTY_CONFIG_FILE_UPDATE_TYPE12;
    PROPERTY_CONFIG_FILE_UPDATE_TYPE20;
    PROPERTY_CONFIG_TARGET_FIRMWARE_VERSION_LPC;
    PROPERTY_CONFIG_TARGET_FIRMWARE_VERSION_SPI;
    PROPERTY_CONFIG_FIRMWARE_FOLDER_PATH ].

(** [w'] is [w] with some of the given properties added: no property is
    removed or changed, and nothing but the property storage differs. *)
Definition adds_properties (keys : list string) (w w' : World) : Prop :=
  (forall key, props w' !! key = props w !! key \/
               (props w !! key = None /\ key ∈ keys)) /\
  files w' = files w /\ g_fConnected w' = g_fConnected w /\
  s_fUpdateThroughConfigFile w' = s_fUpdateThroughConfigFile w /\ trace w' = trace w.

Definition block_adds_properties {A} (keys : list string) (b : Block World A) : Prop :=
  forall w, match b w with Next _ w' | Break _ w' => adds_properties keys w w' end.
(** [!(PLATFORM_STRING_IS_NULL_OR_EMPTY(PwszSection) || 0 == PunSectionSize ||
    ...)]: the parameter check of [CommandFlow_TpmUpdate_Parse] passes. *)
Definition arguments_given (PwszSection : string) (PunSectionSize : Z) (PwszKey : string)
    (PunKeySize : Z) (PwszValue : string) (PunValueSize : Z) : bool :=
  negb (String.eqb PwszSection EmptyString || (0 =? PunSectionSize) ||
        String.eqb PwszKey EmptyString || (0 =? PunKeySize) ||
        String.eqb PwszValue EmptyString || (0 =? PunValueSize)).

(** The property that holds the update type the config file gives for the
    chip's family. *)
Definition config_file_update_type `{Codes} (u : IfxUpdate) : string :=
  if tpm12 (sTpmState u) then PROPERTY_CONFIG_FILE_UPDATE_TYPE12
  else PROPERTY_CONFIG_FILE_UPDATE_TYPE20.

(** A TPM 2.0 with an older firmware, before the check. *)
Definition outdated_tpm20 : IfxUpdate := {|
  unType := @STRUCT_TYPE_TpmUpdate example_codes;
  unSize := @sizeof_IfxUpdate example_codes;
  unSubType := 0;
  unReturnCode := 0;
  sTpmState := operational_tpm20;
  wszVersionName := "7.62.3126.0";
  unRemainingUpdates := 64;
  hPolicySession := 0;
  rgbFirmwareImage := [];
  unFirmwareImageSize := 0;
  fValid := false;
  bfNewTpmFirmwareInfo := 0;
  unErrorDetails := 0;
  unNewFirmwareValid := 0;
  wszNewFirmwareVersion := EmptyString;
  bTargetFamily := 0;
  wszUsedFirmwareImage := EmptyString;
|}.

(** A chip of a family the tool does not know. *)
Definition unknown_tpm : IfxUpdate := {|
  unType := @STRUCT_TYPE_TpmUpdate example_codes;
  unSize := @sizeof_IfxUpdate example_codes;
  unSubType := 0;
  unReturnCode := 0;
  sTpmState := owned_tpm12;
  wszVersionName := "3.19.0.0";
  unRemainingUpdates := 64;
  hPolicySession := 0;
  rgbFirmwareImage := [];
  unFirmwareImageSize := 0;
  fValid := false;
  bfNewTpmFirmwareInfo := 0;
  unErrorDetails := 0;
  unNewFirmwareValid := 0;
  wszNewFirmwareVersion := EmptyString;
  bTargetFamily := 0;
  wszUsedFirmwareImage := EmptyString;
|}.

(** The config file in the working directory and the image it leads to in
    the folder [Firmware] beside it. *)
Definition config_with_image_world : World :=
  set_files (<[ "./Firmware/TPM20_7.62.3126.0_to_TPM20_7.85.4555.0.BIN" := "image" ]>
             (files config_option_world)) config_option_world.

(** [c == L'\\' || c == L'/'] *)
Definition is_separator (c : ascii) : bool :=
  Ascii.eqb c "\"%char || Ascii.eqb c "/"%char.

Fixpoint has_separator (s : string) : bool :=
  match s with
  | EmptyString => false
  | String c s' => is_separator c || has_separator s'
  end.

(** The codes [CommandFlow_TpmUpdate_IsTpmUpdatableWithFirmware] gives an
    image that is not valid. *)
Definition image_error_codes `{Codes} : list Z :=
  [ RC_E_CORRUPT_FW_IMAGE; RC_E_WRONG_FW_IMAGE; RC_E_NEWER_TOOL_REQUIRED;
    RC_E_WRONG_DECRYPT_KEYS; RC_E_TPM_FIRMWARE_UPDATE ].

(** The codes with which [CommandFlow_TpmUpdate_IsFirmwareUpdatable]
    answers no. *)
Definition refusal_codes `{Codes} : list Z :=
  [ RC_E_FAIL; RC_E_INVALID_UPDATE_OPTION; RC_E_TPM12_OWNED; RC_E_RESTART_REQUIRED;
    RC_E_TPM20_FAILURE_MODE; RC_E_FW_UPDATE_BLOCKED ] ++ image_error_codes.

(** [-update tpm20-emptyplatformauth -firmware image.bin], the image file
    in the working directory. *)
Definition image_world : World :=
  set_files {[ "image.bin" := "image" ]} direct_update_world.

(** The image check finds the image corrupt. *)
Definition corrupt_image_env : Env := {|
  reply_rc := fun _ _ => 0;
  reply_flag := fun _ e =>
    match e with FirmwareUpdate_CheckImage _ => false | _ => true end;
  reply_bytes := fun _ _ => [];
  reply_uint := fun _ e =>
    match e with
    | FirmwareUpdate_CheckImage _ => @RC_E_CORRUPT_FW_IMAGE example_codes
    | _ => 0
    end;
  reply_info := fun _ _ => 0;
  reply_state := fun _ _ => operational_tpm20;
|}.

(** ** Preparing the update (CommandFlow_TpmUpdate.c) *)

(** Constants of the TPM 1.2 and crypto headers, which are not part of the
    sources. *)
Class Tpm12Codes : Type := {
  CRYPT_ES_RSAESOAEP_SHA1_MGF1 : Z;
  SHA1_DIGEST_SIZE : Z;
  MAX_RSA_KEY_BYTES : Z;
  TPM_KEY_STORAGE : Z;
  TPM_AUTH_ALWAYS : Z;
  TPM_SS_NONE : Z;
  sizeof_TPM_RSA_KEY_PARMS : Z;
}.

(** [sTpmPubKey.pubKey] *)
Record TPM_STORE_PUBKEY : Type := {
  keyLength : Z;
  key : list Z;
}.

(** The fields of a [TPM_KEY] that the function sets or reads. *)
Record TPM_KEY : Type := {
  ver : Z * Z * Z * Z;
  keyUsage : Z;
  keyFlags : Z;
  authDataUsage : Z;
  algorithmID : Z;
  encScheme : Z;
  sigScheme : Z;
  parmSize : Z;
  parms_keyLength : Z;
  numPrimes : Z;
  exponentSize : Z;
  PCRInfoSize : Z;
  pubKey_keyLength : Z;
  encSize : Z;
}.

(** The functions of TPM_ReadPubEK.c, Crypt.c, TPM_TakeOwnership.c and
    FirmwareUpdate.c that the preparation calls; they are not part of the
    sources.  Each one acts on the world and gives its return value with its
    out-parameters: the public endorsement key; the size and the bytes of
    the cipher text; the storage root key; the policy session handle (given
    the one the variable held). *)
Class PrepareLibrary : Type := {
  TSS_TPM_ReadPubEK : World -> (Z * TPM_STORE_PUBKEY) * World;
  Crypt_EncryptRSA :
    Z -> Z -> list Z -> Z -> list Z -> Z -> list Z -> Z ->
    World -> (Z * (Z * list Z)) * World;
  TSS_TPM_TakeOwnership :
    list Z -> Z -> list Z -> Z -> TPM_KEY -> Z -> list Z -> list Z ->
    World -> (Z * TPM_KEY) * World;
  FirmwareUpdate_PrepareTPM20Policy : Z -> World -> (Z * Z) * World;
}.

Section PrepareFirmwareUpdate.
Context `{Codes} `{Tpm12Codes} `{PrepareLibrary} (env : Env).

Definition rgbPublicExponent : list Z := [0x01; 0x00; 0x01].

(** [// Initialize SRK parameters] *)
Definition sSrkParams : TPM_KEY := {|
  ver := (1, 1, 0, 0);
  keyUsage := TPM_KEY_STORAGE;
  keyFlags := 0;
  authDataUsage := TPM_AUTH_ALWAYS;
  algorithmID := 0x00000001;
  encScheme := CRYPT_ES_RSAESOAEP_SHA1_MGF1;
  sigScheme := TPM_SS_NONE;
  parmSize := sizeof_TPM_RSA_KEY_PARMS;
  parms_keyLength := 0x800;
  numPrimes := 2;
  exponentSize := 0;
  PCRInfoSize := 0;
  pubKey_keyLength := 0;
  encSize := 0;
|}.

Definition CommandFlow_TpmUpdate_PrepareTPM12Ownership_block : Block World Z :=
  (* Get Public Endorsement Key *)
  '(unReturnValue, sTpmPubKey) ← lift TSS_TPM_ReadPubEK;
  check unReturnValue;;
  (* Encrypt TPM Owner authentication hash *)
  '(unReturnValue, (unEncryptedOwnerHashSize, rgbEncryptedOwnerAuthHash)) ←
    lift (Crypt_EncryptRSA CRYPT_ES_RSAESOAEP_SHA1_MGF1
            SHA1_DIGEST_SIZE s_ownerAuthData
            (keyLength sTpmPubKey) (key sTpmPubKey)
            3 rgbPublicExponent MAX_RSA_KEY_BYTES);
  check unReturnValue;;
  (* Encrypt TPM SRK authentication hash (well-known authentication) *)
  '(unReturnValue, (unEncryptedSrkHashSize, rgbEncryptedSrkHash)) ←
    lift (Crypt_EncryptRSA CRYPT_ES_RSAESOAEP_SHA1_MGF1
            SHA1_DIGEST_SIZE SRK_WELL_KNOWN_AUTH
            (keyLength sTpmPubKey) (key sTpmPubKey)
            3 rgbPublicExponent MAX_RSA_KEY_BYTES);
  check unReturnValue;;
  (* Get Authorization Session handle and even nonce *)
  w ← get;
  let unAuthHandle := reply_uint env (trace w) TSS_TPM_OIAP in
  let sAuthLastNonceEven := reply_bytes env (trace w) TSS_TPM_OIAP in
  unReturnValue ← lift (call env TSS_TPM_OIAP);
  check unReturnValue;;
  '(unReturnValue, sSrkKey) ←
    lift (TSS_TPM_TakeOwnership
            rgbEncryptedOwnerAuthHash unEncryptedSrkHashSize
            rgbEncryptedSrkHash unEncryptedSrkHashSize
            sSrkParams unAuthHandle s_ownerAuthData sAuthLastNonceEven);
  break_if (negb (unReturnValue =? RC_SUCCESS) || (0 =? pubKey_keyLength sSrkKey))
           unReturnValue;;
  mret unReturnValue.

(** [// Map return value in case TPM is disabled or deactivated to
    corresponding tool exit code] *)
Definition map_disabled_deactivated (unReturnValue : Z) : Z :=
  if (TPM_DEACTIVATED =? Z.lxor unReturnValue RC_TPM_MASK) ||
     (TPM_DISABLED =? Z.lxor unReturnValue RC_TPM_MASK)
  then RC_E_TPM12_DISABLED_DEACTIVATED
  else unReturnValue.

Definition CommandFlow_TpmUpdate_PrepareTPM12Ownership : World -> Z * World :=
  fun w =>
  let '(unReturnValue, w') :=
    run_block CommandFlow_TpmUpdate_PrepareTPM12Ownership_block w in
  (map_disabled_deactivated unReturnValue, w').

(** [// Check parameters] *)
Definition PrepareFirmwareUpdate_parameters_ok (u : IfxUpdate) : bool :=
  (unType u =? STRUCT_TYPE_TpmUpdate) && (unSize u =? sizeof_IfxUpdate) &&
  (unSubType u =? STRUCT_SUBTYPE_IS_UPDATABLE).

(** [PpTpmUpdate->unReturnCode = code; unReturnValue = RC_SUCCESS;] *)
Definition prepared (code : Z) : Block Flow Z :=
  modifyU (set_unReturnCode code);; mret RC_SUCCESS.

Definition CommandFlow_TpmUpdate_PrepareFirmwareUpdate_block : Block Flow Z :=
  u ← getsU (fun u => u);
  break_if (negb (PrepareFirmwareUpdate_parameters_ok u)) RC_E_BAD_PARAMETER;;
  (* Set TpmUpdate structure sub type and return value *)
  modifyU (set_unSubType STRUCT_SUBTYPE_PREPARE);;
  modifyU (set_unReturnCode RC_E_FAIL);;
  (* Check which type of TPM is present or in which state *)
  let attribs := sTpmState u in
  if bootLoader attribs then
    (* No preparation needed *)
    prepared RC_SUCCESS
  else if tpm20 attribs then
    (* Prepare TPM2.0 update *)
    '(rc, hPolicySession) ← liftW (FirmwareUpdate_PrepareTPM20Policy (hPolicySession u));
    modifyU (set_hPolicySession hPolicySession);;
    prepared rc
  else if tpm12 attribs then
    (* Check which type is given *)
    o ← getsW (fun w => PropertyStorage_GetUIntegerValueByKey PROPERTY_UPDATE_TYPE (props w));
    match o with
    | Some unUpdateType =>
        if UPDATE_TYPE_TPM12_DEFERREDPP =? unUpdateType then
          (* Check if Deferred Physical Presence is set *)
          if tpm12DeferredPhysicalPresence attribs then prepared RC_SUCCESS
          else
            rc ← liftW (CommandFlow_TpmUpdate_PrepareTPM12PhysicalPresence env);
            prepared rc
        else if UPDATE_TYPE_TPM12_TAKEOWNERSHIP =? unUpdateType then
          (* Prepare owner based TPM1.2 update *)
          rc ← liftW CommandFlow_TpmUpdate_PrepareTPM12Ownership;
          prepared rc
        else mret RC_E_FAIL
    | None => mret RC_E_FAIL
    end
  else mret RC_E_FAIL.

Definition CommandFlow_TpmUpdate_PrepareFirmwareUpdate (PpTpmUpdate : option IfxUpdate)
  : World -> Z * (option IfxUpdate * World) :=
  fun w =>
  match PpTpmUpdate with
  | None => (RC_E_BAD_PARAMETER, (None, w))
  | Some u =>
      let '(rc, (u', w')) :=
        run_block CommandFlow_TpmUpdate_PrepareFirmwareUpdate_block (u, w) in
      (rc, (Some u', w'))
  end.
End PrepareFirmwareUpdate.

(** Values for the constants of the TPM 1.2 headers. *)
Definition example_tpm12_codes : Tpm12Codes := {|
  CRYPT_ES_RSAESOAEP_SHA1_MGF1 := 0x0003;
  SHA1_DIGEST_SIZE := 20;
  MAX_RSA_KEY_BYTES := 256;
  TPM_KEY_STORAGE := 0x0011;
  TPM_AUTH_ALWAYS := 0x01;
  TPM_SS_NONE := 0x0001;
  sizeof_TPM_RSA_KEY_PARMS := 12;
|}.

(** A library in front of a chip that is disabled: the endorsement key can
    be read and the hashes are encrypted, [TPM_TakeOwnership] is refused
    with [TPM_DISABLED]; a policy session gets the first session handle. *)
Definition disabled_chip_library : PrepareLibrary := {|
  TSS_TPM_ReadPubEK := fun w => ((0, {| keyLength := 256; key := repeat 0xAB 256 |}), w);
  Crypt_EncryptRSA := fun _ _ input _ _ _ _ cap w => ((0, (cap, input ++ repeat 0 236)), w);
  TSS_TPM_TakeOwnership := fun _ _ _ _ sSrkParams _ _ _ w =>
    ((@ChipError example_codes (@TPM_DISABLED example_codes), sSrkParams), w);
  FirmwareUpdate_PrepareTPM20Policy := fun _ w => ((0, 0x03000000), w);
|}.

(** An unowned TPM 1.2 of the vendor, as [CommandFlow_TpmUpdate_IsFirmwareUpdatable]
    leaves the structure. *)
Definition unowned_tpm12 : TPM_STATE := {|
  tpm12 := true; tpm12owner := false; tpm12DeferredPhysicalPresence := true;
  tpm20 := false; tpm20InFailureMode := false; tpm20restartRequired := false;
  bootLoader := false; infineon := true; unsupportedChip := false;
  tpm20emptyPlatformAuth := false; tpm20phDisabled := false;
|}.

Definition checked_tpm12 : IfxUpdate := {|
  unType := @STRUCT_TYPE_TpmUpdate example_codes;
  unSize := @sizeof_IfxUpdate example_codes;
  unSubType := @STRUCT_SUBTYPE_IS_UPDATABLE example_codes;
  unReturnCode := 0;
  sTpmState := unowned_tpm12;
  wszVersionName := "4.40.119.0";
  unRemainingUpdates := 64;
  hPolicySession := 0;
  rgbFirmwareImage := bytes_of_string "image";
  unFirmwareImageSize := 5;
  fValid := true;
  bfNewTpmFirmwareInfo := 0;
  unErrorDetails := 0;
  unNewFirmwareValid := @GENERIC_TRISTATE_STATE_YES example_codes;
  wszNewFirmwareVersion := "4.43.257.0";
  bTargetFamily := 1;
  wszUsedFirmwareImage := EmptyString;
|}.

(** An operational TPM 2.0, as [CommandFlow_TpmUpdate_IsFirmwareUpdatable]
    leaves the structure. *)
Definition checked_tpm20 : IfxUpdate := {|
  unType := @STRUCT_TYPE_TpmUpdate example_codes;
  unSize := @sizeof_IfxUpdate example_codes;
  unSubType := @STRUCT_SUBTYPE_IS_UPDATABLE example_codes;
  unReturnCode := 0;
  sTpmState := operational_tpm20;
  wszVersionName := "7.62.3126.0";
  unRemainingUpdates := 64;
  hPolicySession := 0;
  rgbFirmwareImage := bytes_of_string "image";
  unFirmwareImageSize := 5;
  fValid := true;
  bfNewTpmFirmwareInfo := 0;
  unErrorDetails := 0;
  unNewFirmwareValid := @GENERIC_TRISTATE_STATE_YES example_codes;
  wszNewFirmwareVersion := "7.85.4555.0";
  bTargetFamily := 2;
  wszUsedFirmwareImage := EmptyString;
|}.

(** ** Register access (Linux/TpmIO.c) *)

(** DeviceAccess.c is not part of the sources: [DeviceAccess_ReadByte] and
    [DeviceAccess_WriteByte] act on the device behind the mapped memory,
    whatever it is. *)
Class DeviceAccess (Device : Type) : Type := {
  DeviceAccess_ReadByte : Z -> Device -> Z * Device;
  DeviceAccess_WriteByte : Z -> Z -> Device -> Device;
}.

Section TpmIO_registers.
Context `{Codes} `{DeviceAccess Device}.

(** The result carries the return value and the caller's byte as the call
    leaves it; [None] is a [NULL] pointer. *)
Definition TPMIO_ReadRegister (PunRegisterAddress : Z) (PpbRegisterValue : option Z)
    (w : World) (d : Device) : (Z * option Z) * Device :=
  match PpbRegisterValue with
  | None => ((RC_E_BAD_PARAMETER, None), d)
  | Some bRegisterValue =>
      match access_mode w with
      | None => ((RC_E_INTERNAL, Some bRegisterValue), d)
      | Some unTpmDeviceAccessModeCfg =>
          if unTpmDeviceAccessModeCfg =? TPM_DEVICE_ACCESS_MEMORY_BASED then
            (* Read byte from register address *)
            let '(b, d') := DeviceAccess_ReadByte PunRegisterAddress d in
            ((RC_SUCCESS, Some (u8 b)), d')
          else if unTpmDeviceAccessModeCfg =? TPM_DEVICE_ACCESS_DRIVER then
            ((RC_E_NOT_SUPPORTED_FEATURE, Some 0), d)
          else ((RC_E_INTERNAL, Some bRegisterValue), d)
      end
  end.

Definition TPMIO_WriteRegister (PunRegisterAddress : Z) (PbRegisterValue : Z)
    (w : World) (d : Device) : Z * Device :=
  match access_mode w with
  | None => (RC_E_INTERNAL, d)
  | Some unTpmDeviceAccessModeCfg =>
      if unTpmDeviceAccessModeCfg =? TPM_DEVICE_ACCESS_MEMORY_BASED then
        (* Write byte to register address *)
        (RC_SUCCESS, DeviceAccess_WriteByte PunRegisterAddress (u8 PbRegisterValue) d)
      else if unTpmDeviceAccessModeCfg =? TPM_DEVICE_ACCESS_DRIVER then
        (RC_E_NOT_SUPPORTED_FEATURE, d)
      else (RC_E_INTERNAL, d)
  end.
End TpmIO_registers.

(** The registers of a device as plain memory. *)
Definition memory_device : DeviceAccess (gmap Z Z) := {|
  DeviceAccess_ReadByte := fun address d => (default 0xFF (d !! address), d);
  DeviceAccess_WriteByte := fun address value d => <[address := value]> d;
|}.

(** The memory based access configured with locality 0, and nothing else. *)
Definition memory_world : World :=
  set_props (<[ PROPERTY_LOCALITY := PUInt 0 ]>
             {[ @PROPERTY_TPM_DEVICE_ACCESS_MODE example_codes :=
                  PUInt (@TPM_DEVICE_ACCESS_MEMORY_BASED example_codes) ]}) fresh_world.

(** The mapped memory has no valid TPM behind it: [TIS_IsAccessValid]
    reports the access register as not valid. *)
Definition absent_chip : Env := {|
  reply_rc := fun _ _ => 0;
  reply_flag := fun _ e => match e with TIS_IsAccessValid _ => false | _ => true end;
  reply_bytes := fun _ _ => [];
  reply_uint := fun _ _ => 0;
  reply_info := fun _ _ => 0;
  reply_state := fun _ _ => TPM_STATE_zero;
|}.

(** The device calls of TpmIO.c that take and give back the device. *)
Definition initializes (e : Event) : bool :=
  match e with
  | DeviceAccessTpmDriver_Initialize | DeviceAccess_Initialize _ => true
  | _ => false
  end.

Definition uninitializes (e : Event) : bool :=
  match e with
  | DeviceAccessTpmDriver_Uninitialize | DeviceAccess_Uninitialize _ => true
  | _ => false
  end.

Definition is_OwnerClear (e : Event) : bool :=
  match e with TSS_TPM_OwnerClear _ _ _ _ => true | _ => false end.

(** Between [w] and [w'] lies at most one call of the transport, and
    nothing else. *)
Definition transmits_at_most_once `{Codes} (w w' : World) : Prop :=
  w' = w \/
  exists request size, w' = log (DeviceManagement_Transmit request size MAX_RESPONSE_SIZE) w.

Definition keeps_world {Out A} (b : Block (Cmd Out) A) : Prop :=
  forall s, match b s with Next _ s' | Break _ s' => world s' = world s end.

Definition transmits_once `{Codes} {Out A} (b : Block (Cmd Out) A) : Prop :=
  forall s, match b s with
            | Next _ s' | Break _ s' => transmits_at_most_once (world s) (world s')
            end.

(* ===== Theorems ===== *)

(** * Device channel: connection discipline (TpmIO.c) *)

Section TpmIO_theorems.
Context `{Codes} (env : Env) (arm : bool).

Lemma TPMIO_Connect_connected w mode :
  g_fConnected w = true ->
  PropertyStorage_GetUIntegerValueByKey PROPERTY_TPM_DEVICE_ACCESS_MODE (props w) = Some mode ->
  TPMIO_Connect env arm w = (RC_E_ALREADY_CONNECTED, w).
Proof.
  intros Hc Hm. unfold TPMIO_Connect. block_unfold. rewrite Hm, Hc. reflexivity.
Qed.

Lemma TPMIO_Connect_no_mode w :
  PropertyStorage_GetUIntegerValueByKey PROPERTY_TPM_DEVICE_ACCESS_MODE (props w) = None ->
  TPMIO_Connect env arm w = (RC_E_INTERNAL, w).
Proof.
  intros Hm. unfold TPMIO_Connect. block_unfold. rewrite Hm. reflexivity.
Qed.

Lemma TPMIO_Transmit_not_connected w request n buffer size d :
  g_fConnected w = false ->
  let out := {| PrgbResponseBuffer := Some buffer; PpunResponseBufferSize := Some size |} in
  TPMIO_Transmit env (Some request) n out d w = ((RC_E_NOT_CONNECTED, out), w).
Proof.
  intros Hc. unfold TPMIO_Transmit. simpl. rewrite Hc. reflexivity.
Qed.

Lemma TPMIO_Transmit_null w request n out d :
  request = None \/ PrgbResponseBuffer out = None \/ PpunResponseBufferSize out = None ->
  TPMIO_Transmit env request n out d w = ((RC_E_BAD_PARAMETER, out), w).
Proof.
  unfold TPMIO_Transmit.
  destruct request, (PrgbResponseBuffer out), (PpunResponseBufferSize out);
    intros [?|[?|?]]; try discriminate; reflexivity.
Qed.

Lemma TPMIO_Disconnect_not_connected w :
  g_fConnected w = false ->
  TPMIO_Disconnect env w = (RC_E_NOT_CONNECTED, w).
Proof.
  intros Hc. unfold TPMIO_Disconnect. block_unfold. rewrite Hc. reflexivity.
Qed.

(** The switch of [TPMIO_Connect] never touches the flag. *)
Lemma TPMIO_Connect_switch_flag mode w rc w' :
  TPMIO_Connect_switch env arm mode w = (rc, w') ->
  g_fConnected w' = g_fConnected w.
Proof.
  unfold TPMIO_Connect_switch.
  destruct (mode =? TPM_DEVICE_ACCESS_DRIVER).
  { unfold call. intros [= <- <-]. reflexivity. }
  destruct ((mode =? TPM_DEVICE_ACCESS_MEMORY_BASED) && negb arm).
  2: { intros [= <- <-]. reflexivity. }
  block_unfold.
  destruct (g_fConnected w) eqn:Hc; [intros [= <- <-]; exact Hc|].
  destruct (PropertyStorage_GetUIntegerValueByKey _ _); [|intros [= <- <-]; exact Hc].
  unfold call, call_flag.
  destruct (negb (reply_rc env (trace w) _ =? RC_SUCCESS)); [intros [= <- <-]; exact Hc|].
  destruct (negb (reply_rc env _ _ =? RC_SUCCESS)); [intros [= <- <-]; exact Hc|].
  destruct (negb (reply_flag env _ _)); intros [= <- <-]; exact Hc.
Qed.

(** What a run of [TPMIO_Connect] that sets the flag looks like. *)
Lemma TPMIO_Connect_sets_flag w rc w' :
  TPMIO_Connect env arm w = (rc, w') ->
  g_fConnected w = false ->
  g_fConnected w' = true ->
  rc = RC_SUCCESS /\
  exists t, trace w' = t ++ [seteuid_getuid; setegid_getgid] /\
            reply_rc env t seteuid_getuid = 0 /\
            reply_rc env (t ++ [seteuid_getuid]) setegid_getgid = 0.
Proof.
  unfold TPMIO_Connect. block_unfold.
  destruct (PropertyStorage_GetUIntegerValueByKey _ _) as [mode|].
  2: { intros [= <- <-] Hc Hc'. congruence. }
  destruct (g_fConnected w) eqn:Hc; [intros _ [=]|].
  destruct (TPMIO_Connect_switch env arm mode w) as [rc1 w1] eqn:Hsw.
  pose proof (TPMIO_Connect_switch_flag _ _ _ _ Hsw) as Hf. rewrite Hc in Hf.
  destruct (Z.eqb_spec rc1 RC_SUCCESS) as [->|]; simpl.
  2: { intros [= <- <-] _ Hc'. congruence. }
  unfold call. simpl.
  destruct (Z.eqb_spec (reply_rc env (trace w1) seteuid_getuid) 0) as [E1|]; simpl.
  2: { intros [= <- <-] _ Hc'. simpl in Hc'. congruence. }
  destruct (Z.eqb_spec (reply_rc env (trace w1 ++ [seteuid_getuid]) setegid_getgid) 0)
    as [E2|]; simpl.
  2: { intros [= <- <-] _ Hc'. simpl in Hc'. congruence. }
  intros [= <- <-] _ _. split; [reflexivity|].
  exists (trace w1). simpl. rewrite <- app_assoc. auto.
Qed.
End TpmIO_theorems.

(** C9, as stated, fails on the parameter checks that come first.  With the
    example constants: a [TPMIO_Transmit] with a [NULL] request buffer on a
    channel that was never connected returns [RC_E_BAD_PARAMETER], not
    [RC_E_NOT_CONNECTED]; and a [TPMIO_Connect] on a connected channel whose
    access mode property cannot be read returns [RC_E_INTERNAL], not
    [RC_E_ALREADY_CONNECTED]. *)
Lemma TPMIO_discipline_counterexample :
  let H := example_codes in
  let out := {| PrgbResponseBuffer := Some []; PpunResponseBufferSize := Some 0 |} in
  let connected := set_g_fConnected true fresh_world in
  (g_fConnected fresh_world = false /\
   TPMIO_Transmit quiet_env None 0 out 0 fresh_world
     = ((RC_E_BAD_PARAMETER, out), fresh_world) /\
   RC_E_BAD_PARAMETER <> RC_E_NOT_CONNECTED) /\
  (g_fConnected connected = true /\
   TPMIO_Connect quiet_env false connected = (RC_E_INTERNAL, connected) /\
   RC_E_INTERNAL <> RC_E_ALREADY_CONNECTED).
Proof. cbv zeta. repeat split; try reflexivity; discriminate. Qed.

(** C9 (amended).  The device channel enforces connection discipline behind
    its parameter checks: a [TPMIO_Connect] while connected returns
    [RC_E_ALREADY_CONNECTED] when the access mode property can be read; a
    [TPMIO_Transmit] with non-[NULL] buffers before any successful connect
    returns [RC_E_NOT_CONNECTED]; a [TPMIO_Disconnect] without a prior connect
    returns [RC_E_NOT_CONNECTED]; none of the three changes the state; and
    [TPMIO_Connect] sets the flag only when it returns success, its last two
    steps being the successful drops of the effective user and group id. *)
Theorem TPMIO_connection_discipline `{Codes} (env : Env) (arm : bool) :
  (forall w mode,
      g_fConnected w = true ->
      PropertyStorage_GetUIntegerValueByKey PROPERTY_TPM_DEVICE_ACCESS_MODE (props w)
        = Some mode ->
      TPMIO_Connect env arm w = (RC_E_ALREADY_CONNECTED, w)) /\
  (forall w request n buffer size d,
      g_fConnected w = false ->
      let out := {| PrgbResponseBuffer := Some buffer; PpunResponseBufferSize := Some size |} in
      TPMIO_Transmit env (Some request) n out d w = ((RC_E_NOT_CONNECTED, out), w)) /\
  (forall w,
      g_fConnected w = false ->
      TPMIO_Disconnect env w = (RC_E_NOT_CONNECTED, w)) /\
  (forall w rc w',
      TPMIO_Connect env arm w = (rc, w') ->
      g_fConnected w = false ->
      g_fConnected w' = true ->
      rc = RC_SUCCESS /\
      exists t, trace w' = t ++ [seteuid_getuid; setegid_getgid] /\
                reply_rc env t seteuid_getuid = 0 /\
                reply_rc env (t ++ [seteuid_getuid]) setegid_getgid = 0).
Proof.
  repeat split.
  - intros w mode. apply TPMIO_Connect_connected.
  - intros w request n buffer size d. apply TPMIO_Transmit_not_connected.
  - apply TPMIO_Disconnect_not_connected.
  - eapply TPMIO_Connect_sets_flag; eauto.
  - eapply TPMIO_Connect_sets_flag; eauto.
Qed.

(** The four parts of the discipline on a run: connect, connect again,
    disconnect twice, transmit on the closed channel. *)
Lemma TPMIO_connection_discipline_witness :
  let H := example_codes in
  let out := {| PrgbResponseBuffer := Some []; PpunResponseBufferSize := Some 0 |} in
  let w1 := snd (TPMIO_Connect quiet_env false driver_world) in
  let w2 := snd (TPMIO_Disconnect quiet_env w1) in
  (g_fConnected driver_world = false /\ g_fConnected w1 = true /\
   fst (TPMIO_Connect quiet_env false driver_world) = RC_SUCCESS /\
   trace w1 = [DeviceAccessTpmDriver_Initialize; seteuid_getuid; setegid_getgid]) /\
  TPMIO_Connect quiet_env false w1 = (RC_E_ALREADY_CONNECTED, w1) /\
  (g_fConnected w2 = false /\
   TPMIO_Disconnect quiet_env w2 = (RC_E_NOT_CONNECTED, w2)) /\
  TPMIO_Transmit quiet_env (Some []) 0 out 0 w2 = ((RC_E_NOT_CONNECTED, out), w2).
Proof.
  cbv zeta.
  destruct (TPMIO_connection_discipline (H := example_codes) quiet_env false)
    as (Hconn & Htx & Hdisc & Hflag).
  split; [|split; [|split]].
  - repeat split; reflexivity.
  - eapply Hconn; reflexivity.
  - split; [reflexivity|]. apply Hdisc. reflexivity.
  - apply (Htx _ [] 0 [] 0 0). reflexivity.
Defined.

(** * Command layer: a response code other than success *)

Lemma lxor_lor_mask m r : Z.lxor (Z.lor m r) m = Z.ldiff r m.
Proof.
  apply Z.bits_inj'. intros n Hn.
  rewrite Z.lxor_spec, Z.lor_spec, Z.ldiff_spec.
  destruct (Z.testbit m n), (Z.testbit r n); reflexivity.
Qed.

Lemma ldiff_id_iff r m : Z.ldiff r m = r <-> Z.land r m = 0.
Proof.
  split; intros E.
  - rewrite <- E. apply Z.bits_inj'. intros n Hn.
    rewrite Z.land_spec, Z.ldiff_spec, Z.bits_0.
    destruct (Z.testbit m n), (Z.testbit r n); reflexivity.
  - apply Z.bits_inj'. intros n Hn.
    assert (B : Z.testbit (Z.land r m) n = false) by (rewrite E; apply Z.bits_0).
    rewrite Z.land_spec in B. rewrite Z.ldiff_spec.
    destruct (Z.testbit m n), (Z.testbit r n); simpl in *; congruence.
Qed.

Section CommandSteps_lemmas.
Context `{Codes} (env : Env) {Out : Type}.

Lemma keeps_out_bind {A B} (b : Block (Cmd Out) A) (k : A -> Block (Cmd Out) B) :
  keeps_out b -> (forall a, keeps_out (k a)) -> keeps_out (b ≫= k).
Proof.
  intros Hb Hk s a s'. block_unfold.
  destruct (b s) as [x s1|] eqn:E; [|discriminate].
  intros E'. rewrite (Hk _ _ _ _ E'). eauto.
Qed.

Lemma keeps_out_check rc : keeps_out (check (S := Cmd Out) rc).
Proof.
  intros s a s'. block_unfold. destruct (negb _); [discriminate|].
  intros [= _ <-]. reflexivity.
Qed.

Lemma keeps_out_marshal_step m : keeps_out (marshal_step (Out := Out) m).
Proof.
  intros s a s'. unfold marshal_step. block_unfold.
  destruct (m (cursor s)) as [rc c]. destruct (negb _); [discriminate|].
  intros [= _ <-]. reflexivity.
Qed.

Lemma keeps_out_transmit_step : keeps_out (transmit_step (Out := Out) env).
Proof.
  intros s a s'. unfold transmit_step, marshal_step. block_unfold.
  destruct (TSS_UINT32_Marshal _ _) as [rc c]. simpl.
  destruct (negb (rc =? RC_SUCCESS)); [discriminate|].
  destruct (negb _); [discriminate|].
  intros [= _ <-]. reflexivity.
Qed.

(** The header read, a response code other than success leaves the block
    at once, whatever statements [k] follow. *)
Lemma response_code_breaks unmarshal_tag (k : Block (Cmd Out) Z) s r c3 :
  response_header unmarshal_tag (cursor s) = Some (r, c3) ->
  r <> TPM_RC_SUCCESS ->
  run_block
    (tag ← unmarshal_step unmarshal_tag keep;
     unResponseSize ← unmarshal_step TSS_UINT32_Unmarshal keep;
     responseCode ← unmarshal_step TSS_TPM_RC_Unmarshal keep;
     response_code_step responseCode;; k) s
  = (Z.lor RC_TPM_MASK r, Build_Cmd (world s) c3 (out s)).
Proof.
  unfold response_header, TPM_RC_SUCCESS. intros Hh Hr.
  destruct (unmarshal_tag (cursor s)) as [[rc1 v1] c1] eqn:E1.
  destruct (Z.eqb_spec rc1 0) as [->|]; [|discriminate].
  destruct (TSS_UINT32_Unmarshal c1) as [[rc2 v2] c2] eqn:E2.
  destruct (Z.eqb_spec rc2 0) as [->|]; [|discriminate].
  destruct (TSS_TPM_RC_Unmarshal c2) as [[rc3 v3] c3'] eqn:E3.
  destruct (Z.eqb_spec rc3 0) as [->|]; [|discriminate].
  injection Hh as -> ->.
  unfold unmarshal_step, response_code_step, keep. block_unfold.
  rewrite E1. cbn. rewrite E2. cbn. rewrite E3. cbn.
  unfold TPM_RC_SUCCESS. destruct (Z.eqb_spec r 0); [contradiction|]. reflexivity.
Qed.
End CommandSteps_lemmas.

Section TPM2_Commands_theorems.
Context `{Codes} `{TPM2_Types} (env : Env).

(** The common shape of the command functions. *)
Lemma command_returns_chip_error {Out} (request : Block (Cmd Out) unit)
    unmarshal_tag (k : Block (Cmd Out) Z) (zero : Out) w s1 r c3 :
  keeps_out request ->
  request (command_start zero w) = Next tt s1 ->
  response_header unmarshal_tag (cursor s1) = Some (r, c3) ->
  r <> TPM_RC_SUCCESS ->
  chip_error_returned zero r c3 s1
    (run_block
       (request;;
        (tag ← unmarshal_step unmarshal_tag keep;
         unResponseSize ← unmarshal_step TSS_UINT32_Unmarshal keep;
         responseCode ← unmarshal_step TSS_TPM_RC_Unmarshal keep;
         response_code_step responseCode;; k))
       (command_start zero w)).
Proof.
  intros Hk Hq Hh Hr.
  pose proof (response_code_breaks unmarshal_tag k s1 r c3 Hh Hr) as E.
  pose proof (Hk _ _ _ Hq) as Ho. simpl in Ho.
  unfold run_block in *. cbv beta iota delta [mbind Block_bind bind] in *.
  rewrite Hq. cbv beta iota.
  match type of E with
  | match ?b with _ => _ end = _ =>
      match goal with |- context [match ?b' with _ => _ end] =>
        change b' with b; destruct b end
  end; injection E as -> ->; rewrite Ho; split; reflexivity.
Qed.

Ltac keeps_out_tac :=
  repeat first
    [ apply keeps_out_marshal_step
    | apply keeps_out_transmit_step
    | apply keeps_out_check
    | apply keeps_out_bind; [|intros ?] ].

Lemma keeps_out_GetCapability_request capability property propertyCount :
  keeps_out (TSS_TPM2_GetCapability_request env
               capability property propertyCount).
Proof. unfold TSS_TPM2_GetCapability_request. keeps_out_tac. Qed.

Lemma keeps_out_StartAuthSession_request tpmKey bind_ nonceCaller encryptedSalt
    sessionType symmetric authHash :
  keeps_out (TSS_TPM2_StartAuthSession_request env
               tpmKey bind_ nonceCaller encryptedSalt sessionType symmetric authHash).
Proof. unfold TSS_TPM2_StartAuthSession_request. keeps_out_tac. Qed.

Lemma keeps_out_GetTestResult_request :
  keeps_out (TSS_TPM2_GetTestResult_request env).
Proof. unfold TSS_TPM2_GetTestResult_request. keeps_out_tac. Qed.

Lemma keeps_out_marshal_session_context {Out} (d : AuthorizationCommandData) :
  keeps_out (marshal_session_context (Out := Out) d).
Proof.
  unfold marshal_session_context.
  apply keeps_out_bind; [intros s a s' [= _ <-]; reflexivity|intros pos].
  apply keeps_out_bind; [apply keeps_out_marshal_step|intros _].
  apply keeps_out_bind; [apply keeps_out_marshal_step|intros _].
  apply keeps_out_bind; [intros s a s' [= _ <-]; reflexivity|intros c].
  destruct (TSS_UINT32_Marshal _ _) as [rc c'].
  apply keeps_out_bind; [intros s a s' [= _ <-]; reflexivity|intros _].
  apply keeps_out_check.
Qed.

Lemma keeps_out_HierarchyChangeAuth_request authHandle sessionData newAuth :
  keeps_out (TSS_TPM2_HierarchyChangeAuth_request env
               authHandle sessionData newAuth).
Proof.
  unfold TSS_TPM2_HierarchyChangeAuth_request.
  repeat first
    [ apply keeps_out_marshal_step
    | apply keeps_out_transmit_step
    | apply keeps_out_marshal_session_context
    | apply keeps_out_bind; [|intros ?] ].
Qed.

Lemma keeps_out_Startup_request startupType :
  keeps_out (TSS_TPM2_Startup_request env startupType).
Proof. unfold TSS_TPM2_Startup_request. keeps_out_tac. Qed.
End TPM2_Commands_theorems.

(** C8, as stated, fails in its last part: a response code that uses bits
    of the mask cannot be told from the code without them.  With the example
    constants, the chip answering [RC_TPM_MASK | 3] to [TPM2_GetTestResult]
    makes the function return that very value, and the caller's XOR with
    the mask yields 3, not the code the chip sent. *)
Lemma chip_code_not_recoverable_counterexample :
  let H := example_codes in
  let T := example_types in
  let r := Z.lor RC_TPM_MASK 3 in
  let result := fst (TSS_TPM2_GetTestResult (answering_chip r) fresh_world) in
  r <> TPM_RC_SUCCESS /\
  result = Z.lor RC_TPM_MASK r /\
  Z.lxor result RC_TPM_MASK = 3 /\
  Z.lxor result RC_TPM_MASK <> r.
Proof. cbv zeta. repeat split; try discriminate; vm_compute; reflexivity. Qed.

(** C8 (amended).  For each of the five command functions of the sources
    ([TPM2_GetCapability], [TPM2_StartAuthSession], [TPM2_GetTestResult],
    [TPM2_HierarchyChangeAuth] and [TPM2_Startup]), once the request went
    out and the transport returned, a response whose header
    carries a response code [r] other than success makes the function return
    [RC_TPM_MASK | r] with no further response field unmarshalled: the cursor
    stays behind the response code and the out-parameters stay zeroed.  The
    caller's XOR with [RC_TPM_MASK] yields [r] without the bits of the mask,
    which is [r] exactly when [r] has none of them. *)
Theorem command_layer_chip_error `{Codes} `{TPM2_Types} (env : Env) (w : World) (r : Z) :
  r <> TPM_RC_SUCCESS ->
  (forall capability property propertyCount s1 c3,
      TSS_TPM2_GetCapability_request env capability property propertyCount
        (command_start {| pMoreData := zeroed; pCapabilityData := zeroed |} w) = Next tt s1 ->
      response_header TSS_TPM_ST_Unmarshal (cursor s1) = Some (r, c3) ->
      chip_error_returned {| pMoreData := zeroed; pCapabilityData := zeroed |} r c3 s1
        (TSS_TPM2_GetCapability env capability property propertyCount w)) /\
  (forall tpmKey bind_ nonceCaller encryptedSalt sessionType symmetric authHash s1 c3,
      TSS_TPM2_StartAuthSession_request env tpmKey bind_ nonceCaller encryptedSalt
        sessionType symmetric authHash
        (command_start {| pSessionHandle := zeroed; pNonceTPM := zeroed |} w) = Next tt s1 ->
      response_header TSS_TPM_ST_Unmarshal (cursor s1) = Some (r, c3) ->
      chip_error_returned {| pSessionHandle := zeroed; pNonceTPM := zeroed |} r c3 s1
        (TSS_TPM2_StartAuthSession env tpmKey bind_ nonceCaller encryptedSalt
           sessionType symmetric authHash w)) /\
  (forall s1 c3,
      TSS_TPM2_GetTestResult_request env
        (command_start {| pOutData := zeroed; pTestResult := 0 |} w) = Next tt s1 ->
      response_header TSS_TPMI_ST_COMMAND_TAG_Unmarshal (cursor s1) = Some (r, c3) ->
      chip_error_returned {| pOutData := zeroed; pTestResult := 0 |} r c3 s1
        (TSS_TPM2_GetTestResult env w)) /\
  (forall authHandle sessionData newAuth s1 c3,
      TSS_TPM2_HierarchyChangeAuth_request env authHandle sessionData newAuth
        (command_start zeroed w) = Next tt s1 ->
      response_header TSS_TPM_ST_Unmarshal (cursor s1) = Some (r, c3) ->
      chip_error_returned zeroed r c3 s1
        (TSS_TPM2_HierarchyChangeAuth env authHandle sessionData newAuth w)) /\
  (forall startupType s1 c3,
      TSS_TPM2_Startup_request env startupType (command_start tt w) = Next tt s1 ->
      response_header TSS_TPM_ST_Unmarshal (cursor s1) = Some (r, c3) ->
      chip_error_returned tt r c3 s1 (TSS_TPM2_Startup env startupType w)) /\
  Z.lxor (Z.lor RC_TPM_MASK r) RC_TPM_MASK = Z.ldiff r RC_TPM_MASK /\
  (Z.lxor (Z.lor RC_TPM_MASK r) RC_TPM_MASK = r <-> Z.land r RC_TPM_MASK = 0).
Proof.
  intros Hr. repeat apply conj.
  - intros capability property propertyCount s1 c3 Hq Hh.
    unfold TSS_TPM2_GetCapability, TSS_TPM2_GetCapability_response.
    eapply command_returns_chip_error; eauto using keeps_out_GetCapability_request.
  - intros tpmKey bind_ nonceCaller encryptedSalt sessionType symmetric authHash s1 c3 Hq Hh.
    unfold TSS_TPM2_StartAuthSession, TSS_TPM2_StartAuthSession_response.
    eapply command_returns_chip_error; eauto using keeps_out_StartAuthSession_request.
  - intros s1 c3 Hq Hh.
    unfold TSS_TPM2_GetTestResult, TSS_TPM2_GetTestResult_response.
    eapply command_returns_chip_error; eauto using keeps_out_GetTestResult_request.
  - intros authHandle sessionData newAuth s1 c3 Hq Hh.
    unfold TSS_TPM2_HierarchyChangeAuth, TSS_TPM2_HierarchyChangeAuth_response.
    eapply command_returns_chip_error; eauto using keeps_out_HierarchyChangeAuth_request.
  - intros startupType s1 c3 Hq Hh.
    unfold TSS_TPM2_Startup, TSS_TPM2_Startup_response.
    eapply command_returns_chip_error; eauto using keeps_out_Startup_request.
  - apply lxor_lor_mask.
  - rewrite lxor_lor_mask. apply ldiff_id_iff.
  - rewrite lxor_lor_mask. apply ldiff_id_iff.
Qed.

(** The chip answers [TPM_RC_FAILURE] (0x101) to [TPM2_GetTestResult], to
    [TPM2_GetCapability] and to [TPM2_Startup]: all return
    [RC_TPM_MASK | 0x101], the first two with their out-parameters zeroed;
    the code has no bit of the mask and the XOR gives it back. *)
Lemma command_layer_chip_error_witness :
  let H := example_codes in
  let T := example_types in
  let env := answering_chip 0x101 in
  0x101 <> TPM_RC_SUCCESS /\
  (fst (TSS_TPM2_GetTestResult env fresh_world) = 0xE0280101 /\
   out (snd (TSS_TPM2_GetTestResult env fresh_world))
     = {| pOutData := zeroed; pTestResult := 0 |} /\
   pbBuffer (cursor (snd (TSS_TPM2_GetTestResult env fresh_world))) = 10%nat) /\
  (fst (TSS_TPM2_GetCapability env 6 0x100 1 fresh_world) = 0xE0280101 /\
   out (snd (TSS_TPM2_GetCapability env 6 0x100 1 fresh_world))
     = {| pMoreData := zeroed; pCapabilityData := zeroed |}) /\
  (fst (TSS_TPM2_Startup env 0 fresh_world) = 0xE0280101 /\
   pbBuffer (cursor (snd (TSS_TPM2_Startup env 0 fresh_world))) = 10%nat) /\
  Z.lxor 0xE0280101 RC_TPM_MASK = 0x101.
Proof.
  cbv zeta.
  assert (Hr : 0x101 <> TPM_RC_SUCCESS) by discriminate.
  destruct (command_layer_chip_error (H := example_codes) (H0 := example_types)
              (answering_chip 0x101) fresh_world 0x101 Hr)
    as (Hcap & _ & Htest & _ & Hstartup & _ & Hxor).
  split; [exact Hr|]. split; [|split; [|split]].
  - edestruct Htest as [E1 E2]; [vm_compute; reflexivity|vm_compute; reflexivity|].
    rewrite E1, E2. repeat split.
  - edestruct (Hcap 6 0x100 1) as [E1 E2]; [vm_compute; reflexivity|vm_compute; reflexivity|].
    rewrite E1, E2. repeat split.
  - edestruct (Hstartup 0) as [E1 E2]; [vm_compute; reflexivity|vm_compute; reflexivity|].
    rewrite E1, E2. repeat split.
  - apply Hxor. reflexivity.
Defined.

(** * Authorization preparer: TPM 1.2 physical presence *)

Lemma trace_log e w : trace (log e w) = trace w ++ [e].
Proof. reflexivity. Qed.


Lemma ChipError_xor `{Codes} code :
  Z.land code RC_TPM_MASK = 0 -> Z.lxor (ChipError code) RC_TPM_MASK = code.
Proof.
  intros E. unfold ChipError. rewrite lxor_lor_mask. apply ldiff_id_iff, E.
Qed.

Lemma ChipError_nonzero `{Codes} code : code <> 0 -> ChipError code <> RC_SUCCESS.
Proof.
  unfold ChipError, RC_SUCCESS. intros Hc E. apply Z.lor_eq_0_iff in E. tauto.
Qed.

(** The code tests [code == (rc ^ RC_TPM_MASK)]. *)
Lemma xor_mask_eq `{Codes} code rc :
  Z.land code RC_TPM_MASK = 0 ->
  (code =? Z.lxor rc RC_TPM_MASK) = true <-> rc = ChipError code.
Proof.
  intros E. rewrite Z.eqb_eq. split.
  - intros ->. unfold ChipError.
    apply Z.bits_inj'. intros n Hn.
    assert (B : Z.testbit (Z.land (Z.lxor rc RC_TPM_MASK) RC_TPM_MASK) n = false)
      by (rewrite E; apply Z.bits_0).
    rewrite Z.land_spec, Z.lxor_spec in B.
    rewrite Z.lor_spec, Z.lxor_spec.
    destruct (Z.testbit rc n), (Z.testbit RC_TPM_MASK n); simpl in *; congruence.
  - intros ->. symmetry. apply ChipError_xor, E.
Qed.

(** The routine as a function of the three results. *)
Lemma PrepareTPM12PhysicalPresence_unfold `{Codes} (env : Env) (w : World) :
  let e1 := TSS_TSC_PhysicalPresence TPM_PHYSICAL_PRESENCE_CMD_ENABLE in
  let e2 := TSS_TSC_PhysicalPresence TPM_PHYSICAL_PRESENCE_PRESENT in
  let e3 := TSS_TPM_SetCapability TPM_SET_STCLEAR_DATA unSubCapSwapped [0; 0; 0; 1] in
  let r1 := reply_rc env (trace w) e1 in
  let r2 := reply_rc env (trace w ++ [e1]) e2 in
  let r3 := reply_rc env (trace w ++ [e1; e2]) e3 in
  CommandFlow_TpmUpdate_PrepareTPM12PhysicalPresence env w =
  if negb (r1 =? RC_SUCCESS) && negb (TPM_BAD_PARAMETER =? Z.lxor r1 RC_TPM_MASK)
  then (r1, log e1 w)
  else if negb (r2 =? RC_SUCCESS) then
    if TPM_BAD_PARAMETER =? Z.lxor r2 RC_TPM_MASK
    then (RC_E_TPM12_DEFERREDPP_REQUIRED, log e2 (log e1 w))
    else (r2, log e2 (log e1 w))
  else if negb (r3 =? RC_SUCCESS) then (r3, log e3 (log e2 (log e1 w)))
  else (RC_SUCCESS, log e3 (log e2 (log e1 w))).
Proof.
  cbv zeta.
  unfold CommandFlow_TpmUpdate_PrepareTPM12PhysicalPresence, call. block_unfold.
  destruct (negb (_ =? RC_SUCCESS) && negb _); cbv beta iota; [reflexivity|].
  rewrite ?trace_log.
  destruct (negb (_ =? RC_SUCCESS)); cbv beta iota.
  { destruct (TPM_BAD_PARAMETER =? _); reflexivity. }
  rewrite ?trace_log, <- ?app_assoc. cbn [app].
  destruct (negb _); reflexivity.
Qed.

(** C4.  In [CommandFlow_TpmUpdate_PrepareTPM12PhysicalPresence], with [r1],
    [r2], [r3] the results of [TSC_PhysicalPresence(CmdEnable)],
    [TSC_PhysicalPresence(Present)] and [SetCapability(ST_CLEAR_DATA,
    DEFERRED_PP, true)]: a chip error [BadParameter] as [r1] is tolerated like
    a success and the flow goes on to the second command; then a chip error
    [BadParameter] as [r2] is returned as [RC_E_TPM12_DEFERREDPP_REQUIRED]
    without a third command; after a successful second command any error
    [r3] is returned as it is, and otherwise the routine returns success.
    An error other than these is returned as it is, too. *)
Theorem PrepareTPM12PhysicalPresence_outcomes `{Codes} (env : Env) (w : World) :
  Z.land TPM_BAD_PARAMETER RC_TPM_MASK = 0 ->
  TPM_BAD_PARAMETER <> 0 ->
  let e1 := TSS_TSC_PhysicalPresence TPM_PHYSICAL_PRESENCE_CMD_ENABLE in
  let e2 := TSS_TSC_PhysicalPresence TPM_PHYSICAL_PRESENCE_PRESENT in
  let e3 := TSS_TPM_SetCapability TPM_SET_STCLEAR_DATA unSubCapSwapped [0; 0; 0; 1] in
  let r1 := reply_rc env (trace w) e1 in
  let r2 := reply_rc env (trace w ++ [e1]) e2 in
  let r3 := reply_rc env (trace w ++ [e1; e2]) e3 in
  let rc := fst (CommandFlow_TpmUpdate_PrepareTPM12PhysicalPresence env w) in
  let t := trace (snd (CommandFlow_TpmUpdate_PrepareTPM12PhysicalPresence env w)) in
  (r1 = RC_SUCCESS \/ r1 = ChipError TPM_BAD_PARAMETER ->
     (r2 = ChipError TPM_BAD_PARAMETER ->
        rc = RC_E_TPM12_DEFERREDPP_REQUIRED /\ t = trace w ++ [e1; e2]) /\
     (r2 <> RC_SUCCESS -> r2 <> ChipError TPM_BAD_PARAMETER ->
        rc = r2 /\ t = trace w ++ [e1; e2]) /\
     (r2 = RC_SUCCESS ->
        t = trace w ++ [e1; e2; e3] /\
        (r3 <> RC_SUCCESS -> rc = r3) /\
        (r3 = RC_SUCCESS -> rc = RC_SUCCESS))) /\
  (r1 <> RC_SUCCESS -> r1 <> ChipError TPM_BAD_PARAMETER ->
     rc = r1 /\ t = trace w ++ [e1]).
Proof.
  intros Hd Hnz. cbv zeta.
  pose proof (ChipError_nonzero _ Hnz) as Hce.
  pose proof (PrepareTPM12PhysicalPresence_unfold env w) as E. cbv zeta in E.
  rewrite E. clear E.
  set (e1 := TSS_TSC_PhysicalPresence TPM_PHYSICAL_PRESENCE_CMD_ENABLE).
  set (e2 := TSS_TSC_PhysicalPresence TPM_PHYSICAL_PRESENCE_PRESENT).
  set (e3 := TSS_TPM_SetCapability _ _ _).
  set (r1 := reply_rc env (trace w) e1).
  set (r2 := reply_rc env (trace w ++ [e1]) e2).
  set (r3 := reply_rc env (trace w ++ [e1; e2]) e3).
  assert (T2 : trace (log e2 (log e1 w)) = trace w ++ [e1; e2])
    by (cbn; rewrite <- app_assoc; reflexivity).
  assert (T3 : trace (log e3 (log e2 (log e1 w))) = trace w ++ [e1; e2; e3])
    by (cbn; rewrite <- !app_assoc; reflexivity).
  pose proof (xor_mask_eq TPM_BAD_PARAMETER r1 Hd) as X1.
  pose proof (xor_mask_eq TPM_BAD_PARAMETER r2 Hd) as X2.
  destruct (Z.eqb_spec r1 RC_SUCCESS) as [E1|N1];
    destruct (TPM_BAD_PARAMETER =? Z.lxor r1 RC_TPM_MASK) eqn:B1;
    destruct (Z.eqb_spec r2 RC_SUCCESS) as [E2|N2];
    destruct (TPM_BAD_PARAMETER =? Z.lxor r2 RC_TPM_MASK) eqn:B2;
    destruct (Z.eqb_spec r3 RC_SUCCESS) as [E3|N3];
    cbn [negb andb fst snd]; rewrite ?T2, ?T3.
  all: try (assert (r1 = ChipError TPM_BAD_PARAMETER) by (apply X1; reflexivity)).
  all: try (assert (r1 <> ChipError TPM_BAD_PARAMETER)
              by (intros E; apply X1 in E; congruence)).
  all: try (assert (r2 = ChipError TPM_BAD_PARAMETER) by (apply X2; reflexivity)).
  all: try (assert (r2 <> ChipError TPM_BAD_PARAMETER)
              by (intros E; apply X2 in E; congruence)).
  all: repeat split; intros; try reflexivity; try congruence; try tauto.
Qed.

(** With a locked physical presence the first error is tolerated and the
    second one becomes [RC_E_TPM12_DEFERREDPP_REQUIRED]; no [SetCapability]
    is sent. *)
Lemma PrepareTPM12PhysicalPresence_outcomes_witness :
  let H := example_codes in
  fst (CommandFlow_TpmUpdate_PrepareTPM12PhysicalPresence pp_locked_chip fresh_world)
    = RC_E_TPM12_DEFERREDPP_REQUIRED /\
  trace (snd (CommandFlow_TpmUpdate_PrepareTPM12PhysicalPresence pp_locked_chip fresh_world))
    = [TSS_TSC_PhysicalPresence TPM_PHYSICAL_PRESENCE_CMD_ENABLE;
       TSS_TSC_PhysicalPresence TPM_PHYSICAL_PRESENCE_PRESENT].
Proof.
  cbv zeta.
  assert (Hd : Z.land (@TPM_BAD_PARAMETER example_codes) (@RC_TPM_MASK example_codes) = 0)
    by reflexivity.
  assert (Hnz : @TPM_BAD_PARAMETER example_codes <> 0) by discriminate.
  destruct (PrepareTPM12PhysicalPresence_outcomes (H := example_codes)
              pp_locked_chip fresh_world Hd Hnz) as [Htol _].
  destruct Htol as (Hlocked & _ & _); [right; reflexivity|].
  apply Hlocked. reflexivity.
Defined.

(** * Clearing the TPM 1.2 ownership *)

Section Tpm12ClearOwnership_theorems.
Context `{Codes} (env : Env).

Lemma ClearOwnership_state_failed p w :
  reply_rc env (trace w) FirmwareUpdate_CalculateState <> RC_SUCCESS ->
  run_block (CommandFlow_Tpm12ClearOwnership_Execute_block env (Some p)) w
  = (reply_rc env (trace w) FirmwareUpdate_CalculateState,
     log FirmwareUpdate_CalculateState w).
Proof.
  intros Hrc. unfold CommandFlow_Tpm12ClearOwnership_Execute_block, call_state.
  block_unfold. cbn [is_NULL].
  destruct (Z.eqb_spec (reply_rc env (trace w) FirmwareUpdate_CalculateState) RC_SUCCESS);
    [contradiction|reflexivity].
Qed.

Lemma ClearOwnership_mode_rejected p w code w1 :
  reply_rc env (trace w) FirmwareUpdate_CalculateState = RC_SUCCESS ->
  check_operation_mode (reply_state env (trace w) FirmwareUpdate_CalculateState)
    (log FirmwareUpdate_CalculateState w) = Break code w1 ->
  run_block (CommandFlow_Tpm12ClearOwnership_Execute_block env (Some p)) w = (code, w1).
Proof.
  intros Hrc Hmode. unfold CommandFlow_Tpm12ClearOwnership_Execute_block, call_state.
  block_unfold. cbn [is_NULL]. rewrite Hrc. cbn [Z.eqb negb RC_SUCCESS].
  rewrite Hmode. reflexivity.
Qed.

Lemma ClearOwnership_auth_failed p w :
  let st := reply_state env (trace w) FirmwareUpdate_CalculateState in
  let w1 := log FirmwareUpdate_CalculateState w in
  let e := FirmwareUpdate_CheckOwnerAuthorization ownerAuthData in
  reply_rc env (trace w) FirmwareUpdate_CalculateState = RC_SUCCESS ->
  tpm12 st && tpm12owner st = true ->
  reply_rc env (trace w1) e <> RC_SUCCESS ->
  run_block (CommandFlow_Tpm12ClearOwnership_Execute_block env (Some p)) w
  = (if TPM_AUTHFAIL =? Z.lxor (reply_rc env (trace w1) e) RC_TPM_MASK
     then RC_E_TPM12_INVALID_OWNERAUTH else reply_rc env (trace w1) e,
     log e w1).
Proof.
  cbv zeta. intros Hrc Hown Hauth.
  unfold CommandFlow_Tpm12ClearOwnership_Execute_block, call_state, call,
    check_operation_mode.
  block_unfold. cbn [is_NULL]. rewrite Hrc. cbn [Z.eqb negb RC_SUCCESS].
  rewrite Hown. cbv beta iota.
  destruct (Z.eqb_spec (reply_rc env (trace (log FirmwareUpdate_CalculateState w))
                          (FirmwareUpdate_CheckOwnerAuthorization ownerAuthData))
                       RC_SUCCESS); [contradiction|].
  cbn [negb]. destruct (TPM_AUTHFAIL =? _); reflexivity.
Qed.
End Tpm12ClearOwnership_theorems.

(** C10.  For every non-[NULL] structure
    [CommandFlow_Tpm12ClearOwnership_Execute] returns success and stores the
    outcome of the flow as the structure's return code.  Once the state is
    probed, a chip that is not an owned TPM 1.2 is classified in this order:
    a TPM 2.0 gives [RC_E_TPM_NOT_SUPPORTED_FEATURE], an unowned TPM 1.2
    [RC_E_TPM12_NO_OWNER], a chip of another vendor [RC_E_NO_IFX_TPM], and
    what remains (an unsupported chip among it) [RC_E_UNSUPPORTED_CHIP]; on
    an owned TPM 1.2 an owner authorization check that fails with the chip
    error [TPM_AUTHFAIL] gives [RC_E_TPM12_INVALID_OWNERAUTH]. *)
Theorem Tpm12ClearOwnership_Execute_outcome `{Codes} (env : Env)
    (p : IfxTpm12ClearOwnership) (w : World) :
  Z.land TPM_AUTHFAIL RC_TPM_MASK = 0 ->
  TPM_AUTHFAIL <> 0 ->
  let st := reply_state env (trace w) FirmwareUpdate_CalculateState in
  let w1 := log FirmwareUpdate_CalculateState w in
  exists code w',
    CommandFlow_Tpm12ClearOwnership_Execute env (Some p) w
      = (Some (RC_SUCCESS, {| co_unReturnCode := code |}), w') /\
    run_block (CommandFlow_Tpm12ClearOwnership_Execute_block env (Some p)) w = (code, w') /\
    (reply_rc env (trace w) FirmwareUpdate_CalculateState = RC_SUCCESS ->
       (tpm12 st && tpm12owner st = false ->
          (tpm20 st = true -> code = RC_E_TPM_NOT_SUPPORTED_FEATURE) /\
          (tpm20 st = false -> tpm12 st = true -> code = RC_E_TPM12_NO_OWNER) /\
          (tpm20 st = false -> tpm12 st = false -> infineon st = false ->
             code = RC_E_NO_IFX_TPM) /\
          (tpm20 st = false -> tpm12 st = false -> infineon st = true ->
             code = RC_E_UNSUPPORTED_CHIP)) /\
       (tpm12 st && tpm12owner st = true ->
          reply_rc env (trace w1) (FirmwareUpdate_CheckOwnerAuthorization ownerAuthData)
            = ChipError TPM_AUTHFAIL ->
          code = RC_E_TPM12_INVALID_OWNERAUTH)).
Proof.
  intros Hd Hnz. cbv zeta.
  unfold CommandFlow_Tpm12ClearOwnership_Execute.
  destruct (run_block _ w) as [code w'] eqn:E.
  exists code, w'. split; [reflexivity|]. split; [reflexivity|].
  intros Hrc. split.
  - intros Hown.
    assert (M : forall c,
               check_operation_mode
                 (reply_state env (trace w) FirmwareUpdate_CalculateState)
                 (log FirmwareUpdate_CalculateState w)
               = Break c (log FirmwareUpdate_CalculateState w) -> code = c).
    { intros c Hc. rewrite (ClearOwnership_mode_rejected env p w _ _ Hrc Hc) in E.
      congruence. }
    unfold check_operation_mode in M. rewrite Hown in M.
    repeat split; intros; apply M;
      repeat match goal with Hx : _ = _ |- _ => rewrite Hx end;
      cbn [negb]; try reflexivity.
    destruct (unsupportedChip _); reflexivity.
  - intros Hown Hauth.
    pose proof (ClearOwnership_auth_failed env p w) as A. cbv zeta in A.
    rewrite A in E; auto.
    2: { rewrite Hauth. apply ChipError_nonzero, Hnz. }
    rewrite Hauth, (ChipError_xor _ Hd), Z.eqb_refl in E. congruence.
Qed.

(** An owned TPM 1.2 with a foreign owner authorization: the flow ends with
    [RC_E_TPM12_INVALID_OWNERAUTH] in the structure and returns success. *)
Lemma Tpm12ClearOwnership_Execute_outcome_witness :
  let H := example_codes in
  fst (CommandFlow_Tpm12ClearOwnership_Execute foreign_owner_chip
         (Some {| co_unReturnCode := 0 |}) fresh_world)
  = Some (RC_SUCCESS, {| co_unReturnCode := RC_E_TPM12_INVALID_OWNERAUTH |}).
Proof.
  cbv zeta.
  assert (Hd : Z.land (@TPM_AUTHFAIL example_codes) (@RC_TPM_MASK example_codes) = 0)
    by reflexivity.
  assert (Hnz : @TPM_AUTHFAIL example_codes <> 0) by discriminate.
  destruct (Tpm12ClearOwnership_Execute_outcome (H := example_codes) foreign_owner_chip
              {| co_unReturnCode := 0 |} fresh_world Hd Hnz)
    as (code & w' & E & _ & Hcls).
  rewrite E. cbn [fst].
  destruct Hcls as [_ Hauth]; [reflexivity|].
  rewrite Hauth; reflexivity.
Defined.

(** * Update driver: [CommandFlow_TpmUpdate_UpdateFirmware] *)

(** One step of a case analysis that follows the control flow of a block:
    the case is on a condition that is not itself a case analysis. *)
Ltac is_plain x :=
  lazymatch x with
  | context [match _ with _ => _ end] => fail
  | context [if _ then _ else _] => fail
  | _ => idtac
  end.

Ltac flow_step_in E :=
  match type of E with
  | context [if ?c then _ else _] => is_plain c; destruct c eqn:?
  | context [match ?x with _ => _ end] => is_plain x; destruct x eqn:?
  end; cbv beta iota in E; cbn [fst snd] in E.

(** Simplify, and follow the branches that hypotheses decide. *)
Ltac flow_rw_hyp :=
  match goal with
  | E : ?x = true |- context [?x] => progress (rewrite E)
  | E : ?x = false |- context [?x] => progress (rewrite E)
  | E : ?x = Some _ |- context [?x] => progress (rewrite E)
  | E : ?x = None |- context [?x] => progress (rewrite E)
  | E : ?x = (_, _) |- context [?x] => progress (rewrite E)
  end.

Ltac flow_rw :=
  repeat (cbv beta iota; cbn [fst snd negb]; try flow_rw_hyp);
  cbv beta iota; cbn [fst snd negb].

Ltac flow_step :=
  match goal with
  | |- context [if ?c then _ else _] => is_plain c; destruct c eqn:?
  | |- context [match ?x with _ => _ end] => is_plain x; destruct x eqn:?
  end; cbv beta iota; cbn [fst snd].

Lemma dry_run_loop_eq p w :
  dry_run_loop p w =
  if Z_le_dec p 100
  then dry_run_loop (u64 (p + 25))
         (Response_ProgressCallback_ p (log (Platform_SleepMicroSeconds 2000000) w))
  else w.
Proof.
  rewrite dry_run_loop_equation_1. destruct (Z_le_dec p 100); reflexivity.
Qed.

Lemma dry_run_loop_25 w :
  dry_run_loop 25 w =
  fold_left (fun w e => log e w)
    [Platform_SleepMicroSeconds 2000000; Response_ProgressCallback 25;
     Platform_SleepMicroSeconds 2000000; Response_ProgressCallback 50;
     Platform_SleepMicroSeconds 2000000; Response_ProgressCallback 75;
     Platform_SleepMicroSeconds 2000000; Response_ProgressCallback 100] w.
Proof.
  do 5 (rewrite dry_run_loop_eq;
        match goal with |- context [Z_le_dec ?a 100] =>
          let v := eval vm_compute in a in change a with v;
          destruct (Z_le_dec v 100); [try lia|try lia]
        end).
  reflexivity.
Qed.

(** The end of a dry run: the return code is success, and the run data are
    looked for and removed. *)
Ltac dry_run_tail env :=
  cbn [unReturnCode set_unReturnCode RC_SUCCESS Z.eqb negb]; flow_rw;
  unfold FileIO_Exists_, FileIO_Remove_; flow_rw;
  match goal with
  | |- context [files ?w0 !! ?f] =>
      destruct (files w0 !! f); flow_rw;
      [ match goal with |- context [reply_rc env ?t ?e =? 0] =>
          destruct (reply_rc env t e =? 0) end | ]
  end; flow_rw;
  eexists; (split; [reflexivity|]); eexists; cbn; rewrite <- ?app_assoc; cbn;
  split; eauto.

Section UpdateFirmware_theorems.
Context `{Codes} `{Platform} (env : Env).

(** The events of a dry run. *)
Lemma dry_run_trace w :
  trace (dry_run_loop 25 w) = trace w ++
    [Platform_SleepMicroSeconds 2000000; Response_ProgressCallback 25;
     Platform_SleepMicroSeconds 2000000; Response_ProgressCallback 50;
     Platform_SleepMicroSeconds 2000000; Response_ProgressCallback 75;
     Platform_SleepMicroSeconds 2000000; Response_ProgressCallback 100].
Proof.
  rewrite dry_run_loop_25. cbn. rewrite <- !app_assoc. reflexivity.
Qed.

Lemma dry_run_files w : files (dry_run_loop 25 w) = files w.
Proof. rewrite dry_run_loop_25. reflexivity. Qed.

Lemma UpdateFirmware_dry_run_block u w :
  UpdateFirmware_parameters_ok u = true ->
  (tpm12 (sTpmState u) = true ->
   exists t, PropertyStorage_GetUIntegerValueByKey PROPERTY_UPDATE_TYPE (props w) = Some t /\
             ((UPDATE_TYPE_TPM12_TAKEOWNERSHIP =? t) = true ->
              fst (Platform_MemoryCopy sizeof_rgbOwnerAuthHash s_ownerAuthData) = RC_SUCCESS)) ->
  PropertyStorage_GetBooleanValueByKey PROPERTY_DRY_RUN (props w) = Some true ->
  exists w',
    run_block (CommandFlow_TpmUpdate_UpdateFirmware_block env) (u, w)
    = (RC_SUCCESS,
       (set_unReturnCode RC_SUCCESS
          (set_unReturnCode RC_E_FAIL (set_unSubType STRUCT_SUBTYPE_UPDATE u)), w')) /\
    exists t',
      trace w' = trace (dry_run_loop 25 w) ++ FileIO_Exists TPM_FACTORY_UPD_RUNDATA_FILE :: t' /\
      (t' = [] \/ t' = [FileIO_Remove TPM_FACTORY_UPD_RUNDATA_FILE]).
Proof.
  intros Hok H12 Hdry.
  unfold CommandFlow_TpmUpdate_UpdateFirmware_block.
  unfold getsU, getsW, modifyU, modifyW, liftW. block_unfold. flow_rw.
  destruct (tpm12 (sTpmState u)) eqn:E12; flow_rw.
  - destruct (H12 eq_refl) as (t & Ht & Hcopy). flow_rw.
    destruct (UPDATE_TYPE_TPM12_TAKEOWNERSHIP =? t) eqn:Et; flow_rw.
    + specialize (Hcopy eq_refl).
      destruct (Platform_MemoryCopy _ _) as [rc hash]. cbn [fst] in Hcopy. subst rc.
      cbn [RC_SUCCESS Z.eqb negb]. flow_rw. dry_run_tail env.
    + dry_run_tail env.
  - dry_run_tail env.
Qed.
End UpdateFirmware_theorems.

(** C2.  In dry-run mode, once the parameters are accepted and the update
    data are set up, [CommandFlow_TpmUpdate_UpdateFirmware] replaces the
    update by the progress sequence 25, 50, 75, 100: no call reaches the TPM
    ([FirmwareUpdate_UpdateImage] is not called), exactly these four
    progress values are emitted, and the inner return code and the return
    value are success. *)
Theorem UpdateFirmware_dry_run `{Codes} `{Platform} (env : Env) (u : IfxUpdate) (w : World) :
  UpdateFirmware_parameters_ok u = true ->
  (tpm12 (sTpmState u) = true ->
   exists t, PropertyStorage_GetUIntegerValueByKey PROPERTY_UPDATE_TYPE (props w) = Some t /\
             ((UPDATE_TYPE_TPM12_TAKEOWNERSHIP =? t) = true ->
              fst (Platform_MemoryCopy sizeof_rgbOwnerAuthHash s_ownerAuthData) = RC_SUCCESS)) ->
  PropertyStorage_GetBooleanValueByKey PROPERTY_DRY_RUN (props w) = Some true ->
  exists u' w' t',
    CommandFlow_TpmUpdate_UpdateFirmware env (Some u) w = (Some (RC_SUCCESS, u'), w') /\
    unReturnCode u' = RC_SUCCESS /\
    trace w' = trace w ++ t' /\
    progress_of t' = [25; 50; 75; 100] /\
    forallb (fun e => negb (sends_to_tpm e)) t' = true.
Proof.
  intros Hok H12 Hdry.
  destruct (UpdateFirmware_dry_run_block env u w Hok H12 Hdry) as (w' & E & t' & Ht & Hr).
  unfold CommandFlow_TpmUpdate_UpdateFirmware. rewrite E.
  cbn [unReturnCode set_unReturnCode RC_SUCCESS Z.eqb negb orb andb].
  eexists _, w', _. split; [reflexivity|]. split; [reflexivity|].
  rewrite Ht, dry_run_trace, <- app_assoc. split; [reflexivity|].
  destruct Hr as [-> | ->]; split; reflexivity.
Qed.

Section UpdateFirmware_session.
Context `{Codes} `{Platform} (env : Env).

(** The block never writes the session handle. *)
Lemma UpdateFirmware_block_session u w rv u1 w1 :
  run_block (CommandFlow_TpmUpdate_UpdateFirmware_block env) (u, w) = (rv, (u1, w1)) ->
  hPolicySession u1 = hPolicySession u.
Proof.
  unfold CommandFlow_TpmUpdate_UpdateFirmware_block.
  unfold getsU, getsW, modifyU, modifyW, liftW. block_unfold. cbn [fst snd].
  intros E. repeat flow_step_in E.
  all: inversion E; subst; reflexivity.
Qed.
End UpdateFirmware_session.

(** C3.  Whenever [CommandFlow_TpmUpdate_UpdateFirmware] ends with an error,
    in its return value or in the inner return code, while the structure
    holds a policy session handle other than zero, its last action is
    [TPM2_FlushContext] on that handle, and the handle stored in the
    structure is zero afterwards. *)
Theorem UpdateFirmware_flushes_session `{Codes} `{Platform} (env : Env)
    (u : IfxUpdate) (w : World) :
  hPolicySession u <> 0 ->
  exists rv u' w',
    CommandFlow_TpmUpdate_UpdateFirmware env (Some u) w = (Some (rv, u'), w') /\
    (rv <> RC_SUCCESS \/ unReturnCode u' <> RC_SUCCESS ->
     hPolicySession u' = 0 /\
     exists t, trace w' = t ++ [TSS_TPM2_FlushContext (hPolicySession u)]).
Proof.
  intros Hs. unfold CommandFlow_TpmUpdate_UpdateFirmware.
  destruct (run_block (CommandFlow_TpmUpdate_UpdateFirmware_block env) (u, w))
    as [rv [u1 w1]] eqn:E.
  pose proof (UpdateFirmware_block_session env _ _ _ _ _ E) as Hh.
  rewrite Hh.
  destruct (Z.eqb_spec (hPolicySession u) 0) as [|_]; [contradiction|].
  destruct (Z.eqb_spec rv RC_SUCCESS) as [Erv|Nrv];
    destruct (Z.eqb_spec (unReturnCode u1) RC_SUCCESS) as [Erc|Nrc];
    cbn [negb orb andb call].
  - eexists _, _, _. split; [reflexivity|]. intros [?|?]; contradiction.
  - eexists _, _, _. split; [reflexivity|]. intros _. split; [reflexivity|].
    exists (trace w1). reflexivity.
  - eexists _, _, _. split; [reflexivity|]. intros _. split; [reflexivity|].
    exists (trace w1). reflexivity.
  - eexists _, _, _. split; [reflexivity|]. intros _. split; [reflexivity|].
    exists (trace w1). reflexivity.
Qed.

(** * The run data file *)

Section RunData_theorems.
Context `{Codes} `{Platform} (env : Env).


Lemma UpdateStartedCallback_creates w :
  s_fUpdateThroughConfigFile w = true ->
  reply_rc env (trace w) (FileIO_Open_write TPM_FACTORY_UPD_RUNDATA_FILE) = 0 ->
  is_Some (files (CommandFlow_TpmUpdate_UpdateStartedCallback env w)
             !! TPM_FACTORY_UPD_RUNDATA_FILE) /\
  (forall path,
      PropertyStorage_GetValueByKey PROPERTY_FIRMWARE_PATH MAX_PATH (props w) = Some path ->
      reply_rc env (trace w ++ [FileIO_Open_write TPM_FACTORY_UPD_RUNDATA_FILE])
               (FileIO_WriteString TPM_FACTORY_UPD_RUNDATA_FILE path) = 0 ->
      files (CommandFlow_TpmUpdate_UpdateStartedCallback env w)
        !! TPM_FACTORY_UPD_RUNDATA_FILE = Some path).
Proof.
  intros E Ho. unfold CommandFlow_TpmUpdate_UpdateStartedCallback, FileIO_Open_write_.
  rewrite E, Ho. cbn [Z.eqb]. cbv beta iota. split.
  - destruct (PropertyStorage_GetValueByKey _ _ _) as [path|]; cbn.
    + unfold FileIO_WriteString_. destruct (reply_rc env _ _ =? 0); cbn;
        rewrite ?lookup_insert_eq; eauto.
    + rewrite lookup_insert_eq; eauto.
  - intros path Hp Hw. cbn [props set_files log] in *. rewrite Hp.
    unfold FileIO_WriteString_. cbn [trace set_files log files]. rewrite Hw.
    cbn. rewrite lookup_insert_eq, lookup_insert_eq. reflexivity.
Qed.


(** The callback removes nothing. *)
Lemma UpdateStartedCallback_trace w :
  exists t, trace (CommandFlow_TpmUpdate_UpdateStartedCallback env w) = trace w ++ t /\
            no_removal t = true.
Proof.
  unfold CommandFlow_TpmUpdate_UpdateStartedCallback, FileIO_Open_write_,
    FileIO_WriteString_.
  repeat flow_step; cbn [trace log set_files]; rewrite <- ?app_assoc;
    try (eexists; split; [reflexivity|reflexivity]).
  exists []. rewrite app_nil_r. split; reflexivity.
Qed.


Lemma progress_trace l w :
  trace (fold_left (fun w p => Response_ProgressCallback_ p w) l w)
  = trace w ++ map Response_ProgressCallback l.
Proof.
  revert w. induction l as [|p l IH]; intros w; cbn [fold_left map].
  - rewrite app_nil_r. reflexivity.
  - rewrite IH. cbn. rewrite <- app_assoc. reflexivity.
Qed.

Lemma progress_files l w :
  files (fold_left (fun w p => Response_ProgressCallback_ p w) l w) = files w.
Proof.
  revert w. induction l as [|p l IH]; intros w; cbn [fold_left]; [reflexivity|].
  rewrite IH. reflexivity.
Qed.


End RunData_theorems.




(** A dry run of the prepared TPM 2.0 update. *)
Lemma UpdateFirmware_dry_run_witness :
  let H := example_codes in
  let P := example_platform in
  exists u' w' t',
    CommandFlow_TpmUpdate_UpdateFirmware quiet_env (Some prepared_tpm20) dry_run_world
      = (Some (RC_SUCCESS, u'), w') /\
    unReturnCode u' = RC_SUCCESS /\
    trace w' = trace dry_run_world ++ t' /\
    progress_of t' = [25; 50; 75; 100] /\
    forallb (fun e => negb (sends_to_tpm e)) t' = true.
Proof.
  cbv zeta.
  apply (UpdateFirmware_dry_run (H := example_codes) (H0 := example_platform)).
  - reflexivity.
  - discriminate.
  - reflexivity.
Defined.

(** The chip fails the update of the prepared TPM 2.0: the session is
    flushed and the handle cleared. *)
Lemma UpdateFirmware_flushes_session_witness :
  let H := example_codes in
  let P := example_platform in
  let result := CommandFlow_TpmUpdate_UpdateFirmware interrupted_update_chip
                  (Some prepared_tpm20) direct_update_world in
  option_map (fun r => hPolicySession (snd r)) (fst result) = Some 0 /\
  exists t, trace (snd result) = t ++ [TSS_TPM2_FlushContext 0x03000000].
Proof.
  cbv zeta.
  assert (Hs : hPolicySession prepared_tpm20 <> 0) by discriminate.
  destruct (UpdateFirmware_flushes_session (H := example_codes) (H0 := example_platform)
              interrupted_update_chip prepared_tpm20 direct_update_world Hs)
    as (rv & u' & w' & E & Hflush).
  assert (Hrc : option_map (fun r => unReturnCode (snd r))
                  (fst (CommandFlow_TpmUpdate_UpdateFirmware (H := example_codes)
                          (H0 := example_platform) interrupted_update_chip
                          (Some prepared_tpm20) direct_update_world))
                = Some (@RC_E_TPM_FIRMWARE_UPDATE example_codes))
    by (vm_compute; reflexivity).
  rewrite E in *. cbn [fst snd option_map] in *.
  destruct Hflush as [Hh Ht].
  { right. injection Hrc as ->. discriminate. }
  rewrite Hh. split; [reflexivity|exact Ht].
Defined.

(** * Update driver: [CommandFlow_TpmUpdate_IsFirmwareUpdatable] *)

Section IsFirmwareUpdatable_theorems.
Context `{Codes} `{Platform} (env : Env).

(** With no update left the count check is the last thing that can happen:
    whatever the checks before it say, the block ends before the firmware
    path is read, with the world as it was and the image untouched. *)
Lemma IsFirmwareUpdatable_block_exhausted u w :
  unRemainingUpdates u = 0 ->
  exists rv u',
    run_block (CommandFlow_TpmUpdate_IsFirmwareUpdatable_block env) (u, w) = (rv, (u', w)) /\
    rgbFirmwareImage u' = rgbFirmwareImage u /\
    unFirmwareImageSize u' = unFirmwareImageSize u /\
    fValid u' = fValid u.
Proof.
  intros Hz.
  unfold CommandFlow_TpmUpdate_IsFirmwareUpdatable_block, check_updatable, refuse.
  unfold getsU, getsW, modifyU, modifyW, liftW. block_unfold. cbn [fst snd].
  destruct (negb (structure_ok u)); cbv beta iota; [eexists _, _; repeat split|].
  cbn [fst snd props].
  destruct (PropertyStorage_GetUIntegerValueByKey _ _) as [t|]; cbv beta iota;
    [|eexists _, _; repeat split].
  cbn [fst snd sTpmState unRemainingUpdates set_unReturnCode set_unNewFirmwareValid
       set_unSubType].
  rewrite Hz. cbn [Z.eqb].
  destruct (tpm12 (sTpmState u)); cbv beta iota;
    [destruct (negb (UPDATE_TYPE_TPM12_DEFERREDPP =? t) &&
               negb (UPDATE_TYPE_TPM12_TAKEOWNERSHIP =? t)); cbv beta iota;
     [eexists _, _; repeat split|];
     destruct (tpm12owner (sTpmState u)); cbv beta iota; [eexists _, _; repeat split|]|];
    (destruct (tpm20 (sTpmState u) && negb (UPDATE_TYPE_TPM20_EMPTYPLATFORMAUTH =? t));
       cbv beta iota; [eexists _, _; repeat split|];
     destruct (tpm20restartRequired (sTpmState u)); cbv beta iota;
       [eexists _, _; repeat split|];
     destruct (tpm20InFailureMode (sTpmState u)); cbv beta iota;
       eexists _, _; repeat split).
Qed.

(** When no check before the count check fires, the count check does. *)
Lemma IsFirmwareUpdatable_block_blocked u w t :
  structure_ok u = true ->
  PropertyStorage_GetUIntegerValueByKey PROPERTY_UPDATE_TYPE (props w) = Some t ->
  (tpm12 (sTpmState u) = true ->
   ((UPDATE_TYPE_TPM12_DEFERREDPP =? t) || (UPDATE_TYPE_TPM12_TAKEOWNERSHIP =? t)) = true /\
   tpm12owner (sTpmState u) = false) ->
  (tpm20 (sTpmState u) = true -> (UPDATE_TYPE_TPM20_EMPTYPLATFORMAUTH =? t) = true) ->
  tpm20restartRequired (sTpmState u) = false ->
  tpm20InFailureMode (sTpmState u) = false ->
  unRemainingUpdates u = 0 ->
  run_block (CommandFlow_TpmUpdate_IsFirmwareUpdatable_block env) (u, w)
  = (RC_SUCCESS,
     (set_unReturnCode RC_E_FW_UPDATE_BLOCKED
        (set_unReturnCode RC_E_FAIL
           (set_unNewFirmwareValid GENERIC_TRISTATE_STATE_NA
              (set_unSubType STRUCT_SUBTYPE_IS_UPDATABLE u))), w)).
Proof.
  intros Hok Ht H12 H20 Hr Hf Hz.
  unfold CommandFlow_TpmUpdate_IsFirmwareUpdatable_block, check_updatable, refuse.
  unfold getsU, getsW, modifyU, modifyW, liftW. block_unfold. cbn [fst snd].
  rewrite Hok. cbn [negb]. cbv beta iota. cbn [fst snd props]. rewrite Ht.
  cbv beta iota.
  cbn [fst snd sTpmState unRemainingUpdates set_unReturnCode set_unNewFirmwareValid
       set_unSubType].
  rewrite Hz, Hr, Hf. cbn [Z.eqb].
  destruct (tpm12 (sTpmState u)) eqn:E12; cbv beta iota.
  - destruct (H12 eq_refl) as [Hty Hown]. rewrite Hown.
    apply orb_true_iff in Hty.
    assert (Hn : negb (UPDATE_TYPE_TPM12_DEFERREDPP =? t) &&
                 negb (UPDATE_TYPE_TPM12_TAKEOWNERSHIP =? t) = false)
      by (destruct Hty as [-> | ->]; cbn; rewrite ?andb_false_r; reflexivity).
    rewrite Hn. cbv beta iota.
    destruct (tpm20 (sTpmState u)) eqn:E20; cbn [andb]; cbv beta iota;
      [rewrite (H20 eq_refl); cbn [negb]; cbv beta iota|]; reflexivity.
  - destruct (tpm20 (sTpmState u)) eqn:E20; cbn [andb]; cbv beta iota;
      [rewrite (H20 eq_refl); cbn [negb]; cbv beta iota|]; reflexivity.
Qed.
End IsFirmwareUpdatable_theorems.

(** C7, as stated, fails when a check that comes before the count check
    fires.  An owned TPM 1.2 with no update left, asked for [-update
    tpm12-PP]: the inner return code is [RC_E_TPM12_OWNED], not
    [RC_E_FW_UPDATE_BLOCKED]. *)
Lemma IsFirmwareUpdatable_counterexample :
  let H := example_codes in
  let P := example_platform in
  let result := CommandFlow_TpmUpdate_IsFirmwareUpdatable quiet_env
                  (Some exhausted_owned_tpm12) tpm12_update_world in
  unRemainingUpdates exhausted_owned_tpm12 = 0 /\
  fst result = RC_SUCCESS /\
  option_map unReturnCode (fst (snd result)) = Some RC_E_TPM12_OWNED /\
  RC_E_TPM12_OWNED <> RC_E_FW_UPDATE_BLOCKED.
Proof. cbv zeta. repeat split; try discriminate; vm_compute; reflexivity. Qed.

(** C7 (amended).  For every probed state in which no update is left,
    [CommandFlow_TpmUpdate_IsFirmwareUpdatable] stops before the firmware
    image is loaded or checked: no collaborator is called, the world and the
    image in the structure stay as they were.  When the structure is accepted,
    the update type can be read and none of the earlier checks fires (update
    type against chip family, TPM 1.2 owner, restart required, failure mode),
    it reports [RC_E_FW_UPDATE_BLOCKED] as the inner return code and returns
    success. *)
Theorem IsFirmwareUpdatable_exhausted `{Codes} `{Platform} (env : Env)
    (u : IfxUpdate) (w : World) :
  unRemainingUpdates u = 0 ->
  (exists rv u',
      CommandFlow_TpmUpdate_IsFirmwareUpdatable env (Some u) w = (rv, (Some u', w)) /\
      rgbFirmwareImage u' = rgbFirmwareImage u /\
      unFirmwareImageSize u' = unFirmwareImageSize u /\
      fValid u' = fValid u) /\
  (forall t,
      structure_ok u = true ->
      PropertyStorage_GetUIntegerValueByKey PROPERTY_UPDATE_TYPE (props w) = Some t ->
      (tpm12 (sTpmState u) = true ->
       ((UPDATE_TYPE_TPM12_DEFERREDPP =? t) || (UPDATE_TYPE_TPM12_TAKEOWNERSHIP =? t)) = true /\
       tpm12owner (sTpmState u) = false) ->
      (tpm20 (sTpmState u) = true -> (UPDATE_TYPE_TPM20_EMPTYPLATFORMAUTH =? t) = true) ->
      tpm20restartRequired (sTpmState u) = false ->
      tpm20InFailureMode (sTpmState u) = false ->
      exists u',
        CommandFlow_TpmUpdate_IsFirmwareUpdatable env (Some u) w
          = (RC_SUCCESS, (Some u', w)) /\
        unReturnCode u' = RC_E_FW_UPDATE_BLOCKED).
Proof.
  intros Hz. split.
  - destruct (IsFirmwareUpdatable_block_exhausted env u w Hz) as (rv & u' & E & Hi).
    exists rv, u'. unfold CommandFlow_TpmUpdate_IsFirmwareUpdatable. rewrite E.
    split; [reflexivity|exact Hi].
  - intros t Hok Ht H12 H20 Hr Hf.
    unfold CommandFlow_TpmUpdate_IsFirmwareUpdatable.
    rewrite (IsFirmwareUpdatable_block_blocked env u w t Hok Ht H12 H20 Hr Hf Hz).
    eexists. split; reflexivity.
Qed.

(** A TPM 2.0 with no update left, asked for [-update
    tpm20-emptyplatformauth]: blocked, nothing read. *)
Lemma IsFirmwareUpdatable_exhausted_witness :
  let H := example_codes in
  let P := example_platform in
  exists u',
    CommandFlow_TpmUpdate_IsFirmwareUpdatable quiet_env (Some exhausted_tpm20)
      direct_update_world = (RC_SUCCESS, (Some u', direct_update_world)) /\
    unReturnCode u' = RC_E_FW_UPDATE_BLOCKED.
Proof.
  cbv zeta.
  destruct (IsFirmwareUpdatable_exhausted (H := example_codes) (H0 := example_platform)
              quiet_env exhausted_tpm20 direct_update_world eq_refl) as [_ Hb].
  apply (Hb (@UPDATE_TYPE_TPM20_EMPTYPLATFORMAUTH example_codes));
    try reflexivity; discriminate.
Defined.

(** * Update driver: the config file flow *)

Section ProceedUpdateConfig_theorems.
Context `{Codes} `{Platform} (env : Env).

(** Up to the case distinction on the boot loader mode. *)
Lemma ProceedUpdateConfig_parsed u w w2 :
  config_parsed env u w w2 ->
  exists wszConfigFilePath,
    run_block (CommandFlow_TpmUpdate_ProceedUpdateConfig_block env) (u, w)
    = run_block
        ((if negb (bootLoader (sTpmState u))
          then select_firmware_image wszConfigFilePath
          else resume_firmware_image env);;
         modifyU (set_unReturnCode RC_SUCCESS);;
         mret RC_SUCCESS)
        (started_update u, w2).
Proof.
  intros (Hok & cfg & Hcfg & [content Hex] & Hparse). exists cfg.
  unfold CommandFlow_TpmUpdate_ProceedUpdateConfig_block, started_update.
  unfold getsU, getsW, modifyU, modifyW, liftW, FileIO_Exists_. block_unfold.
  flow_rw. cbn [RC_SUCCESS Z.eqb negb]. flow_rw. reflexivity.
Qed.

(** The chip is up to date. *)
Lemma select_firmware_image_up_to_date cfg u w key :
  target_version_property (wszVersionName u) = Some key ->
  PropertyStorage_GetValueByKey key MAX_NAME (props w) = Some (wszVersionName u) ->
  Platform_StringCompare (wszVersionName u) (wszVersionName u) MAX_NAME false = 0 ->
  forall u0, wszVersionName u0 = wszVersionName u ->
  select_firmware_image cfg (u0, w)
  = Break RC_SUCCESS
      (set_unReturnCode RC_E_ALREADY_UP_TO_DATE
         (set_unNewFirmwareValid GENERIC_TRISTATE_STATE_NO u0), w).
Proof.
  intros Hkey Hget Hcmp u0 Hv. unfold target_version_property in Hkey.
  unfold select_firmware_image.
  unfold getsU, getsW, modifyU, modifyW, liftW. block_unfold. cbn [fst snd].
  rewrite Hv.
  destruct (version_prefix (wszVersionName u) "6" "7").
  - injection Hkey as <-. cbv beta iota. cbn [fst snd]. rewrite Hget. cbv beta iota.
    rewrite Hcmp. reflexivity.
  - destruct (version_prefix (wszVersionName u) "4" "5"); [|discriminate].
    injection Hkey as <-. cbv beta iota. cbn [fst snd]. rewrite Hget. cbv beta iota.
    rewrite Hcmp. reflexivity.
Qed.
End ProceedUpdateConfig_theorems.

(** C6.  In the config file flow on a chip that is not in boot loader mode,
    when the version of the chip equals the target version the config file
    has for it (the SPI one for a 6.x or 7.x chip, the LPC one for a 4.x or
    5.x chip), the flow returns success with the inner return code
    [RC_E_ALREADY_UP_TO_DATE] and new-firmware-valid No; it ends where the
    parser left the world, so no image path is composed, looked up on disk
    or stored, and the structure's image name stays as it was. *)
Theorem ProceedUpdateConfig_already_up_to_date `{Codes} `{Platform} (env : Env)
    (u : IfxUpdate) (w w2 : World) (key : string) :
  config_parsed env u w w2 ->
  bootLoader (sTpmState u) = false ->
  target_version_property (wszVersionName u) = Some key ->
  PropertyStorage_GetValueByKey key MAX_NAME (props w2) = Some (wszVersionName u) ->
  Platform_StringCompare (wszVersionName u) (wszVersionName u) MAX_NAME false = 0 ->
  exists u',
    CommandFlow_TpmUpdate_ProceedUpdateConfig env (Some u) w = (RC_SUCCESS, (Some u', w2)) /\
    unReturnCode u' = RC_E_ALREADY_UP_TO_DATE /\
    unNewFirmwareValid u' = GENERIC_TRISTATE_STATE_NO /\
    wszUsedFirmwareImage u' = wszUsedFirmwareImage u /\
    rgbFirmwareImage u' = rgbFirmwareImage u.
Proof.
  intros Hparsed Hboot Hkey Hget Hcmp.
  destruct (ProceedUpdateConfig_parsed env u w w2 Hparsed) as (cfg & E).
  unfold CommandFlow_TpmUpdate_ProceedUpdateConfig. rewrite E. rewrite Hboot.
  cbn [negb]. block_unfold.
  rewrite (select_firmware_image_up_to_date cfg u w2 key Hkey Hget Hcmp
             (started_update u) eq_refl).
  eexists. split; [reflexivity|]. repeat split.
Qed.


Lemma ProceedUpdateConfig_already_up_to_date_witness :
  let H := example_codes in
  let P := example_platform in
  exists u' w2,
    CommandFlow_TpmUpdate_ProceedUpdateConfig quiet_env (Some up_to_date_tpm20)
      config_option_world = (RC_SUCCESS, (Some u', w2)) /\
    unReturnCode u' = RC_E_ALREADY_UP_TO_DATE /\
    unNewFirmwareValid u' = GENERIC_TRISTATE_STATE_NO /\
    wszUsedFirmwareImage u' = EmptyString /\
    props w2 !! PROPERTY_FIRMWARE_PATH = None /\
    trace w2 = [FileIO_Exists "TPMFactoryUpd.cfg";
                FileIO_ReadFileToStringBuffer "TPMFactoryUpd.cfg"].
Proof.
  cbv zeta.
  pose (w2 := snd (@Config_ParseCustom example_codes example_platform quiet_env
                     "TPMFactoryUpd.cfg"
                     (log (FileIO_Exists "TPMFactoryUpd.cfg") config_option_world))).
  destruct (ProceedUpdateConfig_already_up_to_date (H := example_codes)
              (H0 := example_platform) quiet_env up_to_date_tpm20 config_option_world w2
              "ConfigTargetFirmwareVersionSPI") as (u' & E & Hrc & Hv & Hi & _).
  - split; [reflexivity|]. exists "TPMFactoryUpd.cfg".
    split; [vm_compute; reflexivity|]. split; [vm_compute; eauto|].
    vm_compute. reflexivity.
  - reflexivity.
  - reflexivity.
  - vm_compute. reflexivity.
  - vm_compute. reflexivity.
  - exists u', w2. split; [exact E|]. split; [exact Hrc|]. split; [exact Hv|].
    split; [exact Hi|]. split; vm_compute; reflexivity.
Defined.

Section Resume_lemmas.
Context `{Codes} `{Platform} (env : Env).

(** The branch for a chip in boot loader mode, as one case distinction. *)
Lemma resume_firmware_image_cases u0 w2 :
  let w3 := log (FileIO_Exists TPM_FACTORY_UPD_RUNDATA_FILE) w2 in
  let e := FileIO_ReadFileToStringBuffer TPM_FACTORY_UPD_RUNDATA_FILE in
  let w4 := log e w3 in
  resume_firmware_image env (u0, w2)
  = match files w2 !! TPM_FACTORY_UPD_RUNDATA_FILE with
    | None => Break RC_E_RESUME_RUNDATA_NOT_FOUND (u0, w3)
    | Some content =>
      if negb (reply_rc env (trace w3) e =? RC_SUCCESS) then Break RC_E_FAIL (u0, w4)
      else
        let '(rc, line) := Utility_StringGetLine content (reply_uint env (trace w3) e) 0 in
        if negb (rc =? RC_SUCCESS)
        then Break (if RC_E_END_OF_STRING =? rc then RC_SUCCESS else rc) (u0, w4)
        else match PropertyStorage_AddKeyValuePair PROPERTY_FIRMWARE_PATH line (props w2) with
             | None => Break RC_E_FAIL (u0, w4)
             | Some ps => Next tt (u0, set_props ps w4)
             end
    end.
Proof.
  intros w3 e w4. subst w3 e w4.
  unfold resume_firmware_image, liftW, FileIO_Exists_, getsW, modifyW,
    FileIO_ReadFileToStringBuffer_. block_unfold.
  cbn [fst snd].
  destruct (files w2 !! TPM_FACTORY_UPD_RUNDATA_FILE) as [content|] eqn:E; [|reflexivity].
  cbv beta iota. cbn [fst snd files log].
  rewrite E. cbn [default from_option].
  destruct (negb (_ =? RC_SUCCESS)); [reflexivity|]. cbv beta iota.
  destruct (Utility_StringGetLine _ _ _) as [rc line].
  destruct (negb (rc =? RC_SUCCESS)).
  - destruct (RC_E_END_OF_STRING =? rc); reflexivity.
  - cbv beta iota. cbn [fst snd props log].
    destruct (PropertyStorage_AddKeyValuePair _ _ _); reflexivity.
Qed.
End Resume_lemmas.

(** C5, as stated, fails for a run data file that is present but cannot be
    read, and for one that is empty.  In the first case the flow fails with
    [RC_E_FAIL]; in the second it returns success while the inner return
    code stays [RC_E_FAIL] and no image path is stored. *)
Lemma ProceedUpdateConfig_resume_counterexample :
  let H := example_codes in
  let P := example_platform in
  let unreadable := CommandFlow_TpmUpdate_ProceedUpdateConfig unreadable_rundata_env
                      (Some interrupted_tpm) resume_world in
  let empty := CommandFlow_TpmUpdate_ProceedUpdateConfig quiet_env
                 (Some interrupted_tpm) empty_rundata_world in
  bootLoader (sTpmState interrupted_tpm) = true /\
  is_Some (files resume_world !! TPM_FACTORY_UPD_RUNDATA_FILE) /\
  fst unreadable = RC_E_FAIL /\
  RC_E_FAIL <> RC_SUCCESS /\
  props (snd (snd unreadable)) !! PROPERTY_FIRMWARE_PATH = None /\
  is_Some (files empty_rundata_world !! TPM_FACTORY_UPD_RUNDATA_FILE) /\
  fst empty = RC_SUCCESS /\
  option_map unReturnCode (fst (snd empty)) = Some RC_E_FAIL /\
  props (snd (snd empty)) !! PROPERTY_FIRMWARE_PATH = None.
Proof.
  cbv zeta. repeat split; try discriminate; try (vm_compute; eauto; fail).
Qed.

(** C5 (amended).  The config file flow on a chip in boot loader mode, once
    the structure is accepted and the config file is found and parsed.  The
    flow fails with [RC_E_RESUME_RUNDATA_NOT_FOUND] if and only if the run
    data file is absent (the code being none of success, [RC_E_FAIL] and
    what [Utility_StringGetLine] returns for the file).  If the file is
    present, can be read and has a first line, and no image path is set yet,
    the flow returns success with inner return code success, stores that
    line as the image path and does nothing else: the version selection of
    the config file is skipped (the structure's image name and
    new-firmware-valid stay as they were set at the start, nothing but the
    run data file is looked up).  The other ends with the file present: if
    it cannot be read, or the image path property is set already, the flow
    fails with [RC_E_FAIL]; if getting the line fails the flow fails with
    that error, except for the end of string (an empty file), on which it
    returns success with the inner return code [RC_E_FAIL]; none of them
    stores a path. *)
Theorem ProceedUpdateConfig_boot_loader `{Codes} `{Platform} (env : Env)
    (u : IfxUpdate) (w w2 : World) :
  config_parsed env u w w2 ->
  bootLoader (sTpmState u) = true ->
  let w3 := log (FileIO_Exists TPM_FACTORY_UPD_RUNDATA_FILE) w2 in
  let e := FileIO_ReadFileToStringBuffer TPM_FACTORY_UPD_RUNDATA_FILE in
  let result := CommandFlow_TpmUpdate_ProceedUpdateConfig env (Some u) w in
  (files w2 !! TPM_FACTORY_UPD_RUNDATA_FILE = None ->
   result = (RC_E_RESUME_RUNDATA_NOT_FOUND, (Some (started_update u), w3))) /\
  (forall content,
     files w2 !! TPM_FACTORY_UPD_RUNDATA_FILE = Some content ->
     (reply_rc env (trace w3) e <> RC_SUCCESS ->
      result = (RC_E_FAIL, (Some (started_update u), log e w3))) /\
     (reply_rc env (trace w3) e = RC_SUCCESS ->
      forall rc line,
        Utility_StringGetLine content (reply_uint env (trace w3) e) 0 = (rc, line) ->
        (rc = RC_SUCCESS ->
         props w2 !! PROPERTY_FIRMWARE_PATH = None ->
         result = (RC_SUCCESS,
                   (Some (set_unReturnCode RC_SUCCESS (started_update u)),
                    set_props (<[PROPERTY_FIRMWARE_PATH := PString line]> (props w2))
                              (log e w3)))) /\
        (rc = RC_SUCCESS ->
         is_Some (props w2 !! PROPERTY_FIRMWARE_PATH) ->
         result = (RC_E_FAIL, (Some (started_update u), log e w3))) /\
        (rc = RC_E_END_OF_STRING -> rc <> RC_SUCCESS ->
         result = (RC_SUCCESS, (Some (started_update u), log e w3))) /\
        (rc <> RC_E_END_OF_STRING -> rc <> RC_SUCCESS ->
         result = (rc, (Some (started_update u), log e w3))))) /\
  (RC_E_RESUME_RUNDATA_NOT_FOUND <> RC_SUCCESS ->
   RC_E_RESUME_RUNDATA_NOT_FOUND <> RC_E_FAIL ->
   (forall content,
      files w2 !! TPM_FACTORY_UPD_RUNDATA_FILE = Some content ->
      fst (Utility_StringGetLine content (reply_uint env (trace w3) e) 0)
        <> RC_E_RESUME_RUNDATA_NOT_FOUND) ->
   (fst result = RC_E_RESUME_RUNDATA_NOT_FOUND <->
    files w2 !! TPM_FACTORY_UPD_RUNDATA_FILE = None)).
Proof.
  intros Hparsed Hboot w3 e result.
  destruct (ProceedUpdateConfig_parsed env u w w2 Hparsed) as (cfg & E).
  assert (Hres : result
     = let '(rc, (u', w')) :=
         run_block (resume_firmware_image env;; modifyU (set_unReturnCode RC_SUCCESS);;
                    mret RC_SUCCESS) (started_update u, w2) in
       (rc, (Some u', w'))).
  { subst result. unfold CommandFlow_TpmUpdate_ProceedUpdateConfig. rewrite E, Hboot.
    reflexivity. }
  clear E. revert Hres. block_unfold. unfold modifyU. block_unfold.
  rewrite resume_firmware_image_cases. fold w3 e. intros Hres.
  split; [|split].
  - intros Ha. rewrite Ha in Hres. exact Hres.
  - intros content Hc. rewrite Hc in Hres. split.
    + intros Hr. apply Z.eqb_neq in Hr. rewrite Hr in Hres. exact Hres.
    + intros Hr rc line Hl. rewrite Hr, Z.eqb_refl, Hl in Hres. cbn [negb] in Hres.
      repeat apply conj.
      * intros -> Hp. rewrite Z.eqb_refl in Hres. cbn [negb] in Hres.
        unfold PropertyStorage_AddKeyValuePair in Hres. rewrite Hp in Hres. exact Hres.
      * intros -> Hp. destruct Hp as [v Hp]. rewrite Z.eqb_refl in Hres. cbn [negb] in Hres.
        unfold PropertyStorage_AddKeyValuePair in Hres. rewrite Hp in Hres. exact Hres.
      * intros -> Hn. apply Z.eqb_neq in Hn. rewrite Hn, Z.eqb_refl in Hres. exact Hres.
      * intros He Hn. apply Z.eqb_neq in Hn. rewrite Hn in Hres. cbn [negb] in Hres.
        assert (He' : (RC_E_END_OF_STRING =? rc) = false) by (apply Z.eqb_neq; congruence).
        rewrite He' in Hres. exact Hres.
  - intros Hs Hf Hline. split.
    + intros Hrv.
      destruct (files w2 !! TPM_FACTORY_UPD_RUNDATA_FILE) as [content|] eqn:Hc;
        [exfalso|reflexivity].
      specialize (Hline content eq_refl).
      destruct (negb (reply_rc env (trace w3) e =? RC_SUCCESS)).
      { rewrite Hres in Hrv. cbn [fst] in Hrv. congruence. }
      destruct (Utility_StringGetLine content (reply_uint env (trace w3) e) 0)
        as [rc line].
      cbn [fst] in Hline.
      destruct (negb (rc =? RC_SUCCESS)).
      { destruct (RC_E_END_OF_STRING =? rc); rewrite Hres in Hrv; cbn [fst] in Hrv;
          congruence. }
      destruct (PropertyStorage_AddKeyValuePair _ _ _); rewrite Hres in Hrv;
        cbn [fst] in Hrv; congruence.
    + intros Ha. rewrite Ha in Hres. rewrite Hres. reflexivity.
Qed.

(** The run data of the example names the image: the flow succeeds and the
    image path is the line of the file. *)
Lemma ProceedUpdateConfig_boot_loader_witness :
  let H := example_codes in
  let P := example_platform in
  exists u' w',
    CommandFlow_TpmUpdate_ProceedUpdateConfig quiet_env (Some interrupted_tpm) resume_world
      = (RC_SUCCESS, (Some u', w')) /\
    unReturnCode u' = RC_SUCCESS /\
    PropertyStorage_GetValueByKey PROPERTY_FIRMWARE_PATH MAX_STRING_1024 (props w')
      = Some "Firmware/TPM20_7.62.3126.0_to_TPM20_7.85.4555.0.BIN".
Proof.
  cbv zeta.
  pose (w2 := snd (@Config_ParseCustom example_codes example_platform quiet_env
                     "TPMFactoryUpd.cfg"
                     (log (FileIO_Exists "TPMFactoryUpd.cfg") resume_world))).
  destruct (ProceedUpdateConfig_boot_loader (H := example_codes)
              (H0 := example_platform) quiet_env interrupted_tpm resume_world w2)
    as (_ & Hpresent & _).
  - split; [reflexivity|]. exists "TPMFactoryUpd.cfg".
    split; [vm_compute; reflexivity|]. split; [vm_compute; eauto|].
    vm_compute. reflexivity.
  - reflexivity.
  - destruct (Hpresent "Firmware/TPM20_7.62.3126.0_to_TPM20_7.85.4555.0.BIN")
      as [_ Hread]; [vm_compute; reflexivity|].
    destruct (Hread eq_refl 0 "Firmware/TPM20_7.62.3126.0_to_TPM20_7.85.4555.0.BIN")
      as [Hline _]; [vm_compute; reflexivity|].
    eexists _, _. split; [apply Hline; [reflexivity|vm_compute; reflexivity]|].
    split; vm_compute; reflexivity.
Defined.

(** * The parser of the config file *)

Section Parse_theorems.
Context `{Codes} `{Platform}.

Lemma adds_properties_refl keys w : adds_properties keys w w.
Proof. repeat split; auto. Qed.

Lemma adds_properties_trans keys w1 w2 w3 :
  adds_properties keys w1 w2 -> adds_properties keys w2 w3 -> adds_properties keys w1 w3.
Proof.
  intros (P1 & F1 & C1 & S1 & T1) (P2 & F2 & C2 & S2 & T2).
  repeat split; try congruence. intros key.
  destruct (P1 key) as [E1|[E1 I1]], (P2 key) as [E2|[E2 I2]]; try (left; congruence).
  - right. split; [congruence|assumption].
  - right. split; assumption.
  - right. split; assumption.
Qed.

Lemma block_adds_bind keys {A B} (b : Block World A) (k : A -> Block World B) :
  block_adds_properties keys b -> (forall a, block_adds_properties keys (k a)) ->
  block_adds_properties keys (b ≫= k).
Proof.
  intros Hb Hk w. block_unfold. specialize (Hb w).
  destruct (b w) as [a w1|rc w1]; [|exact Hb].
  specialize (Hk a w1). destruct (k a w1); eapply adds_properties_trans; eassumption.
Qed.

Lemma block_adds_ret keys {A} (a : A) : block_adds_properties keys (mret a).
Proof. intros w. apply adds_properties_refl. Qed.

Lemma block_adds_break keys {A} rc : block_adds_properties keys (break (A := A) rc).
Proof. intros w. apply adds_properties_refl. Qed.

Lemma block_adds_break_if keys c rc : block_adds_properties keys (break_if c rc).
Proof. intros w. destruct c; apply adds_properties_refl. Qed.

Lemma block_adds_uint keys key value rc :
  key ∈ keys -> block_adds_properties keys (add_uint_or_break key value rc).
Proof.
  intros Hin w. unfold add_uint_or_break, PropertyStorage_AddKeyUIntegerValuePair.
  block_unfold.
  destruct (props w !! key) eqn:E; [apply adds_properties_refl|].
  repeat split. intros key'. cbn.
  destruct (decide (key = key')) as [<-|Hne]; [right; auto|].
  left. apply lookup_insert_ne. exact Hne.
Qed.

Lemma block_adds_string keys key value rc :
  key ∈ keys -> block_adds_properties keys (add_string_or_break key value rc).
Proof.
  intros Hin w. unfold add_string_or_break, PropertyStorage_AddKeyValuePair.
  block_unfold.
  destruct (props w !! key) eqn:E; [apply adds_properties_refl|].
  repeat split. intros key'. cbn.
  destruct (decide (key = key')) as [<-|Hne]; [right; auto|].
  left. apply lookup_insert_ne. exact Hne.
Qed.

End Parse_theorems.

Ltac adds_tac :=
  repeat first
    [ apply block_adds_uint; unfold config_file_properties; set_solver
    | apply block_adds_string; unfold config_file_properties; set_solver
    | apply block_adds_break_if
    | apply block_adds_break
    | apply block_adds_ret
    | apply block_adds_bind; [|intros ?]
    | match goal with |- block_adds_properties _ (if ?c then _ else _) => destruct c end ].


(** X1.  Whatever it is given and whatever it returns,
    [CommandFlow_TpmUpdate_Parse] only adds to the property storage: no
    property is removed or changed, a property it adds is one of the five
    config file properties, and files, flags and trace stay as they were. *)
Theorem Parse_only_adds_properties `{Codes} `{Platform}
    (PwszSection : string) (PunSectionSize : Z) (PwszKey : string) (PunKeySize : Z)
    (PwszValue : string) (PunValueSize : Z) (w : World) :
  adds_properties config_file_properties w
    (snd (CommandFlow_TpmUpdate_Parse PwszSection PunSectionSize PwszKey PunKeySize
            PwszValue PunValueSize w)).
Proof.
  unfold CommandFlow_TpmUpdate_Parse, run_block.
  match goal with |- context [match ?b w with _ => _ end] =>
    assert (G : block_adds_properties config_file_properties b) end.
  { adds_tac. }
  specialize (G w).
  match goal with |- context [match ?b w with _ => _ end] => destruct (b w) end; exact G.
Qed.

(** X2.  A setting that made the parser store something is refused when it
    is given again: the second call returns [RC_E_FAIL] and stores nothing.
    (The section is taken not to compare equal to both [TargetFirmware] and
    [FirmwareFolder].) *)
Theorem Parse_refuses_duplicate `{Codes} `{Platform}
    (PwszSection : string) (PunSectionSize : Z) (PwszKey : string) (PunKeySize : Z)
    (PwszValue : string) (PunValueSize : Z) (w : World) :
  let first := CommandFlow_TpmUpdate_Parse PwszSection PunSectionSize PwszKey PunKeySize
                 PwszValue PunValueSize w in
  props (snd first) <> props w ->
  same_setting PwszSection CONFIG_SECTION_TARGET_FIRMWARE PunSectionSize &&
    same_setting PwszSection CONFIG_SECTION_FIRMWARE_FOLDER PunSectionSize = false ->
  CommandFlow_TpmUpdate_Parse PwszSection PunSectionSize PwszKey PunKeySize
    PwszValue PunValueSize (snd first) = (RC_E_FAIL, snd first).
Proof.
  intros first Hne Hsec.
  destruct first as [rc w'] eqn:E. subst first. cbn [snd] in *. revert E Hne Hsec.
  unfold CommandFlow_TpmUpdate_Parse, add_uint_or_break, add_string_or_break,
    PropertyStorage_AddKeyUIntegerValuePair, PropertyStorage_AddKeyValuePair.
  block_unfold. intros E Hne Hsec.
  repeat (flow_step_in E; cbn [props set_props] in E);
    assert (Hw := f_equal snd E); cbn [snd] in Hw; clear E; subst w'; try congruence;
    cbn [props set_props] in *.
  all: flow_rw; cbn [props set_props].
  all: repeat match goal with
       | |- context [?M !! ?K] =>
           let Hs := fresh in
           assert (Hs : is_Some (M !! K)) by (rewrite ?lookup_insert_is_Some'; auto);
           destruct Hs as [? ->]
       end; flow_rw.
  all: try reflexivity.
  discriminate Hsec.
Qed.

(** The SPI target version stored once, and refused the second time. *)
Lemma Parse_refuses_duplicate_witness :
  let H := example_codes in
  let P := example_platform in
  let first := CommandFlow_TpmUpdate_Parse "TargetFirmware" 15 "version_SLB9670" 16
                 "7.85.4555.0" 12 fresh_world in
  fst first = RC_SUCCESS /\
  props (snd first) !! PROPERTY_CONFIG_TARGET_FIRMWARE_VERSION_SPI
    = Some (PString "7.85.4555.0") /\
  CommandFlow_TpmUpdate_Parse "TargetFirmware" 15 "version_SLB9670" 16
    "7.85.4555.0" 12 (snd first) = (RC_E_FAIL, snd first).
Proof.
  cbv zeta. split; [vm_compute; reflexivity|]. split; [vm_compute; reflexivity|].
  apply (Parse_refuses_duplicate (H := example_codes) (H0 := example_platform)
           "TargetFirmware" 15 "version_SLB9670" 16 "7.85.4555.0" 12 fresh_world).
  - intros Heq.
    assert (Hl := f_equal (fun m : gmap string PropValue =>
                             m !! "ConfigTargetFirmwareVersionSPI") Heq).
    vm_compute in Hl. discriminate Hl.
  - vm_compute. reflexivity.
Defined.



(** X4.  What the parser does not know, it ignores: a setting whose section
    and key are no pair it stores ends with success and leaves everything
    as it was. *)
Theorem Parse_ignores_unknown `{Codes} `{Platform}
    (PwszSection : string) (PunSectionSize : Z) (PwszKey : string) (PunKeySize : Z)
    (PwszValue : string) (PunValueSize : Z) (w : World) :
  arguments_given PwszSection PunSectionSize PwszKey PunKeySize PwszValue PunValueSize
    = true ->
  same_setting PwszSection CONFIG_SECTION_UPDATE_TYPE PunSectionSize &&
    (same_setting PwszKey CONFIG_UPDATE_TYPE_TPM12 PunKeySize ||
     same_setting PwszKey CONFIG_UPDATE_TYPE_TPM20 PunKeySize) = false ->
  same_setting PwszSection CONFIG_SECTION_TARGET_FIRMWARE PunSectionSize &&
    (same_setting PwszKey CONFIG_TARGET_FIRMWARE_VERSION_LPC PunKeySize ||
     same_setting PwszKey CONFIG_TARGET_FIRMWARE_VERSION_SPI PunKeySize) = false ->
  same_setting PwszSection CONFIG_SECTION_FIRMWARE_FOLDER PunSectionSize &&
    same_setting PwszKey CONFIG_FIRMWARE_FOLDER_PATH PunKeySize = false ->
  CommandFlow_TpmUpdate_Parse PwszSection PunSectionSize PwszKey PunKeySize
    PwszValue PunValueSize w = (RC_SUCCESS, w).
Proof.
  unfold arguments_given, CommandFlow_TpmUpdate_Parse. block_unfold.
  intros Ha H1 H2 H3. apply negb_true_iff in Ha. rewrite Ha.
  destruct (same_setting PwszSection CONFIG_SECTION_UPDATE_TYPE PunSectionSize).
  - apply orb_false_iff in H1 as [-> ->]. reflexivity.
  - destruct (same_setting PwszSection CONFIG_SECTION_TARGET_FIRMWARE PunSectionSize).
    + apply orb_false_iff in H2 as [-> ->].
      destruct (same_setting PwszSection CONFIG_SECTION_FIRMWARE_FOLDER PunSectionSize).
      * cbn [andb] in H3. rewrite H3. reflexivity.
      * reflexivity.
    + destruct (same_setting PwszSection CONFIG_SECTION_FIRMWARE_FOLDER PunSectionSize).
      * cbn [andb] in H3. rewrite H3. reflexivity.
      * reflexivity.
Qed.

(** A comment-like setting of a section the tool does not know. *)
Lemma Parse_ignores_unknown_witness :
  let H := example_codes in
  let P := example_platform in
  CommandFlow_TpmUpdate_Parse "Logging" 8 "level" 6 "4" 2 config_option_world
    = (RC_SUCCESS, config_option_world).
Proof.
  cbv zeta.
  apply (Parse_ignores_unknown (H := example_codes) (H0 := example_platform));
    vm_compute; reflexivity.
Defined.

(** X5.  [CommandFlow_TpmUpdate_FinalizeParsing] passes an error on as it
    is, whatever is stored; given success it returns success when all five
    config file properties are stored and [RC_E_INVALID_SETTING] when one of
    them is missing. *)
Theorem FinalizeParsing_mandatory `{Codes} (PunReturnValue : Z)
    (ps : gmap string PropValue) :
  Forall (fun key => key <> EmptyString) config_file_properties ->
  (PunReturnValue <> RC_SUCCESS ->
   CommandFlow_TpmUpdate_FinalizeParsing PunReturnValue ps = PunReturnValue) /\
  (Forall (fun key => is_Some (ps !! key)) config_file_properties ->
   CommandFlow_TpmUpdate_FinalizeParsing RC_SUCCESS ps = RC_SUCCESS) /\
  (Exists (fun key => ps !! key = None) config_file_properties ->
   CommandFlow_TpmUpdate_FinalizeParsing RC_SUCCESS ps = RC_E_INVALID_SETTING).
Proof.
  intros Hkeys. unfold CommandFlow_TpmUpdate_FinalizeParsing. split; [|split].
  - intros Hrc. apply Z.eqb_neq in Hrc. rewrite Hrc. reflexivity.
  - intros Hall. cbn [RC_SUCCESS Z.eqb negb].
    unfold prgwszMandatoryProperties, config_file_properties in *.
    repeat match goal with
           | Hk : Forall _ (_ :: _) |- _ => apply Forall_cons in Hk as [? Hk]
           end.
    unfold check_mandatory, PropertyStorage_ExistsElement.
    repeat match goal with
           | Hn : ?k <> EmptyString |- context [String.eqb ?k EmptyString] =>
               apply String.eqb_neq in Hn; rewrite Hn
           | Hs : is_Some (ps !! ?k) |- context [ps !! ?k] =>
               destruct Hs as [? ->]; cbn [negb]
           end.
    reflexivity.
  - intros Hex. cbn [RC_SUCCESS Z.eqb negb].
    unfold prgwszMandatoryProperties, config_file_properties in *.
    repeat match goal with
           | Hk : Forall _ (_ :: _) |- _ => apply Forall_cons in Hk as [? Hk]
           end.
    unfold check_mandatory, PropertyStorage_ExistsElement.
    repeat match goal with
           | Hn : ?k <> EmptyString |- context [String.eqb ?k EmptyString] =>
               apply String.eqb_neq in Hn; rewrite Hn
           end.
    repeat match goal with
           | Hx : Exists _ (_ :: _) |- _ => apply Exists_cons in Hx as [Hx|Hx]
           | Hx : Exists _ [] |- _ => apply Exists_nil in Hx; contradiction
           end;
      repeat match goal with
             | |- context [ps !! ?k] => destruct (ps !! k) eqn:?; cbn [negb]; try reflexivity
             end; congruence.
Qed.

(** A store with four of the five properties: [FirmwareFolder] is missing. *)
Lemma FinalizeParsing_mandatory_witness :
  let H := example_codes in
  let ps : gmap string PropValue :=
    <[PROPERTY_CONFIG_FILE_UPDATE_TYPE12 := PUInt UPDATE_TYPE_TPM12_DEFERREDPP]>
      (<[PROPERTY_CONFIG_FILE_UPDATE_TYPE20 := PUInt UPDATE_TYPE_TPM20_EMPTYPLATFORMAUTH]>
         (<[PROPERTY_CONFIG_TARGET_FIRMWARE_VERSION_LPC := PString "5.63.3144.0"]>
            (<[PROPERTY_CONFIG_TARGET_FIRMWARE_VERSION_SPI := PString "7.85.4555.0"]> ∅))) in
  CommandFlow_TpmUpdate_FinalizeParsing RC_SUCCESS ps = RC_E_INVALID_SETTING /\
  CommandFlow_TpmUpdate_FinalizeParsing RC_SUCCESS
    (<[PROPERTY_CONFIG_FIRMWARE_FOLDER_PATH := PString "Firmware"]> ps) = RC_SUCCESS.
Proof.
  cbv zeta.
  assert (Hkeys : Forall (fun key => key <> EmptyString)
                         (@config_file_properties example_codes))
    by (repeat constructor; discriminate).
  split.
  - destruct (FinalizeParsing_mandatory (H := example_codes) 0
                (<[@PROPERTY_CONFIG_FILE_UPDATE_TYPE12 example_codes :=
                     PUInt (@UPDATE_TYPE_TPM12_DEFERREDPP example_codes)]>
                   (<[@PROPERTY_CONFIG_FILE_UPDATE_TYPE20 example_codes :=
                        PUInt (@UPDATE_TYPE_TPM20_EMPTYPLATFORMAUTH example_codes)]>
                      (<[@PROPERTY_CONFIG_TARGET_FIRMWARE_VERSION_LPC example_codes :=
                           PString "5.63.3144.0"]>
                         (<[@PROPERTY_CONFIG_TARGET_FIRMWARE_VERSION_SPI example_codes :=
                              PString "7.85.4555.0"]> ∅)))) Hkeys) as (_ & _ & Hex).
    apply Hex.
    do 4 apply Exists_cons_tl. apply Exists_cons_hd. vm_compute. reflexivity.
  - destruct (FinalizeParsing_mandatory (H := example_codes) 0
                (<[@PROPERTY_CONFIG_FIRMWARE_FOLDER_PATH example_codes := PString "Firmware"]>
                (<[@PROPERTY_CONFIG_FILE_UPDATE_TYPE12 example_codes :=
                     PUInt (@UPDATE_TYPE_TPM12_DEFERREDPP example_codes)]>
                   (<[@PROPERTY_CONFIG_FILE_UPDATE_TYPE20 example_codes :=
                        PUInt (@UPDATE_TYPE_TPM20_EMPTYPLATFORMAUTH example_codes)]>
                      (<[@PROPERTY_CONFIG_TARGET_FIRMWARE_VERSION_LPC example_codes :=
                           PString "5.63.3144.0"]>
                         (<[@PROPERTY_CONFIG_TARGET_FIRMWARE_VERSION_SPI example_codes :=
                              PString "7.85.4555.0"]> ∅))))) Hkeys) as (_ & Hall & _).
    apply Hall.
    repeat constructor; vm_compute; eauto.
Defined.

Section ProceedUpdateConfig_extra.
Context `{Codes} `{Platform} (env : Env).

(** The branch for a chip that is not in boot loader mode, when it ends
    with the inner return code success. *)
Lemma select_firmware_image_selected cfg u0 w2 rc u1 w1 :
  run_block (select_firmware_image cfg;; modifyU (set_unReturnCode RC_SUCCESS);;
             mret RC_SUCCESS) (u0, w2) = (rc, (u1, w1)) ->
  unReturnCode u0 = RC_E_FAIL ->
  RC_E_FAIL <> RC_SUCCESS ->
  RC_E_ALREADY_UP_TO_DATE <> RC_SUCCESS ->
  unReturnCode u1 = RC_SUCCESS ->
  rc = RC_SUCCESS /\ s_fUpdateThroughConfigFile w1 = true /\
  files w1 = files w2 /\
  (exists path, props w1 !! PROPERTY_FIRMWARE_PATH = Some (PString path) /\
                is_Some (files w1 !! path)) /\
  (exists t, props w1 !! PROPERTY_UPDATE_TYPE = Some (PUInt t) /\
             props w1 !! config_file_update_type u0 = Some (PUInt t)).
Proof.
  unfold select_firmware_image, getsU, getsW, modifyU, modifyW, liftW, FileIO_Exists_.
  block_unfold. cbn [fst snd]. intros E H0' Hf Ha Hs.
  repeat (flow_step_in E; cbn [props set_props] in E).
  all: try (inversion E; subst; cbn in Hs; congruence).
  all: try match goal with
           | Hx : negb false = false |- _ => discriminate Hx
           end.
  all: inversion E; subst; clear E.
  all: unfold config_file_update_type; flow_rw.
  all: unfold PropertyStorage_AddKeyValuePair, PropertyStorage_ChangeUIntegerValueByKey,
         PropertyStorage_GetUIntegerValueByKey in *; cbn [props log] in *.
  all: repeat match goal with
       | Hx : match ?x with _ => _ end = Some _ |- _ =>
           destruct x eqn:?; try discriminate Hx
       | Hx : Some ?a = Some ?b |- _ => injection Hx as Hx; try subst a; try subst b
       end.
  all: split; [reflexivity|]; split; [reflexivity|]; split; [reflexivity|]; cbn.
  all: split; [eexists; split; [apply lookup_insert_eq|]; eauto|].
  all: match goal with
       | Hp : <[?ut := _]> ?m !! ?path = None, Ht : ?m !! ?ty = Some (PUInt ?t) |- _ =>
           exists t;
           assert (Hne : ut <> path)
             by (intros Heq; rewrite Heq, lookup_insert_eq in Hp; discriminate Hp);
           rewrite lookup_insert_ne in Hp by exact Hne;
           assert (Hne' : path <> ty) by (intros Heq; congruence);
           assert (Hne3 : path <> ut) by (intros Heq; congruence);
           split; [rewrite lookup_insert_ne by exact Hne3; rewrite lookup_insert_eq;
                   reflexivity|];
           rewrite lookup_insert_ne by exact Hne';
           destruct (decide (ut = ty)) as [Heq|Hne''];
             [rewrite Heq, lookup_insert_eq; reflexivity
             |rewrite lookup_insert_ne by exact Hne''; exact Ht]
       end.
Qed.

(** Before the case distinction on the boot loader mode. *)
Lemma ProceedUpdateConfig_block_cases u w :
  structure_ok u = true ->
  match PropertyStorage_GetValueByKey PROPERTY_CONFIG_FILE_PATH MAX_STRING_1024 (props w) with
  | None =>
      run_block (CommandFlow_TpmUpdate_ProceedUpdateConfig_block env) (u, w)
      = (RC_E_FAIL, (started_update u, w))
  | Some cfg =>
      match files w !! cfg with
      | None =>
          run_block (CommandFlow_TpmUpdate_ProceedUpdateConfig_block env) (u, w)
          = (RC_E_INVALID_CONFIG_OPTION, (started_update u, log (FileIO_Exists cfg) w))
      | Some _ =>
          let '(rc, w2) := Config_ParseCustom env cfg (log (FileIO_Exists cfg) w) in
          if rc =? RC_SUCCESS
          then config_parsed env u w w2
          else run_block (CommandFlow_TpmUpdate_ProceedUpdateConfig_block env) (u, w)
               = (rc, (started_update u, w2))
      end
  end.
Proof.
  intros Hok.
  unfold CommandFlow_TpmUpdate_ProceedUpdateConfig_block, started_update.
  unfold getsU, getsW, modifyU, modifyW, liftW, FileIO_Exists_. block_unfold.
  cbn [fst snd]. rewrite Hok. cbn [negb].
  destruct (PropertyStorage_GetValueByKey _ _ _) as [cfg|] eqn:Hcfg; [|reflexivity].
  cbv beta iota. cbn [fst snd files log].
  destruct (files w !! cfg) as [content|] eqn:Hex; [|reflexivity].
  cbn [negb]. cbv beta iota.
  destruct (Config_ParseCustom env cfg _) as [rc w2] eqn:Hparse.
  destruct (Z.eqb_spec rc RC_SUCCESS) as [->|Hrc].
  - split; [exact Hok|]. exists cfg. rewrite Hex. eauto.
  - reflexivity.
Qed.
End ProceedUpdateConfig_extra.

(** X6.  When the config file flow on a chip that is not in boot loader
    mode ends with the inner return code success, it has chosen an image:
    the return value is success, the firmware path property names a file
    that exists, the update type property has the value the config file
    gives for the chip's family, and the flag for updates through the config
    file is set. *)
Theorem ProceedUpdateConfig_selects_image `{Codes} `{Platform} (env : Env)
    (u u' : IfxUpdate) (w w' : World) (rv : Z) :
  CommandFlow_TpmUpdate_ProceedUpdateConfig env (Some u) w = (rv, (Some u', w')) ->
  structure_ok u = true ->
  bootLoader (sTpmState u) = false ->
  RC_E_FAIL <> RC_SUCCESS ->
  RC_E_ALREADY_UP_TO_DATE <> RC_SUCCESS ->
  unReturnCode u' = RC_SUCCESS ->
  rv = RC_SUCCESS /\
  s_fUpdateThroughConfigFile w' = true /\
  (exists path, props w' !! PROPERTY_FIRMWARE_PATH = Some (PString path) /\
                is_Some (files w' !! path)) /\
  (exists t, props w' !! PROPERTY_UPDATE_TYPE = Some (PUInt t) /\
             props w' !! config_file_update_type u = Some (PUInt t)).
Proof.
  intros E Hok Hboot Hf Ha Hs.
  unfold CommandFlow_TpmUpdate_ProceedUpdateConfig in E.
  pose proof (ProceedUpdateConfig_block_cases env u w Hok) as Hc.
  assert (Hstart : unReturnCode (started_update u) = RC_E_FAIL) by reflexivity.
  destruct (PropertyStorage_GetValueByKey _ _ _) as [cfg|].
  2: { rewrite Hc in E. inversion E; subst. congruence. }
  destruct (files w !! cfg).
  2: { rewrite Hc in E. inversion E; subst. congruence. }
  destruct (Config_ParseCustom env cfg _) as [rc w2].
  destruct (rc =? RC_SUCCESS).
  2: { rewrite Hc in E. inversion E; subst. congruence. }
  destruct (ProceedUpdateConfig_parsed env u w w2 Hc) as (cfg' & Eb).
  rewrite Eb, Hboot in E. cbn [negb] in E.
  destruct (run_block _ _) as [rc' [u1 w1]] eqn:Er.
  inversion E; subst.
  destruct (select_firmware_image_selected cfg' _ _ _ _ _ Er Hstart Hf Ha Hs)
    as (? & ? & ? & ? & ?).
  auto.
Qed.


(** The image for the step from 7.62 to 7.85, found beside the config
    file. *)
Lemma ProceedUpdateConfig_selects_image_witness :
  let H := example_codes in
  let P := example_platform in
  let result := CommandFlow_TpmUpdate_ProceedUpdateConfig quiet_env (Some outdated_tpm20)
                  config_with_image_world in
  fst result = RC_SUCCESS /\
  s_fUpdateThroughConfigFile (snd (snd result)) = true /\
  (exists path, props (snd (snd result)) !! PROPERTY_FIRMWARE_PATH = Some (PString path) /\
                is_Some (files (snd (snd result)) !! path)) /\
  (exists t, props (snd (snd result)) !! PROPERTY_UPDATE_TYPE = Some (PUInt t) /\
             props (snd (snd result)) !! PROPERTY_CONFIG_FILE_UPDATE_TYPE20
               = Some (PUInt t)).
Proof.
  cbv zeta.
  pose (result := @CommandFlow_TpmUpdate_ProceedUpdateConfig example_codes example_platform
                    quiet_env (Some outdated_tpm20) config_with_image_world).
  apply (ProceedUpdateConfig_selects_image (H := example_codes) (H0 := example_platform)
           quiet_env outdated_tpm20 (default outdated_tpm20 (fst (snd result)))
           config_with_image_world (snd (snd result)) (fst result)).
  - vm_compute. reflexivity.
  - reflexivity.
  - reflexivity.
  - discriminate.
  - discriminate.
  - vm_compute. reflexivity.
Defined.

(** X7.  Until the config file is found, the config file flow reads and
    stores nothing: a missing or malformed structure is a bad parameter and
    is left untouched; without the config path property the flow fails with
    [RC_E_FAIL]; and when no file has that path it fails with
    [RC_E_INVALID_CONFIG_OPTION], the existence test being its only call. *)
Theorem ProceedUpdateConfig_rejects_early `{Codes} `{Platform} (env : Env) (w : World) :
  CommandFlow_TpmUpdate_ProceedUpdateConfig env None w = (RC_E_BAD_PARAMETER, (None, w)) /\
  (forall u,
     structure_ok u = false ->
     CommandFlow_TpmUpdate_ProceedUpdateConfig env (Some u) w
       = (RC_E_BAD_PARAMETER, (Some u, w))) /\
  (forall u,
     structure_ok u = true ->
     PropertyStorage_GetValueByKey PROPERTY_CONFIG_FILE_PATH MAX_STRING_1024 (props w)
       = None ->
     CommandFlow_TpmUpdate_ProceedUpdateConfig env (Some u) w
       = (RC_E_FAIL, (Some (started_update u), w))) /\
  (forall u wszConfigFilePath,
     structure_ok u = true ->
     PropertyStorage_GetValueByKey PROPERTY_CONFIG_FILE_PATH MAX_STRING_1024 (props w)
       = Some wszConfigFilePath ->
     files w !! wszConfigFilePath = None ->
     CommandFlow_TpmUpdate_ProceedUpdateConfig env (Some u) w
       = (RC_E_INVALID_CONFIG_OPTION,
          (Some (started_update u), log (FileIO_Exists wszConfigFilePath) w))).
Proof.
  split; [reflexivity|]. split; [|split].
  - intros u Hok. unfold CommandFlow_TpmUpdate_ProceedUpdateConfig,
      CommandFlow_TpmUpdate_ProceedUpdateConfig_block, getsU.
    block_unfold. cbn [fst snd]. rewrite Hok. reflexivity.
  - intros u Hok Hcfg. pose proof (ProceedUpdateConfig_block_cases env u w Hok) as Hc.
    rewrite Hcfg in Hc. unfold CommandFlow_TpmUpdate_ProceedUpdateConfig. rewrite Hc.
    reflexivity.
  - intros u cfg Hok Hcfg Hex.
    pose proof (ProceedUpdateConfig_block_cases env u w Hok) as Hc.
    rewrite Hcfg, Hex in Hc. unfold CommandFlow_TpmUpdate_ProceedUpdateConfig. rewrite Hc.
    reflexivity.
Qed.

(** [-update config-file] with a config path that names no file. *)
Lemma ProceedUpdateConfig_rejects_early_witness :
  let H := example_codes in
  let P := example_platform in
  let w := set_files ∅ config_option_world in
  CommandFlow_TpmUpdate_ProceedUpdateConfig quiet_env (Some outdated_tpm20) w
    = (RC_E_INVALID_CONFIG_OPTION,
       (Some (started_update outdated_tpm20), log (FileIO_Exists "TPMFactoryUpd.cfg") w)).
Proof.
  cbv zeta.
  destruct (ProceedUpdateConfig_rejects_early (H := example_codes) (H0 := example_platform)
              quiet_env (set_files ∅ config_option_world)) as (_ & _ & _ & Hmissing).
  apply Hmissing; reflexivity.
Defined.

(** X8.  In the config file flow on a chip that is not in boot loader mode,
    a version name that starts with none of [4.], [5.], [6.] and [7.] ends
    the flow with [RC_E_UNSUPPORTED_CHIP] right after the parser: nothing
    is looked up, composed or stored. *)
Theorem ProceedUpdateConfig_unsupported_chip `{Codes} `{Platform} (env : Env)
    (u : IfxUpdate) (w w2 : World) :
  config_parsed env u w w2 ->
  bootLoader (sTpmState u) = false ->
  target_version_property (wszVersionName u) = None ->
  CommandFlow_TpmUpdate_ProceedUpdateConfig env (Some u) w
    = (RC_E_UNSUPPORTED_CHIP, (Some (started_update u), w2)).
Proof.
  intros Hparsed Hboot Hv.
  destruct (ProceedUpdateConfig_parsed env u w w2 Hparsed) as (cfg & E).
  unfold CommandFlow_TpmUpdate_ProceedUpdateConfig. rewrite E, Hboot. cbn [negb].
  unfold target_version_property in Hv.
  unfold select_firmware_image, getsU, getsW. block_unfold. cbn [fst snd].
  replace (wszVersionName (started_update u)) with (wszVersionName u) by reflexivity.
  destruct (version_prefix (wszVersionName u) "6" "7"); [discriminate|].
  destruct (version_prefix (wszVersionName u) "4" "5"); [discriminate|].
  reflexivity.
Qed.

(** A chip with firmware 3.19. *)
Lemma ProceedUpdateConfig_unsupported_chip_witness :
  let H := example_codes in
  let P := example_platform in
  fst (CommandFlow_TpmUpdate_ProceedUpdateConfig quiet_env (Some unknown_tpm)
         config_option_world) = RC_E_UNSUPPORTED_CHIP.
Proof.
  cbv zeta.
  pose (w2 := snd (@Config_ParseCustom example_codes example_platform quiet_env
                     "TPMFactoryUpd.cfg"
                     (log (FileIO_Exists "TPMFactoryUpd.cfg") config_option_world))).
  rewrite (ProceedUpdateConfig_unsupported_chip (H := example_codes)
             (H0 := example_platform) quiet_env unknown_tpm config_option_world w2).
  - reflexivity.
  - split; [reflexivity|]. exists "TPMFactoryUpd.cfg".
    split; [vm_compute; reflexivity|]. split; [vm_compute; eauto|].
    vm_compute. reflexivity.
  - reflexivity.
  - reflexivity.
Defined.

(** * The folder of the config file *)

Lemma wchar_at_no_separator s i :
  has_separator s = false -> is_separator (wchar_at s i) = false.
Proof.
  revert i. induction s as [|c s IH]; intros i Hs.
  - destruct i; reflexivity.
  - cbn in Hs. apply orb_false_iff in Hs as [Hc Hs].
    destruct i as [|i]; [exact Hc|]. apply (IH i Hs).
Qed.

Lemma wchar_at_append_l dir rest i :
  (i < String.length dir)%nat -> wchar_at (dir +:+ rest) i = wchar_at dir i.
Proof.
  unfold wchar_at. intros Hi. rewrite <- (append_correct1 dir rest i Hi). reflexivity.
Qed.

Lemma wchar_at_append_r dir rest i :
  wchar_at (dir +:+ rest) (String.length dir + i) = wchar_at rest i.
Proof.
  unfold wchar_at. rewrite (Nat.add_comm _ i), <- (append_correct2 dir rest i). reflexivity.
Qed.

Lemma string_take_append dir rest :
  string_take (String.length dir) (dir +:+ rest) = dir.
Proof.
  induction dir as [|c dir IH]; simpl.
  - destruct rest; reflexivity.
  - rewrite IH. reflexivity.
Qed.

Lemma string_length_append a b :
  String.length (a +:+ b) = (String.length a + String.length b)%nat.
Proof. induction a as [|c a IH]; simpl; [reflexivity|]. rewrite IH. reflexivity. Qed.

(** The loop over a stretch without separator keeps the index. *)
Lemma last_folder_loop_keeps path start n acc :
  (forall i, (start <= i < start + n)%nat -> is_separator (wchar_at path i) = false) ->
  fold_left (fun unLastFolderIndex unIndex =>
               if Ascii.eqb (wchar_at path unIndex) "\"%char ||
                  Ascii.eqb (wchar_at path unIndex) "/"%char
               then unIndex else unLastFolderIndex)
            (seq start n) acc = acc.
Proof.
  revert start acc. induction n as [|n IH]; intros start acc Hs; [reflexivity|].
  cbn [seq fold_left].
  pose proof (Hs start ltac:(lia)) as H0. unfold is_separator in H0. rewrite H0.
  apply IH. intros i Hi. apply Hs. lia.
Qed.

Lemma last_folder_index_none path size :
  has_separator path = false -> last_folder_index path size = 0%nat.
Proof.
  intros Hs. unfold last_folder_index. apply last_folder_loop_keeps.
  intros i _. apply wchar_at_no_separator. exact Hs.
Qed.

Lemma last_folder_index_last dir c file size :
  is_separator c = true ->
  has_separator file = false ->
  strlen (dir +:+ String c file) <= size ->
  last_folder_index (dir +:+ String c file) size = String.length dir.
Proof.
  intros Hc Hf Hsize. unfold last_folder_index, strlen in *.
  rewrite string_length_append in Hsize. cbn [String.length] in Hsize.
  replace (Z.to_nat size)
    with (String.length dir + (1 + (Z.to_nat size - String.length dir - 1)))%nat by lia.
  rewrite seq_app, fold_left_app. cbn [Nat.add seq fold_left].
  replace (wchar_at (dir +:+ String c file) (String.length dir)) with c.
  2: { rewrite <- (Nat.add_0_r (String.length dir)) at 1.
       rewrite wchar_at_append_r. reflexivity. }
  unfold is_separator in Hc. rewrite Hc.
  apply last_folder_loop_keeps. intros i Hi.
  replace i with (String.length dir + S (i - String.length dir - 1))%nat by lia.
  rewrite wchar_at_append_r.
  exact (wchar_at_no_separator file (i - String.length dir - 1) Hf).
Qed.

(** X9.  The folder the image is looked for, as the config file flow cuts
    it from the path of the config file: for a bare file name it is ["."];
    for a path with a folder part it is the path up to its last slash or
    backslash; for a file directly under the root it is ["/"] if the path
    starts with a slash, and ["."] if it starts with a backslash. *)
Theorem config_folder_cases (dir file : string) (c : ascii) (size : Z) :
  has_separator file = false ->
  (config_folder file size = ".") /\
  (is_separator c = true ->
   strlen (dir +:+ String c file) <= size ->
   config_folder (dir +:+ String c file) size
   = if negb (String.eqb dir EmptyString) then dir
     else if Ascii.eqb c "/"%char then "/" else ".").
Proof.
  intros Hf. split.
  - unfold config_folder. rewrite (last_folder_index_none file size Hf). cbn.
    pose proof (wchar_at_no_separator file 0 Hf) as H0. unfold is_separator in H0.
    apply orb_false_iff in H0 as [_ ->]. reflexivity.
  - intros Hc Hsize. unfold config_folder.
    rewrite (last_folder_index_last dir c file size Hc Hf Hsize).
    destruct dir as [|d dir].
    + change (EmptyString +:+ String c file) with (String c file).
      change (wchar_at (String c file) 0) with c. cbn.
      destruct (Ascii.eqb_spec c "/"%char) as [->|]; reflexivity.
    + cbn [String.length Nat.eqb String.eqb negb].
      destruct (Ascii.eqb d d && String.eqb dir dir)%bool eqn:E.
      2: { rewrite Ascii.eqb_refl, String.eqb_refl in E. discriminate. }
      cbn [String.eqb]. 
      change (String d dir +:+ String c file) with (String d (dir +:+ String c file)).
      cbn [string_take]. rewrite string_take_append. reflexivity.
Qed.

(** A config file in [/etc/tpm], and one given by its bare name. *)
Lemma config_folder_cases_witness :
  config_folder "TPMFactoryUpd.cfg" 1024 = "." /\
  config_folder "/etc/tpm/TPMFactoryUpd.cfg" 1024 = "/etc/tpm".
Proof.
  destruct (config_folder_cases "/etc/tpm" "TPMFactoryUpd.cfg" "/"%char 1024 eq_refl)
    as [Hbare Hfolder].
  split; [exact Hbare|]. apply Hfolder; [reflexivity|]. vm_compute. discriminate.
Defined.

(** * The checks before an update *)

(** Take the equation of a flow's result apart. *)
Ltac flow_result E :=
  let E1 := fresh "Hrv" in
  let E2 := fresh "Hu" in
  let E3 := fresh "Hw" in
  assert (E1 := f_equal fst E);
  assert (E2 := f_equal (fun x => fst (snd x)) E);
  assert (E3 := f_equal (fun x => snd (snd x)) E);
  cbn [fst snd] in E1, E2, E3; clear E;
  try match type of E2 with _ = ?u => subst u end;
  try match type of E3 with _ = ?w => subst w end.

Ltac flow_contradiction :=
  exfalso;
  match goal with
  | Hn : negb (?x =? RC_SUCCESS) = true, Hx : ?x = RC_SUCCESS |- _ =>
      rewrite Hx in Hn; discriminate Hn
  | Hn : negb (?x =? RC_SUCCESS) = false, Hx : ?x <> RC_SUCCESS |- _ =>
      apply negb_false_iff, Z.eqb_eq in Hn; exact (Hx Hn)
  end.

Section IsFirmwareUpdatable_extra.
Context `{Codes} `{Platform} (env : Env).

Lemma image_error_in unErrorDetails : image_error unErrorDetails ∈ image_error_codes.
Proof.
  unfold image_error, image_error_codes.
  destruct (Z.eqb_spec unErrorDetails RC_E_CORRUPT_FW_IMAGE) as [->|]; [set_solver|].
  destruct (Z.eqb_spec unErrorDetails RC_E_WRONG_FW_IMAGE) as [->|]; [set_solver|].
  destruct (Z.eqb_spec unErrorDetails RC_E_NEWER_TOOL_REQUIRED) as [->|]; [set_solver|].
  destruct (Z.eqb_spec unErrorDetails RC_E_WRONG_DECRYPT_KEYS) as [->|]; [set_solver|].
  cbn. set_solver.
Qed.

(** What the image check leaves when it ends with success. *)
Lemma IsTpmUpdatableWithFirmware_block_success u w u1 w1 :
  run_block (CommandFlow_TpmUpdate_IsTpmUpdatableWithFirmware_block env) (u, w)
    = (RC_SUCCESS, (u1, w1)) ->
  structure_ok u = true ->
  Forall (fun code => code <> RC_SUCCESS) image_error_codes ->
  fValid u1 = true /\ reply_flag env (trace w) (FirmwareUpdate_CheckImage (rgbFirmwareImage u)) = true /\
  reply_rc env (trace w) (FirmwareUpdate_CheckImage (rgbFirmwareImage u)) = RC_SUCCESS /\
  rgbFirmwareImage u1 = rgbFirmwareImage u /\
  unReturnCode u1 = unReturnCode u /\ unNewFirmwareValid u1 = unNewFirmwareValid u /\
  files w1 = files w /\ props w1 = props w.
Proof.
  unfold CommandFlow_TpmUpdate_IsTpmUpdatableWithFirmware_block.
  unfold getsU, getsW, modifyU, modifyW, liftW, call. block_unfold. cbn [fst snd].
  intros E Hok Hcodes. rewrite Hok in E. cbn [negb] in E. cbv beta iota in E.
  repeat flow_step_in E.
  all: flow_result E; cbn [fst snd] in *.
  all: try flow_contradiction.
  - exfalso. pose proof (image_error_in (reply_uint env (trace w)
                (FirmwareUpdate_CheckImage (rgbFirmwareImage u)))) as Hin.
    rewrite Forall_forall in Hcodes. apply (Hcodes _ Hin).
    exact Hrv.
  - apply negb_false_iff in Heqb0. cbn in Heqb0.
    apply negb_false_iff, Z.eqb_eq in Heqb. cbn in Heqb. auto 10.
Qed.


Lemma IsFirmwareUpdatable_block_yes u w rv u1 w1 :
  run_block (CommandFlow_TpmUpdate_IsFirmwareUpdatable_block env) (u, w) = (rv, (u1, w1)) ->
  structure_ok u = true ->
  Forall (fun code => code <> RC_SUCCESS) refusal_codes ->
  unReturnCode u1 = RC_SUCCESS ->
  rv = RC_SUCCESS /\
  unNewFirmwareValid u1 = GENERIC_TRISTATE_STATE_YES /\
  fValid u1 = true /\
  unRemainingUpdates u <> 0 /\
  (tpm12 (sTpmState u) = true -> tpm12owner (sTpmState u) = false) /\
  tpm20restartRequired (sTpmState u) = false /\
  tpm20InFailureMode (sTpmState u) = false /\
  exists wszFirmwareImagePath,
    PropertyStorage_GetValueByKey PROPERTY_FIRMWARE_PATH MAX_PATH (props w)
      = Some wszFirmwareImagePath /\
    rgbFirmwareImage u1
      = bytes_of_string (default EmptyString (files w !! wszFirmwareImagePath)).
Proof.
  unfold CommandFlow_TpmUpdate_IsFirmwareUpdatable_block, check_updatable, refuse.
  unfold getsU, getsW, modifyU, modifyW, liftW, FileIO_ReadFileToBuffer_.
  block_unfold. cbn [fst snd].
  intros E Hok Hcodes Hs. rewrite Hok in E. cbn [negb] in E. cbv beta iota in E.
  unfold refusal_codes, image_error_codes in Hcodes. cbn [app] in Hcodes.
  repeat match goal with
         | Hk : Forall _ (_ :: _) |- _ => apply Forall_cons in Hk as [? Hk]
         end.
  repeat flow_step_in E.
  all: flow_result E; cbn [fst snd] in *.
  all: try (cbn in Hs; congruence).
  all: try (cbn in Hs; flow_contradiction).
  all: match goal with
       | Hn : negb (?a =? RC_SUCCESS) = false,
         Hb : CommandFlow_TpmUpdate_IsTpmUpdatableWithFirmware_block env ?s = _ ?a ?s0 |- _ =>
           apply negb_false_iff, Z.eqb_eq in Hn; subst a;
           destruct s0 as [u2 w2];
           assert (Hr : run_block (CommandFlow_TpmUpdate_IsTpmUpdatableWithFirmware_block env) s
                        = (RC_SUCCESS, (u2, w2)))
             by (unfold run_block; rewrite Hb; reflexivity);
           apply IsTpmUpdatableWithFirmware_block_success in Hr;
             [ destruct Hr as (Hv & _ & _ & Hi & _)
             | exact Hok
             | unfold image_error_codes; repeat constructor; assumption ]
       end.
  all: cbn [fst snd sTpmState unRemainingUpdates set_unReturnCode set_unNewFirmwareValid
            set_unSubType] in *.
  all: split; [congruence|]; split; [reflexivity|]; split; [exact Hv|].
  all: split; [match goal with Hz : (_ =? 0) = false |- _ =>
                 apply Z.eqb_neq in Hz; exact Hz end|].
  all: split; [intros; congruence|]; split; [assumption|]; split; [assumption|].
  all: eexists; split; [reflexivity|]; exact Hi.
Qed.
End IsFirmwareUpdatable_extra.

(** X10.  [CommandFlow_TpmUpdate_IsFirmwareUpdatable] answers yes (inner
    return code success) only for a chip that can take the update: it has
    updates left, a TPM 1.2 has no owner, no restart is required, the chip
    is not in failure mode, and the image read from the firmware path has
    passed the image check as valid; then the return value is success and
    new-firmware-valid is Yes. *)
Theorem IsFirmwareUpdatable_yes_only_if `{Codes} `{Platform} (env : Env)
    (u u' : IfxUpdate) (w w' : World) (rv : Z) :
  CommandFlow_TpmUpdate_IsFirmwareUpdatable env (Some u) w = (rv, (Some u', w')) ->
  structure_ok u = true ->
  Forall (fun code => code <> RC_SUCCESS) refusal_codes ->
  unReturnCode u' = RC_SUCCESS ->
  rv = RC_SUCCESS /\
  unNewFirmwareValid u' = GENERIC_TRISTATE_STATE_YES /\
  fValid u' = true /\
  unRemainingUpdates u <> 0 /\
  (tpm12 (sTpmState u) = true -> tpm12owner (sTpmState u) = false) /\
  tpm20restartRequired (sTpmState u) = false /\
  tpm20InFailureMode (sTpmState u) = false /\
  exists wszFirmwareImagePath,
    PropertyStorage_GetValueByKey PROPERTY_FIRMWARE_PATH MAX_PATH (props w)
      = Some wszFirmwareImagePath /\
    rgbFirmwareImage u'
      = bytes_of_string (default EmptyString (files w !! wszFirmwareImagePath)).
Proof.
  intros E Hok Hcodes Hs. unfold CommandFlow_TpmUpdate_IsFirmwareUpdatable in E.
  destruct (run_block _ _) as [rc [u1 w1]] eqn:Er.
  injection E as <- <- <-.
  exact (IsFirmwareUpdatable_block_yes env u w rc u1 w1 Er Hok Hcodes Hs).
Qed.


(** An operational TPM 2.0 with updates left and a valid image. *)
Lemma IsFirmwareUpdatable_yes_only_if_witness :
  let H := example_codes in
  let P := example_platform in
  let result := CommandFlow_TpmUpdate_IsFirmwareUpdatable quiet_env (Some outdated_tpm20)
                  image_world in
  fst result = RC_SUCCESS /\
  option_map unReturnCode (fst (snd result)) = Some RC_SUCCESS /\
  option_map unNewFirmwareValid (fst (snd result)) = Some GENERIC_TRISTATE_STATE_YES /\
  option_map rgbFirmwareImage (fst (snd result)) = Some (bytes_of_string "image").
Proof.
  cbv zeta.
  pose (result := @CommandFlow_TpmUpdate_IsFirmwareUpdatable example_codes example_platform
                    quiet_env (Some outdated_tpm20) image_world).
  destruct (IsFirmwareUpdatable_yes_only_if (H := example_codes) (H0 := example_platform)
              quiet_env outdated_tpm20 (default outdated_tpm20 (fst (snd result)))
              image_world (snd (snd result)) (fst result))
    as (Hrv & Hvalid & _ & _ & _ & _ & _ & path & Hpath & Himage).
  - vm_compute. reflexivity.
  - reflexivity.
  - repeat constructor; discriminate.
  - vm_compute. reflexivity.
  - split; [exact Hrv|]. split; [vm_compute; reflexivity|].
    split; [vm_compute; reflexivity|]. vm_compute. reflexivity.
Defined.

(** X11.  An image that the image check did not find valid is reported by
    [CommandFlow_TpmUpdate_IsTpmUpdatableWithFirmware] with one of five
    codes, whatever detail the check gives: the detail itself when it is
    corrupt image, wrong image, newer tool required or wrong decrypt keys,
    and [RC_E_TPM_FIRMWARE_UPDATE] for anything else.  The image is not
    parsed: version and family of the new firmware stay as they were. *)
Theorem IsTpmUpdatableWithFirmware_invalid_image `{Codes} `{Platform} (env : Env)
    (u : IfxUpdate) (w : World) :
  let e := FirmwareUpdate_CheckImage (rgbFirmwareImage u) in
  let unErrorDetails := reply_uint env (trace w) e in
  structure_ok u = true ->
  reply_rc env (trace w) e = RC_SUCCESS ->
  reply_flag env (trace w) e = false ->
  exists u',
    CommandFlow_TpmUpdate_IsTpmUpdatableWithFirmware env (Some u) w
      = (image_error unErrorDetails, (Some u', log e w)) /\
    image_error unErrorDetails ∈ image_error_codes /\
    (unErrorDetails ∈ [RC_E_CORRUPT_FW_IMAGE; RC_E_WRONG_FW_IMAGE;
                        RC_E_NEWER_TOOL_REQUIRED; RC_E_WRONG_DECRYPT_KEYS] ->
     image_error unErrorDetails = unErrorDetails) /\
    (unErrorDetails ∉ [RC_E_CORRUPT_FW_IMAGE; RC_E_WRONG_FW_IMAGE;
                        RC_E_NEWER_TOOL_REQUIRED; RC_E_WRONG_DECRYPT_KEYS] ->
     image_error unErrorDetails = RC_E_TPM_FIRMWARE_UPDATE) /\
    fValid u' = false /\
    wszNewFirmwareVersion u' = wszNewFirmwareVersion u /\
    bTargetFamily u' = bTargetFamily u.
Proof.
  intros e details Hok Hrc Hflag. subst e details.
  unfold CommandFlow_TpmUpdate_IsTpmUpdatableWithFirmware,
    CommandFlow_TpmUpdate_IsTpmUpdatableWithFirmware_block.
  unfold getsU, getsW, modifyU, modifyW, liftW, call. block_unfold. cbn [fst snd].
  rewrite Hok. cbn [negb]. cbv beta iota. cbn [fst snd].
  rewrite Hrc. cbn [negb RC_SUCCESS Z.eqb]. cbv beta iota.
  cbn [fValid set_unErrorDetails set_bfNewTpmFirmwareInfo set_fValid].
  rewrite Hflag. cbn [negb]. cbv beta iota.
  eexists. split; [reflexivity|]. split; [apply image_error_in|].
  split; [|split; [|split; [reflexivity|split; reflexivity]]].
  - intros Hin. unfold image_error.
    repeat (apply elem_of_cons in Hin as [->|Hin]);
      rewrite ?Z.eqb_refl, ?orb_true_r; try reflexivity.
    apply elem_of_nil in Hin. contradiction.
  - intros Hnin. unfold image_error.
    repeat (let Hne := fresh "Hne" in
            apply not_elem_of_cons in Hnin as [Hne Hnin]; apply Z.eqb_neq in Hne;
            rewrite Hne).
    reflexivity.
Qed.

(** The image check calls the image corrupt. *)
Lemma IsTpmUpdatableWithFirmware_invalid_image_witness :
  let H := example_codes in
  let P := example_platform in
  fst (CommandFlow_TpmUpdate_IsTpmUpdatableWithFirmware corrupt_image_env
         (Some outdated_tpm20) image_world) = RC_E_CORRUPT_FW_IMAGE.
Proof.
  cbv zeta.
  destruct (IsTpmUpdatableWithFirmware_invalid_image (H := example_codes)
              (H0 := example_platform) corrupt_image_env outdated_tpm20 image_world
              eq_refl eq_refl eq_refl) as (u' & -> & _).
  reflexivity.
Defined.

(** * Preparing the update *)

Section PrepareTPM12Ownership_theorems.
Context `{Codes} `{Tpm12Codes} `{PrepareLibrary} (env : Env).

Lemma map_disabled_deactivated_chip code :
  Z.land code RC_TPM_MASK = 0 ->
  code = TPM_DEACTIVATED \/ code = TPM_DISABLED ->
  map_disabled_deactivated (ChipError code) = RC_E_TPM12_DISABLED_DEACTIVATED.
Proof.
  intros Hbits Hcode. unfold map_disabled_deactivated, ChipError.
  rewrite lxor_lor_mask. apply ldiff_id_iff in Hbits. rewrite Hbits.
  destruct Hcode as [->| ->]; rewrite Z.eqb_refl, ?orb_true_r; reflexivity.
Qed.

Lemma map_disabled_deactivated_success :
  TPM_DEACTIVATED <> RC_TPM_MASK -> TPM_DISABLED <> RC_TPM_MASK ->
  map_disabled_deactivated RC_SUCCESS = RC_SUCCESS.
Proof.
  intros H1' H2'. unfold map_disabled_deactivated, RC_SUCCESS.
  rewrite Z.lxor_0_l.
  apply Z.eqb_neq in H1', H2'. rewrite H1', H2'. reflexivity.
Qed.
End PrepareTPM12Ownership_theorems.

(** X12.  [CommandFlow_TpmUpdate_PrepareTPM12Ownership], once the
    endorsement key is read, both hashes are encrypted and the OIAP session
    is open: a [TPM_TakeOwnership] that the chip refuses as disabled or
    deactivated is reported as [RC_E_TPM12_DISABLED_DEACTIVATED] (for codes
    without a bit of the mask); one that returns success makes the function
    return success, also when the storage root key that comes back is empty.
    The size passed for the encrypted owner hash is the one of the
    encrypted SRK hash. *)
Theorem PrepareTPM12Ownership_outcome `{Codes} `{Tpm12Codes} `{PrepareLibrary} (env : Env)
    (w w1 w2 w3 w5 : World) (sTpmPubKey : TPM_STORE_PUBKEY)
    (unEncryptedOwnerHashSize unEncryptedSrkHashSize rc : Z)
    (rgbEncryptedOwnerAuthHash rgbEncryptedSrkHash : list Z) (sSrkKey : TPM_KEY) :
  TSS_TPM_ReadPubEK w = ((RC_SUCCESS, sTpmPubKey), w1) ->
  Crypt_EncryptRSA CRYPT_ES_RSAESOAEP_SHA1_MGF1 SHA1_DIGEST_SIZE s_ownerAuthData
    (keyLength sTpmPubKey) (key sTpmPubKey) 3 rgbPublicExponent MAX_RSA_KEY_BYTES w1
    = ((RC_SUCCESS, (unEncryptedOwnerHashSize, rgbEncryptedOwnerAuthHash)), w2) ->
  Crypt_EncryptRSA CRYPT_ES_RSAESOAEP_SHA1_MGF1 SHA1_DIGEST_SIZE SRK_WELL_KNOWN_AUTH
    (keyLength sTpmPubKey) (key sTpmPubKey) 3 rgbPublicExponent MAX_RSA_KEY_BYTES w2
    = ((RC_SUCCESS, (unEncryptedSrkHashSize, rgbEncryptedSrkHash)), w3) ->
  reply_rc env (trace w3) TSS_TPM_OIAP = RC_SUCCESS ->
  TSS_TPM_TakeOwnership rgbEncryptedOwnerAuthHash unEncryptedSrkHashSize
    rgbEncryptedSrkHash unEncryptedSrkHashSize sSrkParams
    (reply_uint env (trace w3) TSS_TPM_OIAP) s_ownerAuthData
    (reply_bytes env (trace w3) TSS_TPM_OIAP) (log TSS_TPM_OIAP w3)
    = ((rc, sSrkKey), w5) ->
  CommandFlow_TpmUpdate_PrepareTPM12Ownership env w = (map_disabled_deactivated rc, w5) /\
  (forall code,
     rc = ChipError code -> Z.land code RC_TPM_MASK = 0 ->
     code = TPM_DEACTIVATED \/ code = TPM_DISABLED ->
     CommandFlow_TpmUpdate_PrepareTPM12Ownership env w
       = (RC_E_TPM12_DISABLED_DEACTIVATED, w5)) /\
  (rc = RC_SUCCESS ->
   TPM_DEACTIVATED <> RC_TPM_MASK -> TPM_DISABLED <> RC_TPM_MASK ->
   CommandFlow_TpmUpdate_PrepareTPM12Ownership env w = (RC_SUCCESS, w5)).
Proof.
  intros Hek Henc1 Henc2 Hoiap Htake.
  assert (E : CommandFlow_TpmUpdate_PrepareTPM12Ownership env w
              = (map_disabled_deactivated rc, w5)).
  { unfold CommandFlow_TpmUpdate_PrepareTPM12Ownership,
      CommandFlow_TpmUpdate_PrepareTPM12Ownership_block, call.
    block_unfold. rewrite Hek. cbn [RC_SUCCESS Z.eqb negb]. cbv beta iota.
    rewrite Henc1. cbn [RC_SUCCESS Z.eqb negb]. cbv beta iota.
    rewrite Henc2. cbn [RC_SUCCESS Z.eqb negb]. cbv beta iota.
    rewrite Hoiap. cbn [RC_SUCCESS Z.eqb negb]. cbv beta iota.
    rewrite Htake. cbv beta iota.
    match goal with |- context [if ?c then _ else _] => destruct c end; reflexivity. }
  split; [exact E|]. split.
  - intros code -> Hbits Hcode. rewrite E.
    rewrite (map_disabled_deactivated_chip code Hbits Hcode). reflexivity.
  - intros -> Hd1 Hd2. rewrite E.
    rewrite (map_disabled_deactivated_success Hd1 Hd2). reflexivity.
Qed.

(** A disabled TPM 1.2 refuses the ownership. *)
Lemma PrepareTPM12Ownership_outcome_witness :
  let H := example_codes in
  let T := example_tpm12_codes in
  let L := disabled_chip_library in
  CommandFlow_TpmUpdate_PrepareTPM12Ownership quiet_env tpm12_update_world
    = (RC_E_TPM12_DISABLED_DEACTIVATED, log TSS_TPM_OIAP tpm12_update_world).
Proof.
  cbv zeta.
  destruct (PrepareTPM12Ownership_outcome (H := example_codes) (H0 := example_tpm12_codes)
              (H1 := disabled_chip_library) quiet_env
              tpm12_update_world tpm12_update_world tpm12_update_world tpm12_update_world
              (log TSS_TPM_OIAP tpm12_update_world)
              {| keyLength := 256; key := repeat 0xAB 256 |}
              256 256 (@ChipError example_codes (@TPM_DISABLED example_codes))
              (s_ownerAuthData ++ repeat 0 236) (SRK_WELL_KNOWN_AUTH ++ repeat 0 236)
              (@sSrkParams example_tpm12_codes)
              eq_refl eq_refl eq_refl eq_refl eq_refl) as (_ & Hdisabled & _).
  apply (Hdisabled (@TPM_DISABLED example_codes)); [reflexivity|reflexivity|].
  right. reflexivity.
Defined.

Section PrepareFirmwareUpdate_theorems.
Context `{Codes} `{Tpm12Codes} `{PrepareLibrary} (env : Env).

(** The structure once its parameters are accepted. *)
Lemma PrepareFirmwareUpdate_block_accepted u w :
  PrepareFirmwareUpdate_parameters_ok u = true ->
  forall rv u' w',
    run_block (CommandFlow_TpmUpdate_PrepareFirmwareUpdate_block env) (u, w) = (rv, (u', w')) ->
    unSubType u' = STRUCT_SUBTYPE_PREPARE /\ unType u' = unType u /\ unSize u' = unSize u /\
    rgbFirmwareImage u' = rgbFirmwareImage u /\ sTpmState u' = sTpmState u.
Proof.
  intros Hok rv u' w'.
  unfold CommandFlow_TpmUpdate_PrepareFirmwareUpdate_block, prepared.
  unfold getsU, getsW, modifyU, modifyW, liftW. block_unfold. cbn [fst snd].
  rewrite Hok. cbn [negb]. cbv beta iota. cbn [fst snd].
  intros E. repeat flow_step_in E.
  all: flow_result E; repeat split; reflexivity.
Qed.
End PrepareFirmwareUpdate_theorems.

(** X13.  [CommandFlow_TpmUpdate_PrepareFirmwareUpdate] on a structure it
    accepts: a chip in boot loader mode, and a TPM 1.2 to be updated with
    deferred physical presence that has it set already, need no
    preparation: the function returns success in both codes and leaves the
    world as it was; a chip that is neither in boot loader mode nor a
    TPM 2.0 nor a TPM 1.2, and a TPM 1.2 without an update type of its
    family, make it fail with [RC_E_FAIL], the world again untouched. *)
Theorem PrepareFirmwareUpdate_without_chip `{Codes} `{Tpm12Codes} `{PrepareLibrary}
    (env : Env) (u : IfxUpdate) (w : World) :
  let attribs := sTpmState u in
  let unUpdateType :=
    PropertyStorage_GetUIntegerValueByKey PROPERTY_UPDATE_TYPE (props w) in
  let accepted := set_unReturnCode RC_E_FAIL (set_unSubType STRUCT_SUBTYPE_PREPARE u) in
  PrepareFirmwareUpdate_parameters_ok u = true ->
  (bootLoader attribs = true \/
   (bootLoader attribs = false /\ tpm20 attribs = false /\ tpm12 attribs = true /\
    unUpdateType = Some UPDATE_TYPE_TPM12_DEFERREDPP /\
    tpm12DeferredPhysicalPresence attribs = true) ->
   CommandFlow_TpmUpdate_PrepareFirmwareUpdate env (Some u) w
     = (RC_SUCCESS, (Some (set_unReturnCode RC_SUCCESS accepted), w))) /\
  (bootLoader attribs = false -> tpm20 attribs = false ->
   (tpm12 attribs = false \/ unUpdateType = None \/
    exists t, unUpdateType = Some t /\ t <> UPDATE_TYPE_TPM12_DEFERREDPP /\
              t <> UPDATE_TYPE_TPM12_TAKEOWNERSHIP) ->
   CommandFlow_TpmUpdate_PrepareFirmwareUpdate env (Some u) w
     = (RC_E_FAIL, (Some accepted, w))).
Proof.
  intros attribs unUpdateType accepted Hok. subst attribs unUpdateType accepted.
  unfold CommandFlow_TpmUpdate_PrepareFirmwareUpdate,
    CommandFlow_TpmUpdate_PrepareFirmwareUpdate_block, prepared.
  unfold getsU, getsW, modifyU, modifyW, liftW. block_unfold. cbn [fst snd].
  rewrite Hok. cbn [negb]. cbv beta iota. cbn [fst snd].
  split.
  - intros [Hb|(Hb & H20 & H12 & Ht & Hd)].
    + rewrite Hb. reflexivity.
    + rewrite Hb, H20, H12. cbv beta iota. cbn [fst snd]. rewrite Ht. cbv beta iota.
      rewrite Z.eqb_refl, Hd. reflexivity.
  - intros Hb H20 Hcase. rewrite Hb, H20.
    destruct Hcase as [H12|[Ht|(t & Ht & Hn1 & Hn2)]].
    + rewrite H12. reflexivity.
    + destruct (tpm12 (sTpmState u)); [|reflexivity]. cbv beta iota. cbn [fst snd].
      rewrite Ht. reflexivity.
    + destruct (tpm12 (sTpmState u)); [|reflexivity]. cbv beta iota. cbn [fst snd].
      rewrite Ht. cbv beta iota.
      destruct (Z.eqb_spec UPDATE_TYPE_TPM12_DEFERREDPP t); [congruence|].
      destruct (Z.eqb_spec UPDATE_TYPE_TPM12_TAKEOWNERSHIP t); [congruence|].
      reflexivity.
Qed.

(** A TPM 1.2 with deferred physical presence set, [-update tpm12-PP]. *)
Lemma PrepareFirmwareUpdate_without_chip_witness :
  let H := example_codes in
  let T := example_tpm12_codes in
  let L := disabled_chip_library in
  exists u',
    CommandFlow_TpmUpdate_PrepareFirmwareUpdate quiet_env (Some checked_tpm12)
      tpm12_update_world = (RC_SUCCESS, (Some u', tpm12_update_world)) /\
    unReturnCode u' = RC_SUCCESS /\ unSubType u' = STRUCT_SUBTYPE_PREPARE.
Proof.
  cbv zeta.
  destruct (PrepareFirmwareUpdate_without_chip (H := example_codes)
              (H0 := example_tpm12_codes) (H1 := disabled_chip_library)
              quiet_env checked_tpm12 tpm12_update_world eq_refl) as [Hnone _].
  eexists. split; [apply Hnone|split; reflexivity].
  right. repeat split; reflexivity.
Defined.

Section Stages.
Context `{Codes} `{Platform} `{Tpm12Codes} `{PrepareLibrary} (env : Env).

Lemma IsTpmUpdatableWithFirmware_block_stage u w rv u1 w1 :
  run_block (CommandFlow_TpmUpdate_IsTpmUpdatableWithFirmware_block env) (u, w)
    = (rv, (u1, w1)) ->
  unType u1 = unType u /\ unSize u1 = unSize u /\ unSubType u1 = unSubType u.
Proof.
  unfold CommandFlow_TpmUpdate_IsTpmUpdatableWithFirmware_block.
  unfold getsU, getsW, modifyU, modifyW, liftW, call. block_unfold. cbn [fst snd].
  intros E. repeat flow_step_in E.
  all: flow_result E; repeat split; reflexivity.
Qed.

Lemma IsFirmwareUpdatable_block_stage u w rv u1 w1 :
  run_block (CommandFlow_TpmUpdate_IsFirmwareUpdatable_block env) (u, w) = (rv, (u1, w1)) ->
  structure_ok u = true ->
  unType u1 = unType u /\ unSize u1 = unSize u /\
  unSubType u1 = STRUCT_SUBTYPE_IS_UPDATABLE.
Proof.
  unfold CommandFlow_TpmUpdate_IsFirmwareUpdatable_block, check_updatable, refuse.
  unfold getsU, getsW, modifyU, modifyW, liftW, FileIO_ReadFileToBuffer_.
  block_unfold. cbn [fst snd].
  intros E Hok. rewrite Hok in E. cbn [negb] in E. cbv beta iota in E.
  repeat flow_step_in E.
  all: flow_result E; cbn [fst snd] in *.
  all: try (repeat split; reflexivity).
  all: match goal with
       | Hb : CommandFlow_TpmUpdate_IsTpmUpdatableWithFirmware_block env ?s = _ ?a ?s0 |- _ =>
           destruct s0 as [u2 w2];
           assert (Hr : run_block (CommandFlow_TpmUpdate_IsTpmUpdatableWithFirmware_block env) s
                        = (a, (u2, w2)))
             by (unfold run_block; rewrite Hb; reflexivity);
           apply IsTpmUpdatableWithFirmware_block_stage in Hr;
           destruct Hr as (Ht & Hz & Hst)
       end.
  all: cbn in *; auto.
Qed.

Lemma ProceedUpdateConfig_block_stage u w rv u1 w1 :
  run_block (CommandFlow_TpmUpdate_ProceedUpdateConfig_block env) (u, w) = (rv, (u1, w1)) ->
  structure_ok u = true ->
  unType u1 = unType u /\ unSize u1 = unSize u /\
  unSubType u1 = STRUCT_SUBTYPE_IS_UPDATABLE.
Proof.
  unfold CommandFlow_TpmUpdate_ProceedUpdateConfig_block, select_firmware_image,
    resume_firmware_image.
  unfold getsU, getsW, modifyU, modifyW, liftW, FileIO_Exists_, FileIO_ReadFileToStringBuffer_.
  block_unfold. cbn [fst snd].
  intros E Hok. rewrite Hok in E. cbn [negb] in E. cbv beta iota in E.
  repeat (flow_step_in E; cbn [props set_props] in E).
  all: flow_result E; repeat split; reflexivity.
Qed.
End Stages.

(** X14.  The three stages of an update hand the structure on in order:
    what [CommandFlow_TpmUpdate_IsFirmwareUpdatable] or
    [CommandFlow_TpmUpdate_ProceedUpdateConfig] leaves of a structure they
    accept passes the parameter check of
    [CommandFlow_TpmUpdate_PrepareFirmwareUpdate], and what that one leaves
    passes the check of [CommandFlow_TpmUpdate_UpdateFirmware]; an update
    on a structure that was checked but not prepared is refused with
    [RC_E_BAD_PARAMETER] and sends no image (the sub types being distinct). *)
Theorem update_stages_in_order `{Codes} `{Platform} `{Tpm12Codes} `{PrepareLibrary}
    (env : Env) (u : IfxUpdate) (w : World) :
  (structure_ok u = true ->
   forall rv u' w',
     CommandFlow_TpmUpdate_IsFirmwareUpdatable env (Some u) w = (rv, (Some u', w')) \/
     CommandFlow_TpmUpdate_ProceedUpdateConfig env (Some u) w = (rv, (Some u', w')) ->
     PrepareFirmwareUpdate_parameters_ok u' = true) /\
  (PrepareFirmwareUpdate_parameters_ok u = true ->
   (forall rv u' w',
      CommandFlow_TpmUpdate_PrepareFirmwareUpdate env (Some u) w = (rv, (Some u', w')) ->
      UpdateFirmware_parameters_ok u' = true) /\
   (STRUCT_SUBTYPE_IS_UPDATABLE <> STRUCT_SUBTYPE_PREPARE ->
    exists u' w',
      CommandFlow_TpmUpdate_UpdateFirmware env (Some u) w
        = (Some (RC_E_BAD_PARAMETER, u'), w') /\
      (hPolicySession u = 0 -> u' = u /\ w' = w) /\
      (forall e, e ∈ trace w' -> e ∈ trace w \/ e = TSS_TPM2_FlushContext (hPolicySession u)))).
Proof.
  split.
  - intros Hok rv u' w' E. unfold structure_ok in Hok.
    apply andb_true_iff in Hok as [Ht Hz].
    assert (Hstage : unType u' = unType u /\ unSize u' = unSize u /\
                     unSubType u' = STRUCT_SUBTYPE_IS_UPDATABLE).
    { destruct E as [E|E].
      - unfold CommandFlow_TpmUpdate_IsFirmwareUpdatable in E.
        destruct (run_block _ _) as [rc [u1 w1]] eqn:Er. injection E as <- <- <-.
        apply (IsFirmwareUpdatable_block_stage env u w rc u1 w1 Er).
        unfold structure_ok. rewrite Ht, Hz. reflexivity.
      - unfold CommandFlow_TpmUpdate_ProceedUpdateConfig in E.
        destruct (run_block _ _) as [rc [u1 w1]] eqn:Er. injection E as <- <- <-.
        apply (ProceedUpdateConfig_block_stage env u w rc u1 w1 Er).
        unfold structure_ok. rewrite Ht, Hz. reflexivity. }
    destruct Hstage as (Ht' & Hz' & Hst').
    unfold PrepareFirmwareUpdate_parameters_ok.
    rewrite Ht', Hz', Hst', Ht, Hz, Z.eqb_refl. reflexivity.
  - intros Hok. split.
    + intros rv u' w' E. unfold CommandFlow_TpmUpdate_PrepareFirmwareUpdate in E.
      destruct (run_block _ _) as [rc [u1 w1]] eqn:Er. injection E as <- <- <-.
      destruct (PrepareFirmwareUpdate_block_accepted env u w Hok rc u1 w1 Er)
        as (Hst & Ht & Hz & _).
      unfold PrepareFirmwareUpdate_parameters_ok in Hok.
      apply andb_true_iff in Hok as [Hok _].
      unfold UpdateFirmware_parameters_ok. rewrite Ht, Hz, Hok, Hst, Z.eqb_refl.
      reflexivity.
    + intros Hne. unfold PrepareFirmwareUpdate_parameters_ok in Hok.
      apply andb_true_iff in Hok as [Hok Hst]. apply Z.eqb_eq in Hst.
      unfold CommandFlow_TpmUpdate_UpdateFirmware,
        CommandFlow_TpmUpdate_UpdateFirmware_block, UpdateFirmware_parameters_ok, getsU.
      block_unfold. cbn [fst snd]. rewrite Hok, Hst.
      destruct (Z.eqb_spec STRUCT_SUBTYPE_IS_UPDATABLE STRUCT_SUBTYPE_PREPARE) as [|_];
        [contradiction|].
      cbn [andb negb]. cbv beta iota.
      destruct (Z.eqb_spec (hPolicySession u) 0) as [Hh|Hh].
      * rewrite andb_false_r. eexists _, _. split; [reflexivity|].
        split; [auto|]. intros e He. left. exact He.
      * cbn [negb]. rewrite andb_true_r.
        destruct (negb (RC_E_BAD_PARAMETER =? RC_SUCCESS) ||
                  negb (unReturnCode u =? RC_SUCCESS)).
        -- unfold call. eexists _, _. split; [reflexivity|].
           split; [intros; contradiction|].
           intros e He. rewrite trace_log in He.
           apply elem_of_app in He as [He|He]; [left; exact He|].
           apply list_elem_of_singleton in He. right. exact He.
        -- eexists _, _. split; [reflexivity|].
           split; [intros; contradiction|]. intros e He. left. exact He.
Qed.

Section Handoff.
Context `{Codes} `{Platform} (env : Env).

(** The library is called first; what the callbacks do comes behind. *)
Lemma UpdateImage_first_event session hash image size w :
  let d := {| unSessionHandle := session; rgbOwnerAuthHash := hash;
              fnProgressCallback := Response_ProgressCallback_;
              fnUpdateStartedCallback := CommandFlow_TpmUpdate_UpdateStartedCallback env;
              fud_rgbFirmwareImage := image; fud_unFirmwareImageSize := size |} in
  let e := FirmwareUpdate_UpdateImage session hash image in
  fst (FirmwareUpdate_UpdateImage_ env d w) = reply_rc env (trace w) e /\
  exists t, trace (snd (FirmwareUpdate_UpdateImage_ env d w)) = trace w ++ e :: t.
Proof.
  cbv zeta. unfold FirmwareUpdate_UpdateImage_.
  cbn [fst snd unSessionHandle rgbOwnerAuthHash fnProgressCallback fnUpdateStartedCallback
       fud_rgbFirmwareImage].
  split; [reflexivity|]. rewrite progress_trace.
  destruct (reply_flag env (trace w) _).
  - destruct (UpdateStartedCallback_trace env
                (log (FirmwareUpdate_UpdateImage session hash image) w)) as (t & -> & _).
    rewrite trace_log, <- !app_assoc. cbn [app]. eauto.
  - rewrite trace_log, <- !app_assoc. cbn [app]. eauto.
Qed.

(** An update of a chip that is not a TPM 1.2, outside a dry run. *)
Lemma UpdateFirmware_calls_library u w :
  UpdateFirmware_parameters_ok u = true ->
  tpm12 (sTpmState u) = false ->
  PropertyStorage_GetBooleanValueByKey PROPERTY_DRY_RUN (props w) <> Some true ->
  let e := FirmwareUpdate_UpdateImage
             (if tpm20 (sTpmState u) then hPolicySession u else 0)
             (repeat 0 (Z.to_nat sizeof_rgbOwnerAuthHash)) (rgbFirmwareImage u) in
  exists u' w' t,
    CommandFlow_TpmUpdate_UpdateFirmware env (Some u) w = (Some (RC_SUCCESS, u'), w') /\
    unReturnCode u' = reply_rc env (trace w) e /\
    trace w' = trace w ++ e :: t.
Proof.
  intros Hok H12 Hdry e.
  unfold CommandFlow_TpmUpdate_UpdateFirmware, CommandFlow_TpmUpdate_UpdateFirmware_block.
  unfold getsU, getsW, modifyU, modifyW, liftW, FileIO_Exists_, FileIO_Remove_, call.
  block_unfold. cbn [fst snd]. rewrite Hok, H12. cbn [negb]. cbv beta iota. cbn [fst snd].
  set (d := {| unSessionHandle := _ |}).
  destruct (UpdateImage_first_event
              (if tpm20 (sTpmState u) then hPolicySession u else 0)
              (repeat 0 (Z.to_nat sizeof_rgbOwnerAuthHash)) (rgbFirmwareImage u)
              (unFirmwareImageSize u) w) as (Hrc & t & Ht).
  fold d in Hrc, Ht. fold e in Hrc, Ht.
  destruct (PropertyStorage_GetBooleanValueByKey PROPERTY_DRY_RUN (props w)) as [[|]|];
    [contradiction Hdry; reflexivity| |].
  all: cbv beta iota; cbn [fst snd].
  all: destruct (FirmwareUpdate_UpdateImage_ env d w) as [rc wx]; cbn [fst snd] in *;
       subst rc; cbn [unReturnCode set_unReturnCode].
  all: destruct (negb (reply_rc env (trace w) e =? RC_SUCCESS)) eqn:Hn;
       cbv beta iota; cbn [fst snd RC_SUCCESS Z.eqb negb orb andb unReturnCode
                           set_unReturnCode hPolicySession set_hPolicySession
                           set_unSubType files log].
  all: repeat match goal with
       | |- context [if ?c then _ else _] => is_plain c; destruct c eqn:?
       | |- context [match ?x with _ => _ end] => is_plain x; destruct x eqn:?
       end; cbv beta iota; cbn [fst snd].
  all: try (eexists _, _, _; split; [reflexivity|]; split; [reflexivity|];
            cbn [trace log set_files]; rewrite ?Ht, <- ?app_assoc; cbn [app];
            reflexivity).
Qed.
End Handoff.

(** X15.  The policy session that the preparation of a TPM 2.0 opens is the
    one the update runs with: [CommandFlow_TpmUpdate_PrepareFirmwareUpdate]
    stores the handle it gets from [FirmwareUpdate_PrepareTPM20Policy] and
    returns success with that function's code as inner return code; outside
    a dry run, [CommandFlow_TpmUpdate_UpdateFirmware] on the structure it
    leaves calls [FirmwareUpdate_UpdateImage] first, with that handle, a
    zeroed owner hash and the image of the structure, returns success and
    has the library's return code as inner return code. *)
Theorem policy_session_handoff `{Codes} `{Platform} `{Tpm12Codes} `{PrepareLibrary}
    (env : Env) (u : IfxUpdate) (w w1 : World) (rc hSession : Z) :
  PrepareFirmwareUpdate_parameters_ok u = true ->
  bootLoader (sTpmState u) = false ->
  tpm20 (sTpmState u) = true ->
  tpm12 (sTpmState u) = false ->
  FirmwareUpdate_PrepareTPM20Policy (hPolicySession u) w = ((rc, hSession), w1) ->
  PropertyStorage_GetBooleanValueByKey PROPERTY_DRY_RUN (props w1) <> Some true ->
  let e := FirmwareUpdate_UpdateImage hSession
             (repeat 0 (Z.to_nat sizeof_rgbOwnerAuthHash)) (rgbFirmwareImage u) in
  exists u1,
    CommandFlow_TpmUpdate_PrepareFirmwareUpdate env (Some u) w
      = (RC_SUCCESS, (Some u1, w1)) /\
    unReturnCode u1 = rc /\ hPolicySession u1 = hSession /\
    exists u2 w2 t,
      CommandFlow_TpmUpdate_UpdateFirmware env (Some u1) w1 = (Some (RC_SUCCESS, u2), w2) /\
      unReturnCode u2 = reply_rc env (trace w1) e /\
      trace w2 = trace w1 ++ e :: t.
Proof.
  intros Hok Hb H20 H12 Hpol Hdry e.
  eexists. split; [|split; [|split]].
  - unfold CommandFlow_TpmUpdate_PrepareFirmwareUpdate,
      CommandFlow_TpmUpdate_PrepareFirmwareUpdate_block, prepared.
    unfold getsU, getsW, modifyU, modifyW, liftW. block_unfold. cbn [fst snd].
    rewrite Hok, Hb, H20. cbn [negb]. cbv beta iota. cbn [fst snd].
    rewrite Hpol. reflexivity.
  - reflexivity.
  - reflexivity.
  - match goal with
    | |- context [CommandFlow_TpmUpdate_UpdateFirmware env (Some ?u1) w1] =>
        destruct (UpdateFirmware_calls_library env u1 w1) as (u2 & w2 & t & E & Hrc & Ht)
    end.
    + unfold PrepareFirmwareUpdate_parameters_ok in Hok.
      apply andb_true_iff in Hok as [Hok _].
      unfold UpdateFirmware_parameters_ok.
      cbn [fst snd unType unSize unSubType set_unReturnCode set_hPolicySession
           set_unSubType].
      rewrite Hok, Z.eqb_refl. reflexivity.
    + exact H12.
    + exact Hdry.
    + cbn [fst snd sTpmState set_unReturnCode set_hPolicySession set_unSubType
           hPolicySession rgbFirmwareImage] in E, Hrc, Ht.
      rewrite H20 in Hrc, Ht. exists u2, w2, t. split; [exact E|]. split; [exact Hrc|exact Ht].
Qed.

(** A TPM 2.0 whose policy session gets the handle 0x03000000. *)
Lemma policy_session_handoff_witness :
  let H := example_codes in
  let P := example_platform in
  let T := example_tpm12_codes in
  let L := disabled_chip_library in
  exists u1,
    CommandFlow_TpmUpdate_PrepareFirmwareUpdate quiet_env (Some checked_tpm20) image_world
      = (RC_SUCCESS, (Some u1, image_world)) /\
    hPolicySession u1 = 0x03000000 /\
    exists u2 w2 t,
      CommandFlow_TpmUpdate_UpdateFirmware quiet_env (Some u1) image_world
        = (Some (RC_SUCCESS, u2), w2) /\
      trace w2 = FirmwareUpdate_UpdateImage 0x03000000 (repeat 0 20)
                   (bytes_of_string "image") :: t.
Proof.
  cbv zeta.
  destruct (policy_session_handoff (H := example_codes) (H0 := example_platform)
              (H1 := example_tpm12_codes) (H2 := disabled_chip_library)
              quiet_env checked_tpm20 image_world image_world 0 0x03000000
              eq_refl eq_refl eq_refl eq_refl eq_refl)
    as (u1 & E1 & _ & Hh & u2 & w2 & t & E2 & _ & Ht).
  - vm_compute. discriminate.
  - exists u1. split; [exact E1|]. split; [exact Hh|].
    exists u2, w2, t. split; [exact E2|exact Ht].
Defined.

(** * Device channel: closing, and the registers *)

(** X16.  [TPMIO_Disconnect] on a connected channel with a valid access
    mode always closes it: the flag is cleared whatever the device answers,
    also when the driver's uninitialize fails and when, for the memory based
    access, the locality cannot be read and nothing is uninitialized at all.
    Property storage and files stay as they were. *)
Theorem TPMIO_Disconnect_closes `{Codes} (env : Env) (w : World) (mode : Z) :
  g_fConnected w = true ->
  access_mode w = Some mode ->
  let result := TPMIO_Disconnect env w in
  g_fConnected (snd result) = false /\
  props (snd result) = props w /\ files (snd result) = files w /\
  (mode <> TPM_DEVICE_ACCESS_MEMORY_BASED ->
   result = (reply_rc env (trace w) DeviceAccessTpmDriver_Uninitialize,
             set_g_fConnected false (log DeviceAccessTpmDriver_Uninitialize w))) /\
  (mode = TPM_DEVICE_ACCESS_MEMORY_BASED ->
   PropertyStorage_GetUIntegerValueByKey PROPERTY_LOCALITY (props w) = None ->
   result = (RC_E_FAIL, set_g_fConnected false w)).
Proof.
  intros Hc Hm. cbv zeta. unfold TPMIO_Disconnect. block_unfold. rewrite Hc.
  cbn [negb]. cbv beta iota. rewrite Hm. cbv beta iota.
  assert (Hmode : (TPM_DEVICE_ACCESS_MEMORY_BASED =? mode) ||
                  (TPM_DEVICE_ACCESS_DRIVER =? mode) = true).
  { unfold access_mode in Hm.
    destruct (PropertyStorage_GetUIntegerValueByKey _ _) as [m|]; [|discriminate].
    destruct ((TPM_DEVICE_ACCESS_MEMORY_BASED =? m) || (TPM_DEVICE_ACCESS_DRIVER =? m))
      eqn:E; [|discriminate].
    injection Hm as <-. exact E. }
  unfold TPMIO_Disconnect_switch, call. block_unfold.
  destruct (Z.eqb_spec mode TPM_DEVICE_ACCESS_MEMORY_BASED) as [->|Hne].
  - destruct (PropertyStorage_GetUIntegerValueByKey PROPERTY_LOCALITY (props w))
      as [unLocality|] eqn:Hl.
    + destruct (negb (_ =? RC_SUCCESS)); cbn; repeat split; intros; congruence.
    + cbn. repeat split; intros; congruence.
  - destruct (Z.eqb_spec mode TPM_DEVICE_ACCESS_DRIVER) as [->|Hnd].
    + cbn. repeat split; intros; congruence.
    + exfalso. apply orb_true_iff in Hmode as [E|E]; apply Z.eqb_eq in E; congruence.
Qed.

(** The driver refuses to close: the channel is closed all the same. *)
Lemma TPMIO_Disconnect_closes_witness :
  let H := example_codes in
  let env := answering_chip 0 in
  let failing := {| reply_rc := fun _ e =>
                      match e with
                      | DeviceAccessTpmDriver_Uninitialize => RC_E_INTERNAL
                      | _ => 0
                      end;
                    reply_flag := reply_flag env; reply_bytes := reply_bytes env;
                    reply_uint := reply_uint env; reply_info := reply_info env;
                    reply_state := reply_state env |} in
  let w := set_g_fConnected true driver_world in
  TPMIO_Disconnect failing w
    = (RC_E_INTERNAL, set_g_fConnected false (log DeviceAccessTpmDriver_Uninitialize w)).
Proof.
  cbv zeta.
  match goal with
  | |- TPMIO_Disconnect ?env ?w = _ =>
      destruct (TPMIO_Disconnect_closes (H := example_codes) env w
                  (@TPM_DEVICE_ACCESS_DRIVER example_codes) eq_refl eq_refl)
        as (_ & _ & _ & Hdriver & _)
  end.
  apply Hdriver. discriminate.
Defined.

(** X17.  A [TPMIO_Connect] that fails leaves the channel closed, also when
    the device was initialized on the way (the access register was not
    valid, or dropping the privileges failed): a [TPMIO_Disconnect] behind
    it is refused with [RC_E_NOT_CONNECTED] and uninitializes nothing. *)
Theorem TPMIO_Connect_failure_stays_open `{Codes} (env : Env) (arm : bool)
    (w w' : World) (rc : Z) :
  TPMIO_Connect env arm w = (rc, w') ->
  g_fConnected w = false ->
  rc <> RC_SUCCESS ->
  g_fConnected w' = false /\
  TPMIO_Disconnect env w' = (RC_E_NOT_CONNECTED, w').
Proof.
  intros E Hc Hrc.
  assert (Hc' : g_fConnected w' = false).
  { destruct (g_fConnected w') eqn:Hf; [|reflexivity].
    destruct (TPMIO_Connect_sets_flag env arm w rc w' E Hc Hf) as [-> _].
    contradiction. }
  split; [exact Hc'|]. apply TPMIO_Disconnect_not_connected. exact Hc'.
Qed.

(** No valid TPM behind the mapped memory: the device is initialized, the
    connect fails with [RC_E_NOT_READY], and nothing will uninitialize it. *)
Lemma TPMIO_Connect_failure_stays_open_witness :
  let H := example_codes in
  let result := TPMIO_Connect absent_chip false memory_world in
  fst result = RC_E_NOT_READY /\
  trace (snd result) = [DeviceAccess_Initialize 0; TIS_IsAccessValid 0] /\
  TPMIO_Disconnect absent_chip (snd result) = (RC_E_NOT_CONNECTED, snd result).
Proof.
  cbv zeta.
  split; [vm_compute; reflexivity|]. split; [vm_compute; reflexivity|].
  apply (TPMIO_Connect_failure_stays_open (H := example_codes) absent_chip false
           memory_world _ (@RC_E_NOT_READY example_codes)).
  - vm_compute. reflexivity.
  - reflexivity.
  - discriminate.
Defined.

(** X18.  The register functions work on the memory based access only, and
    need no connection: with this mode configured [TPMIO_ReadRegister]
    gives the byte the device returns and [TPMIO_WriteRegister] writes the
    byte, whether or not the channel is connected; with the driver
    configured both fail with [RC_E_NOT_SUPPORTED_FEATURE] without touching
    the device, the byte read being set to zero; without a valid mode both
    fail with [RC_E_INTERNAL]. *)
Theorem TPMIO_register_access `{Codes} `{DeviceAccess Device}
    (w : World) (d : Device) (PunRegisterAddress bRegisterValue : Z) :
  TPM_DEVICE_ACCESS_MEMORY_BASED <> TPM_DEVICE_ACCESS_DRIVER ->
  let mode :=
    PropertyStorage_GetUIntegerValueByKey PROPERTY_TPM_DEVICE_ACCESS_MODE (props w) in
  (mode = Some TPM_DEVICE_ACCESS_MEMORY_BASED ->
   TPMIO_ReadRegister PunRegisterAddress (Some bRegisterValue) w d
     = ((RC_SUCCESS, Some (u8 (fst (DeviceAccess_ReadByte PunRegisterAddress d)))),
        snd (DeviceAccess_ReadByte PunRegisterAddress d)) /\
   TPMIO_WriteRegister PunRegisterAddress bRegisterValue w d
     = (RC_SUCCESS, DeviceAccess_WriteByte PunRegisterAddress (u8 bRegisterValue) d)) /\
  (mode = Some TPM_DEVICE_ACCESS_DRIVER ->
   TPMIO_ReadRegister PunRegisterAddress (Some bRegisterValue) w d
     = ((RC_E_NOT_SUPPORTED_FEATURE, Some 0), d) /\
   TPMIO_WriteRegister PunRegisterAddress bRegisterValue w d
     = (RC_E_NOT_SUPPORTED_FEATURE, d)) /\
  (mode <> Some TPM_DEVICE_ACCESS_MEMORY_BASED -> mode <> Some TPM_DEVICE_ACCESS_DRIVER ->
   TPMIO_ReadRegister PunRegisterAddress (Some bRegisterValue) w d
     = ((RC_E_INTERNAL, Some bRegisterValue), d) /\
   TPMIO_WriteRegister PunRegisterAddress bRegisterValue w d = (RC_E_INTERNAL, d)).
Proof.
  intros Hne mode. subst mode.
  unfold TPMIO_ReadRegister, TPMIO_WriteRegister, access_mode.
  split; [|split].
  - intros ->. rewrite !Z.eqb_refl. cbn [orb]. cbv beta iota. rewrite !Z.eqb_refl.
    destruct (DeviceAccess_ReadByte PunRegisterAddress d). split; reflexivity.
  - intros ->. rewrite !Z.eqb_refl, orb_true_r. cbv beta iota. rewrite !Z.eqb_refl.
    destruct (Z.eqb_spec TPM_DEVICE_ACCESS_DRIVER TPM_DEVICE_ACCESS_MEMORY_BASED);
      [congruence|]. split; reflexivity.
  - intros Hm Hd.
    destruct (PropertyStorage_GetUIntegerValueByKey _ _) as [m|]; [|split; reflexivity].
    destruct (Z.eqb_spec TPM_DEVICE_ACCESS_MEMORY_BASED m); [congruence|].
    destruct (Z.eqb_spec TPM_DEVICE_ACCESS_DRIVER m); [congruence|].
    split; reflexivity.
Qed.

(** The driver configured, and a channel that was never connected with the
    memory based access: the first refuses, the second reads and writes. *)
Lemma TPMIO_register_access_witness :
  let H := example_codes in
  let D := memory_device in
  TPMIO_ReadRegister 0xFED40F00 (Some 0x5A) driver_world (∅ : gmap Z Z)
    = ((RC_E_NOT_SUPPORTED_FEATURE, Some 0), ∅) /\
  g_fConnected memory_world = false /\
  TPMIO_WriteRegister 0xFED40000 0x102 memory_world (∅ : gmap Z Z)
    = (RC_SUCCESS, {[ 0xFED40000 := 0x02 ]}).
Proof.
  cbv zeta.
  destruct (TPMIO_register_access (H := example_codes) (H0 := memory_device)
              driver_world (∅ : gmap Z Z) 0xFED40F00 0x5A ltac:(discriminate))
    as (_ & Hdriver & _).
  destruct (TPMIO_register_access (H := example_codes) (H0 := memory_device)
              memory_world (∅ : gmap Z Z) 0xFED40000 0x102 ltac:(discriminate))
    as (Hmemory & _ & _).
  split; [apply Hdriver; reflexivity|]. split; [reflexivity|].
  apply Hmemory. reflexivity.
Defined.

(** * Clearing the ownership: when the command is sent *)

(** X20.  [CommandFlow_Tpm12ClearOwnership_Execute] sends [TPM_OwnerClear]
    only as the last of four calls, each of the three before it having
    returned success: the state probe, which found an owned TPM 1.2, the
    check of the default owner authorization, and [TPM_OIAP]; the command
    carries the handle and the nonce of that session, the default owner
    authorization, and no continued use of the session. *)
Theorem OwnerClear_only_when_checked `{Codes} (env : Env)
    (p : option IfxTpm12ClearOwnership) (w : World) :
  let result := run_block (CommandFlow_Tpm12ClearOwnership_Execute_block env p) w in
  exists t,
    trace (snd result) = trace w ++ t /\
    (existsb is_OwnerClear t = true ->
     let st := reply_state env (trace w) FirmwareUpdate_CalculateState in
     let w1 := log FirmwareUpdate_CalculateState w in
     let w2 := log (FirmwareUpdate_CheckOwnerAuthorization ownerAuthData) w1 in
     is_NULL p = false /\
     reply_rc env (trace w) FirmwareUpdate_CalculateState = RC_SUCCESS /\
     tpm12 st && tpm12owner st = true /\
     reply_rc env (trace w1) (FirmwareUpdate_CheckOwnerAuthorization ownerAuthData)
       = RC_SUCCESS /\
     reply_rc env (trace w2) TSS_TPM_OIAP = RC_SUCCESS /\
     t = [ FirmwareUpdate_CalculateState;
           FirmwareUpdate_CheckOwnerAuthorization ownerAuthData;
           TSS_TPM_OIAP;
           TSS_TPM_OwnerClear (reply_uint env (trace w2) TSS_TPM_OIAP)
                              (reply_bytes env (trace w2) TSS_TPM_OIAP)
                              false ownerAuthData ]).
Proof.
  cbv zeta.
  destruct (run_block _ w) as [code w'] eqn:E. cbn [snd]. revert E.
  unfold CommandFlow_Tpm12ClearOwnership_Execute_block, check_operation_mode,
    call_state, call.
  block_unfold. intros E.
  repeat flow_step_in E.
  all: assert (Hw := f_equal snd E); cbn [snd] in Hw; clear E; subst w'.
  all: cbn [trace log]; rewrite <- ?app_assoc; cbn [app].
  all: try (exists []; rewrite app_nil_r; split; [reflexivity|]; discriminate).
  all: eexists; (split; [reflexivity|]); cbn [existsb is_OwnerClear orb]; try discriminate.
  all: intros _; cbn [trace log] in *; rewrite <- ?app_assoc in *; cbn [app] in *.
  all: repeat match goal with
       | Hn : negb (_ =? RC_SUCCESS) = false |- _ => apply negb_false_iff, Z.eqb_eq in Hn
       end.
  all: repeat split; assumption.
Qed.

(** An owned TPM 1.2 with the default owner authorization. *)
Lemma OwnerClear_only_when_checked_witness :
  let H := example_codes in
  let result := run_block (CommandFlow_Tpm12ClearOwnership_Execute_block
                             {| reply_rc := fun _ _ => 0;
                                reply_flag := fun _ _ => true;
                                reply_bytes := fun _ _ => repeat 0x11 20;
                                reply_uint := fun _ _ => 0x00AB0001;
                                reply_info := fun _ _ => 0;
                                reply_state := fun _ _ => owned_tpm12 |}
                             (Some {| co_unReturnCode := 0 |})) fresh_world in
  fst result = RC_SUCCESS /\
  trace (snd result)
  = [ FirmwareUpdate_CalculateState;
      FirmwareUpdate_CheckOwnerAuthorization ownerAuthData;
      TSS_TPM_OIAP;
      TSS_TPM_OwnerClear 0x00AB0001 (repeat 0x11 20) false ownerAuthData ].
Proof.
  cbv zeta. split; [vm_compute; reflexivity|].
  match goal with
  | |- trace (snd (run_block (CommandFlow_Tpm12ClearOwnership_Execute_block ?env ?p) ?w)) = _ =>
      destruct (OwnerClear_only_when_checked (H := example_codes) env p w)
        as (t & Ht & Hsent)
  end.
  rewrite Ht. cbn [trace fresh_world app].
  assert (Hs : existsb is_OwnerClear t = true).
  { apply (f_equal (existsb is_OwnerClear)) in Ht. cbn [trace fresh_world app] in Ht.
    rewrite <- Ht. vm_compute. reflexivity. }
  destruct (Hsent Hs) as (_ & _ & _ & _ & _ & ->). reflexivity.
Defined.

(** * Command layer: one command, one transmission *)

Section CommandWorld_lemmas.
Context `{Codes} (env : Env) {Out : Type}.

Lemma keeps_world_bind {A B} (b : Block (Cmd Out) A) (k : A -> Block (Cmd Out) B) :
  keeps_world b -> (forall a, keeps_world (k a)) -> keeps_world (b ≫= k).
Proof.
  intros Hb Hk s. block_unfold. specialize (Hb s).
  destruct (b s) as [a s1|rc s1]; [|exact Hb].
  specialize (Hk a s1). destruct (k a s1); congruence.
Qed.

Lemma transmits_once_bind_l {A B} (b : Block (Cmd Out) A) (k : A -> Block (Cmd Out) B) :
  keeps_world b -> (forall a, transmits_once (k a)) -> transmits_once (b ≫= k).
Proof.
  intros Hb Hk s. block_unfold. specialize (Hb s).
  destruct (b s) as [a s1|rc s1]; [|left; exact Hb].
  specialize (Hk a s1). rewrite Hb in Hk. exact Hk.
Qed.

Lemma transmits_once_bind_r {A B} (b : Block (Cmd Out) A) (k : A -> Block (Cmd Out) B) :
  transmits_once b -> (forall a, keeps_world (k a)) -> transmits_once (b ≫= k).
Proof.
  intros Hb Hk s. block_unfold. specialize (Hb s).
  destruct (b s) as [a s1|rc s1]; [|exact Hb].
  specialize (Hk a s1). destruct (k a s1); rewrite Hk; exact Hb.
Qed.

Lemma keeps_world_ret {A} (a : A) : keeps_world (Out := Out) (mret a).
Proof. intros s. reflexivity. Qed.

Lemma keeps_world_check rc : keeps_world (check (S := Cmd Out) rc).
Proof. intros s. block_unfold. destruct (negb _); reflexivity. Qed.

Lemma keeps_world_marshal_step m : keeps_world (marshal_step (Out := Out) m).
Proof.
  intros s. unfold marshal_step. block_unfold.
  destruct (m (cursor s)) as [rc c]. destruct (negb _); reflexivity.
Qed.

Lemma keeps_world_unmarshal_step {T} (u : Cursor -> (Z * T) * Cursor) store :
  keeps_world (unmarshal_step (Out := Out) u store).
Proof.
  intros s. unfold unmarshal_step. block_unfold.
  destruct (u (cursor s)) as [[rc v] c]. cbn. destruct (negb _); reflexivity.
Qed.

Lemma keeps_world_response_code_step r :
  keeps_world (response_code_step (Out := Out) r).
Proof. intros s. unfold response_code_step. block_unfold. destruct (negb _); reflexivity. Qed.

Lemma transmits_once_transmit_step : transmits_once (transmit_step (Out := Out) env).
Proof.
  intros s. unfold transmit_step, marshal_step, transmits_at_most_once. block_unfold.
  destruct (TSS_UINT32_Marshal _ _) as [rc c]. cbn.
  destruct (negb (rc =? RC_SUCCESS)); [left; reflexivity|].
  destruct (negb _); right; eauto.
Qed.
End CommandWorld_lemmas.

Ltac keeps_world_tac :=
  repeat first
    [ apply keeps_world_marshal_step
    | apply keeps_world_unmarshal_step
    | apply keeps_world_response_code_step
    | apply keeps_world_check
    | apply keeps_world_ret
    | apply keeps_world_bind; [|intros ?] ].

Ltac transmits_once_tac :=
  repeat first
    [ apply transmits_once_transmit_step
    | apply transmits_once_bind_l; [keeps_world_tac|intros ?] ].

Section CommandWorld.
Context `{Codes} `{TPM2_Types} (env : Env).

Lemma keeps_world_marshal_session_context {Out} (d : AuthorizationCommandData) :
  keeps_world (marshal_session_context (Out := Out) d).
Proof.
  unfold marshal_session_context.
  apply keeps_world_bind; [intros s; reflexivity|intros pos].
  apply keeps_world_bind; [apply keeps_world_marshal_step|intros _].
  apply keeps_world_bind; [apply keeps_world_marshal_step|intros _].
  apply keeps_world_bind; [intros s; reflexivity|intros c].
  destruct (TSS_UINT32_Marshal _ _) as [rc c'].
  apply keeps_world_bind; [intros s; reflexivity|intros _].
  apply keeps_world_check.
Qed.

Lemma run_transmits_once {Out} (request : Block (Cmd Out) unit)
    (response : Block (Cmd Out) Z) (s : Cmd Out) :
  transmits_once request -> keeps_world response ->
  transmits_at_most_once (world s) (world (snd (run_block (request;; response) s))).
Proof.
  intros Hq Hr.
  pose proof (transmits_once_bind_r request (fun _ => response) Hq (fun _ => Hr) s) as Hs.
  unfold run_block.
  change (request;; response) with (request ≫= (fun _ : unit => response)).
  destruct ((request ≫= (fun _ : unit => response)) s); exact Hs.
Qed.
End CommandWorld.

(** X19.  Each of the four command functions talks to the chip at most
    once and does nothing else to the world: behind it the world is the one
    before it, or that with one [DeviceManagement_Transmit] for a response
    of at most [MAX_RESPONSE_SIZE] bytes added, whatever the function
    returns. *)
Theorem command_transmits_at_most_once `{Codes} `{TPM2_Types} (env : Env) (w : World) :
  (forall capability property propertyCount,
     transmits_at_most_once w
       (world (snd (TSS_TPM2_GetCapability env capability property propertyCount w)))) /\
  (forall tpmKey bind_ nonceCaller encryptedSalt sessionType symmetric authHash,
     transmits_at_most_once w
       (world (snd (TSS_TPM2_StartAuthSession env tpmKey bind_ nonceCaller encryptedSalt
                      sessionType symmetric authHash w)))) /\
  transmits_at_most_once w (world (snd (TSS_TPM2_GetTestResult env w))) /\
  (forall authHandle sessionData newAuth,
     transmits_at_most_once w
       (world (snd (TSS_TPM2_HierarchyChangeAuth env authHandle sessionData newAuth w)))).
Proof.
  split; [|split; [|split]].
  - intros. unfold TSS_TPM2_GetCapability.
    apply (run_transmits_once (H := H)).
    + unfold TSS_TPM2_GetCapability_request. transmits_once_tac.
    + unfold TSS_TPM2_GetCapability_response. keeps_world_tac.
  - intros. unfold TSS_TPM2_StartAuthSession.
    apply (run_transmits_once (H := H)).
    + unfold TSS_TPM2_StartAuthSession_request. transmits_once_tac.
    + unfold TSS_TPM2_StartAuthSession_response. keeps_world_tac.
  - unfold TSS_TPM2_GetTestResult.
    apply (run_transmits_once (H := H)).
    + unfold TSS_TPM2_GetTestResult_request. transmits_once_tac.
    + unfold TSS_TPM2_GetTestResult_response. keeps_world_tac.
  - intros. unfold TSS_TPM2_HierarchyChangeAuth.
    apply (run_transmits_once (H := H)).
    + unfold TSS_TPM2_HierarchyChangeAuth_request.
      repeat first
        [ apply transmits_once_transmit_step
        | apply transmits_once_bind_l;
          [first [apply keeps_world_marshal_session_context|keeps_world_tac]|intros ?] ].
    + unfold TSS_TPM2_HierarchyChangeAuth_response. keeps_world_tac.
Qed.

(** * What the check of the image touches *)

Section IsFirmwareUpdatable_frame.
Context `{Codes} `{Platform} (env : Env).

Lemma IsTpmUpdatableWithFirmware_block_frame u w rv u1 w1 :
  run_block (CommandFlow_TpmUpdate_IsTpmUpdatableWithFirmware_block env) (u, w)
    = (rv, (u1, w1)) ->
  w1 = w \/ w1 = log (FirmwareUpdate_CheckImage (rgbFirmwareImage u)) w.
Proof.
  unfold CommandFlow_TpmUpdate_IsTpmUpdatableWithFirmware_block.
  unfold getsU, getsW, modifyU, modifyW, liftW, call. block_unfold. cbn [fst snd].
  intros E. repeat flow_step_in E.
  all: flow_result E; auto.
Qed.
End IsFirmwareUpdatable_frame.

(** X22.  [CommandFlow_TpmUpdate_IsFirmwareUpdatable] changes nothing but
    the structure: property storage, files and flags are behind it as they
    were before, and all it calls is the read of the image file named by the
    firmware path and, behind it, the image check on the bytes read. *)
Theorem IsFirmwareUpdatable_reads_only `{Codes} `{Platform} (env : Env)
    (PpTpmUpdate : option IfxUpdate) (w : World) :
  let w' := snd (snd (CommandFlow_TpmUpdate_IsFirmwareUpdatable env PpTpmUpdate w)) in
  props w' = props w /\ files w' = files w /\ g_fConnected w' = g_fConnected w /\
  s_fUpdateThroughConfigFile w' = s_fUpdateThroughConfigFile w /\
  (trace w' = trace w \/
   exists wszFirmwareImagePath,
     PropertyStorage_GetValueByKey PROPERTY_FIRMWARE_PATH MAX_PATH (props w)
       = Some wszFirmwareImagePath /\
     (trace w' = trace w ++ [FileIO_ReadFileToBuffer wszFirmwareImagePath] \/
      trace w' = trace w ++
                 [FileIO_ReadFileToBuffer wszFirmwareImagePath;
                  FirmwareUpdate_CheckImage
                    (bytes_of_string
                       (default EmptyString (files w !! wszFirmwareImagePath)))])).
Proof.
  cbv zeta. unfold CommandFlow_TpmUpdate_IsFirmwareUpdatable.
  destruct PpTpmUpdate as [u|]; [|cbn; auto 10].
  destruct (run_block _ _) as [rv [u1 w1]] eqn:E. cbn [snd]. revert E.
  unfold CommandFlow_TpmUpdate_IsFirmwareUpdatable_block, check_updatable, refuse.
  unfold getsU, getsW, modifyU, modifyW, liftW, FileIO_ReadFileToBuffer_.
  block_unfold. cbn [fst snd]. intros E.
  repeat flow_step_in E.
  all: flow_result E; cbn [fst snd] in *.
  all: try (repeat split; auto; fail).
  all: try (repeat split; try reflexivity; right; eexists; (split; [reflexivity|]);
            left; apply trace_log).
  all: match goal with
       | Hb : CommandFlow_TpmUpdate_IsTpmUpdatableWithFirmware_block ?ev ?s = _ ?a ?s0 |- _ =>
           destruct s0 as [u2 w2];
           assert (Hr : run_block (CommandFlow_TpmUpdate_IsTpmUpdatableWithFirmware_block ev) s
                        = (a, (u2, w2)))
             by (unfold run_block; rewrite Hb; reflexivity);
           apply IsTpmUpdatableWithFirmware_block_frame in Hr;
           cbn [fst snd] in *; destruct Hr as [->| ->]
       end.
  all: repeat split; try reflexivity; right; eexists; (split; [reflexivity|]).
  all: rewrite ?trace_log, <- ?app_assoc; cbn [app]; auto.
Qed.

(** * Run data: written by one run, read by the next *)

(** X21.  What the update-started callback writes is what the resume reads:
    when an update through the config file has started (the run data file
    could be opened and the firmware path written to it), a later run that
    finds the files as the callback left them, on a chip in boot loader
    mode, takes its firmware path from the run data, and it is the path of
    the interrupted update, provided the file can be read and its first
    line is the whole content. *)
Theorem run_data_round_trip `{Codes} `{Platform} (env : Env)
    (u : IfxUpdate) (w wr : World) (wszFirmwareImagePath : string) :
  let started := CommandFlow_TpmUpdate_UpdateStartedCallback env w in
  let read := FileIO_ReadFileToStringBuffer TPM_FACTORY_UPD_RUNDATA_FILE in
  let tr := trace wr ++ [FileIO_Exists TPM_FACTORY_UPD_RUNDATA_FILE] in
  s_fUpdateThroughConfigFile w = true ->
  PropertyStorage_GetValueByKey PROPERTY_FIRMWARE_PATH MAX_PATH (props w)
    = Some wszFirmwareImagePath ->
  reply_rc env (trace w) (FileIO_Open_write TPM_FACTORY_UPD_RUNDATA_FILE) = 0 ->
  reply_rc env (trace w ++ [FileIO_Open_write TPM_FACTORY_UPD_RUNDATA_FILE])
    (FileIO_WriteString TPM_FACTORY_UPD_RUNDATA_FILE wszFirmwareImagePath) = 0 ->
  files wr = files started ->
  props wr !! PROPERTY_FIRMWARE_PATH = None ->
  reply_rc env tr read = RC_SUCCESS ->
  Utility_StringGetLine wszFirmwareImagePath (reply_uint env tr read) 0
    = (RC_SUCCESS, wszFirmwareImagePath) ->
  exists w',
    resume_firmware_image env (u, wr) = Next tt (u, w') /\
    props w' = <[PROPERTY_FIRMWARE_PATH := PString wszFirmwareImagePath]> (props wr) /\
    files w' = files started.
Proof.
  intros started read tr Hflag Hpath Hopen Hwrite Hfiles Hnone Hread Hline.
  destruct (UpdateStartedCallback_creates env w Hflag Hopen) as [_ Hcontent].
  specialize (Hcontent wszFirmwareImagePath Hpath Hwrite). fold started in Hcontent.
  rewrite resume_firmware_image_cases. rewrite Hfiles, Hcontent.
  rewrite trace_log. fold tr. fold read. rewrite Hread.
  cbn [RC_SUCCESS Z.eqb negb]. rewrite Hline. cbn [RC_SUCCESS Z.eqb negb].
  unfold PropertyStorage_AddKeyValuePair. rewrite Hnone.
  eexists. split; [reflexivity|]. split; [reflexivity|exact Hfiles].
Qed.

(** An update to [image.bin] through the config file is interrupted; the
    next run resumes with [image.bin]. *)
Lemma run_data_round_trip_witness :
  let H := example_codes in
  let P := example_platform in
  let started := CommandFlow_TpmUpdate_UpdateStartedCallback quiet_env config_update_world in
  let next_run := set_files (files started) config_option_world in
  files started !! TPM_FACTORY_UPD_RUNDATA_FILE = Some "image.bin" /\
  exists w',
    resume_firmware_image quiet_env (interrupted_tpm, next_run)
      = Next tt (interrupted_tpm, w') /\
    props w' !! PROPERTY_FIRMWARE_PATH = Some (PString "image.bin").
Proof.
  cbv zeta. split; [vm_compute; reflexivity|].
  destruct (run_data_round_trip (H := example_codes) (H0 := example_platform) quiet_env
              interrupted_tpm config_update_world
              (set_files (files (@CommandFlow_TpmUpdate_UpdateStartedCallback example_codes
                                   quiet_env config_update_world)) config_option_world)
              "image.bin") as (w' & E & Hp & _).
  - reflexivity.
  - vm_compute. reflexivity.
  - reflexivity.
  - reflexivity.
  - reflexivity.
  - vm_compute. reflexivity.
  - reflexivity.
  - vm_compute. reflexivity.
  - exists w'. split; [exact E|]. rewrite Hp. apply lookup_insert_eq.
Defined.
